(** * Shallow embedding of the XISP libcamera pipeline handler

    Source: [src/libcamera/pipeline/xisp/xisp.cpp].

    Conventions of the embedding.
    - [unsigned int] values are [N]; [int] return codes are [Z] (0 is
      success, a negative errno is failure).
    - A C++ object handle ([std::unique_ptr<V4L2Subdevice>] and the like)
      is the name of the media entity it was created from; [None] is the
      null pointer.
    - A [Stream *] is an address ([Z]); the camera's [streams_] vector
      lives at [streams_base] and its elements are [sizeof_Stream] apart.
    - Calls into devices are recorded, with their return code, in a trace
      of [Event]s; what a device answers is given by the [Platform].
    - Undefined behaviour of the C++ code (null dereference, access out
      of a vector's range) is the result [None] of the [Dev] monad. *)

From Stdlib Require Import ZArith NArith String Ascii List Bool Sorted Lia.
From stdpp Require Import base tactics option list numbers strings gmap pretty.

Local Open Scope string_scope.
Local Open Scope list_scope.

(** ** Strings: [std::string::find] *)

(** [starts_with p s]: [p] occurs in [s] at position 0. *)
Fixpoint starts_with (p s : string) : bool :=
  match p, s with
  | EmptyString, _ => true
  | String a p', String b s' => Ascii.eqb a b && starts_with p' s'
  | String _ _, EmptyString => false
  end.

(** [find_from p s pos]: position of the first occurrence of [p] in [s],
    counted from [pos]; [None] is [std::string::npos]. *)
Fixpoint find_from (p s : string) (pos : nat) : option nat :=
  if starts_with p s then Some pos
  else match s with
       | EmptyString => None
       | String _ s' => find_from p s' (S pos)
       end.

(** [s.find(p)] *)
Definition find (s p : string) : option nat := find_from p s 0.

(** [s.find(p) != std::string::npos] *)
Definition contains (s p : string) : bool :=
  match find s p with Some _ => true | None => false end.

(** ** Geometry and formats *)

Module Size.
Record t : Type := mk { width : N; height : N }.
(** The default-constructed [Size]: 0x0. *)
Definition zero : t := mk 0 0.
End Size.

#[global] Instance Size_eq_dec : EqDecision Size.t.
Proof. solve_decision. Defined.

(** [linux/media-bus-format.h] and [linux/media.h] constants used by the
    handler. *)
Definition MEDIA_BUS_FMT_RGB888_1X24 : N := 0x100a.
Definition MEDIA_BUS_FMT_RBG888_1X24 : N := 0x100e.
Definition MEDIA_BUS_FMT_BGR888_1X24 : N := 0x1013.
Definition MEDIA_BUS_FMT_YUV8_1X24 : N := 0x2025.
Definition MEDIA_BUS_FMT_SRGGB10_1X10 : N := 0x300f.
Definition MEDIA_ENT_F_CAM_SENSOR : N := 0x00020001.
Definition ENODEV : Z := 19.

(** Application-visible pixel formats: the four the handler names, and any
    other fourcc. *)
Inductive PixelFormat : Type :=
| YUYV | RGB888 | BGR888 | RBG888
| OtherFormat (fourcc : N).

#[global] Instance PixelFormat_eq_dec : EqDecision PixelFormat.
Proof. solve_decision. Defined.

(** [XISPCameraConfiguration::formatsMap_] *)
Definition formatsMap_ : list (PixelFormat * N) :=
  [ (YUYV, MEDIA_BUS_FMT_YUV8_1X24);
    (RGB888, MEDIA_BUS_FMT_RGB888_1X24);
    (BGR888, MEDIA_BUS_FMT_BGR888_1X24);
    (RBG888, MEDIA_BUS_FMT_RBG888_1X24) ].

(** The pixel-format metadata the handler consults through
    [PixelFormatInfo::info]: an external table. *)
Module PixelFormatInfo.
Record t : Type := mk {
  bitsPerPixel : N;
  numPlanes : N;
  stride : N -> N -> N;          (* stride(width, plane) *)
  frameSize : Size.t -> N -> N;  (* frameSize(size, align) *)
}.
End PixelFormatInfo.

Module V4L2SubdeviceFormat.
Record t : Type := mk { code : N; size : Size.t; colorSpace : option N }.
(** [V4L2SubdeviceFormat fmt{}] *)
Definition zero : t := mk 0 Size.zero None.
End V4L2SubdeviceFormat.

Module V4L2DeviceFormat.
Record t : Type := mk {
  fourcc : N;
  size : Size.t;
  colorSpace : option N;
  planesCount : N;
  bpl0 : N;                      (* planes[0].bpl *)
}.
Definition zero : t := mk 0 Size.zero None 0 0.
End V4L2DeviceFormat.

(** [kMinXISPSize] and [kMaxXISPSize] *)
Definition kMinXISPSize : Size.t := Size.mk 64 64.
Definition kMaxXISPSize : Size.t := Size.mk 4096 4096.

Module StreamConfiguration.
Record t : Type := mk {
  pixelFormat : PixelFormat;
  size : Size.t;
  stride : N;
  frameSize : N;
  bufferCount : N;
  stream_ : option Z;            (* Stream *; None is nullptr *)
  formats_ : list (PixelFormat * (Size.t * Size.t));
}.
(** [StreamConfiguration(const StreamFormats &formats)] *)
Definition make (formats : list (PixelFormat * (Size.t * Size.t))) : t :=
  mk (OtherFormat 0) Size.zero 0 0 0 None formats.
(** [setStream] *)
Definition setStream (c : t) (s : Z) : t :=
  mk (pixelFormat c) (size c) (stride c) (frameSize c) (bufferCount c)
     (Some s) (formats_ c).
End StreamConfiguration.

Module Stream.
Record t : Type := mk { configuration_ : StreamConfiguration.t }.
Definition fresh : t := mk (StreamConfiguration.make []).
End Stream.

Module CameraSensor.
Record t : Type := mk { entity : string; id : string }.
End CameraSensor.

(** ** Camera data *)

Module XISPCameraData.
Record t : Type := mk {
  camSensor_ : option CameraSensor.t;
  streams_base : Z;              (* &*streams_.begin() *)
  streams_ : list Stream.t;
  enabledStreams_ : list (option Z);  (* std::vector<Stream *> *)
}.
(** The constructor: [streams_.resize(1)]. [base] is where the vector's
    storage was allocated. *)
Definition make (base : Z) : t := mk None base [Stream.fresh] [].
Definition set_camSensor (d : t) (s : option CameraSensor.t) : t :=
  mk s (streams_base d) (streams_ d) (enabledStreams_ d).
Definition set_enabledStreams (d : t) (l : list (option Z)) : t :=
  mk (camSensor_ d) (streams_base d) (streams_ d) l.
(** [XISPCameraData::init] *)
Definition init (d : t) : Z :=
  match camSensor_ d with
  | None => (- ENODEV)%Z
  | Some _ => 0%Z
  end.
End XISPCameraData.

Inductive Status : Type := Valid | Adjusted | Invalid.

Module XISPCameraConfiguration.
Record t : Type := mk {
  config_ : list StreamConfiguration.t;
  sensorFormat_ : V4L2SubdeviceFormat.t;
}.
(** A freshly constructed configuration. *)
Definition make : t := mk [] V4L2SubdeviceFormat.zero.
(** [addConfiguration] *)
Definition addConfiguration (c : t) (cfg : StreamConfiguration.t) : t :=
  mk (config_ c ++ [cfg]) (sensorFormat_ c).
End XISPCameraConfiguration.

(** [std::set<Stream *>]: a strictly ascending list of addresses. *)
Fixpoint set_insert (x : Z) (s : list Z) : list Z :=
  match s with
  | [] => [x]
  | y :: s' =>
      if (x <? y)%Z then x :: s
      else if (x =? y)%Z then s
      else y :: set_insert x s'
  end.


(** ** The media graph *)

Module MediaEntity.
Record t : Type := mk { name : string; function : N }.
End MediaEntity.

Module MediaDevice.
Record t : Type := mk { driver : string; entities : list MediaEntity.t }.
End MediaDevice.

Module DeviceMatch.
Record t : Type := mk { driver : string; entities : list string }.
(** [DeviceMatch dm(driver); dm.add(entity)] *)
Definition add (dm : t) (entity : string) : t :=
  mk (driver dm) (entities dm ++ [entity]).
End DeviceMatch.

(** [DeviceEnumerator], as seen through [acquireMediaDevice]. *)
Definition DeviceEnumerator : Type := DeviceMatch.t -> option MediaDevice.t.

(** ** Device calls and their trace *)

Inductive Call : Type :=
| AcquireMediaDevice (dm : DeviceMatch.t)
| Open (dev : string)
| ConnectBufferReady (dev : string)
| LinkSetEnabled (sensor : string)
| SensorSetFormat (sensor : string) (fmt : V4L2SubdeviceFormat.t)
| SubdevSetFormat (dev : string) (pad : N) (fmt : V4L2SubdeviceFormat.t)
| VideoSetFormat (dev : string) (fmt : V4L2DeviceFormat.t)
| ExportBuffers (dev : string) (count : N)
| ImportBuffers (dev : string) (count : N)
| StreamOn (dev : string)
| StreamOff (dev : string)
| ReleaseBuffers (dev : string)
| QueueBuffer (dev : string) (buffer : N).

Module Event.
Record t : Type := mk { call : Call; rc : Z }.
End Event.

(** A computation that calls devices: its value and the calls it made, in
    order, or [None] where the C++ code has undefined behaviour. *)
Definition Dev (A : Type) : Type := option (A * list Event.t).

Definition dev_ret {A} (a : A) : Dev A := Some (a, []).

Definition dev_bind {A B} (m : Dev A) (f : A -> Dev B) : Dev B :=
  match m with
  | None => None
  | Some (a, t1) =>
      match f a with
      | None => None
      | Some (b, t2) => Some (b, t1 ++ t2)
      end
  end.

Definition undefined {A} : Dev A := None.

(** One device call that answered [r]. *)
Definition emit (c : Call) (r : Z) : Dev Z := Some (r, [Event.mk c r]).

Notation "x <- m ;; k" := (dev_bind m (fun x => k))
  (at level 100, m at next level, right associativity).

(** ** The pipeline handler's state *)

Module Pipe.
Record t : Type := mk { resizer : string; capture : string }.
End Pipe.

Module Camera.
Record t : Type := mk {
  data : XISPCameraData.t;
  id : string;
  streams : list Z;
}.
End Camera.

Module PipelineHandlerXISP.
Record t : Type := mk {
  mediaDev_ : option MediaDevice.t;
  sensorBestSize_ : Size.t;
  sensorBestFormatCode_ : N;
  sensor_ : option string;
  vcm_ : option string;
  csi2rx_ : option string;
  xisp_ : option string;
  pipes_ : list Pipe.t;
  (** [PipelineHandler::cameras_], filled by [registerCamera] *)
  cameras_ : list Camera.t;
}.
(** A new handler. [sensorBestFormatCode_] has no initialiser: [code0]
    stands for its indeterminate value. *)
Definition make (code0 : N) : t :=
  mk None Size.zero code0 None None None None [] [].
Definition set_mediaDev (h : t) (d : option MediaDevice.t) : t :=
  mk d (sensorBestSize_ h) (sensorBestFormatCode_ h) (sensor_ h) (vcm_ h)
     (csi2rx_ h) (xisp_ h) (pipes_ h) (cameras_ h).
Definition set_sensorBest (h : t) (w ht code : N) : t :=
  mk (mediaDev_ h) (Size.mk w ht) code (sensor_ h) (vcm_ h)
     (csi2rx_ h) (xisp_ h) (pipes_ h) (cameras_ h).
Definition set_sensor (h : t) (d : option string) : t :=
  mk (mediaDev_ h) (sensorBestSize_ h) (sensorBestFormatCode_ h) d (vcm_ h)
     (csi2rx_ h) (xisp_ h) (pipes_ h) (cameras_ h).
Definition set_vcm (h : t) (d : option string) : t :=
  mk (mediaDev_ h) (sensorBestSize_ h) (sensorBestFormatCode_ h) (sensor_ h) d
     (csi2rx_ h) (xisp_ h) (pipes_ h) (cameras_ h).
Definition set_csi2rx (h : t) (d : option string) : t :=
  mk (mediaDev_ h) (sensorBestSize_ h) (sensorBestFormatCode_ h) (sensor_ h)
     (vcm_ h) d (xisp_ h) (pipes_ h) (cameras_ h).
Definition set_xisp (h : t) (d : option string) : t :=
  mk (mediaDev_ h) (sensorBestSize_ h) (sensorBestFormatCode_ h) (sensor_ h)
     (vcm_ h) (csi2rx_ h) d (pipes_ h) (cameras_ h).
Definition push_pipe (h : t) (p : Pipe.t) : t :=
  mk (mediaDev_ h) (sensorBestSize_ h) (sensorBestFormatCode_ h) (sensor_ h)
     (vcm_ h) (csi2rx_ h) (xisp_ h) (pipes_ h ++ [p]) (cameras_ h).
(** [registerCamera] *)
Definition registerCamera (h : t) (c : Camera.t) : t :=
  mk (mediaDev_ h) (sensorBestSize_ h) (sensorBestFormatCode_ h) (sensor_ h)
     (vcm_ h) (csi2rx_ h) (xisp_ h) (pipes_ h) (cameras_ h ++ [c]).
End PipelineHandlerXISP.

(** [StreamRole]: libcamera's four roles, and any other value of the
    enumeration's underlying type. *)
Inductive StreamRole : Type :=
| Raw | StillCapture | VideoRecording | Viewfinder
| UnknownRole (v : Z).

(** The locals of [match] next to the handler while entities are scanned. *)
Module Scan.
Record t : Type := mk {
  handler : PipelineHandlerXISP.t;
  sensor_entity : option MediaEntity.t;
  resizer : option string;
  capture : option string;
}.
Definition set_handler (st : t) (h : PipelineHandlerXISP.t) : t :=
  mk h (sensor_entity st) (resizer st) (capture st).
End Scan.

(** ** Requests and buffers (owned by the framework) *)

Module FrameBuffer.
Record t : Type := mk {
  cookie : N;                    (* identity of the buffer *)
  timestamp : Z;                 (* metadata().timestamp *)
}.
End FrameBuffer.

Module Request.
(** Modelled from the spec: the framework's [Request] is not part of this
    repository. A Request carries, for each enabled Stream, one buffer slot
    to fill, plus a metadata map; [pending_] holds the slots not yet
    fulfilled and [completions] counts how many times the Request was
    marked complete and handed back. *)
Record t : Type := mk {
  metadata : gmap N Z;
  pending_ : gset N;
  completions : nat;
}.
(** A Request queued with the buffers [bufs], nothing fulfilled yet. *)
Definition queued (bufs : list N) : t := mk (∅ : gmap N Z) (list_to_set bufs) 0.
(** [metadata().contains(id)] *)
Definition contains (r : t) (id : N) : bool :=
  bool_decide (is_Some (metadata r !! id)).
(** [metadata().set(id, v)] *)
Definition set (r : t) (id : N) (v : Z) : t :=
  mk (<[id := v]> (metadata r)) (pending_ r) (completions r).
(** Modelled from the spec: "mark that buffer as fulfilled for its
    Request" ([completeBuffer]). *)
Definition completeBuffer (r : t) (b : FrameBuffer.t) : t :=
  mk (metadata r) (pending_ r ∖ {[FrameBuffer.cookie b]}) (completions r).
(** Modelled from the spec: "the Request still has unfulfilled buffer
    slots" ([hasPendingBuffers]). *)
Definition hasPendingBuffers (r : t) : bool :=
  negb (bool_decide (pending_ r = ∅)).
(** Modelled from the spec: "mark the Request complete and hand it back to
    the owning framework" ([completeRequest]). *)
Definition completeRequest (r : t) : t :=
  mk (metadata r) (pending_ r) (S (completions r)).
End Request.

(** ** External collaborators

    Everything the handler calls and does not implement: the pixel-format
    metadata table, libcamera's ordering of sizes, the memory layout of
    the camera's stream vector, and what each device answers to a call. *)

Class Platform : Type := {
  (** [sizeof(Stream)] *)
  sizeof_Stream : Z;
  (** where the allocator places the storage of a new camera's [streams_] *)
  streams_storage : Z;
  (** [PixelFormatInfo::info] *)
  info : PixelFormat -> PixelFormatInfo.t;
  (** [V4L2VideoDevice::toV4L2PixelFormat] *)
  toV4L2PixelFormat : PixelFormat -> N;
  (** libcamera's [operator>] on [Size] *)
  size_gt : Size.t -> Size.t -> bool;
  (** [controls::SensorTimestamp.id()] *)
  SensorTimestamp : N;
  (** [CameraSensorFactoryBase::create], by entity name; [None] is nullptr *)
  create_sensor : string -> option CameraSensor.t;
  (** return code of [open()] on the device of an entity *)
  hw_open : string -> Z;
  (** return code of [MediaLink::setEnabled] on the sensor's first link *)
  hw_setEnabled : string -> Z;
  (** [CameraSensor::setFormat]: return code and the format as the driver
      adjusted it *)
  hw_sensor_setFormat :
    string -> V4L2SubdeviceFormat.t -> Z * V4L2SubdeviceFormat.t;
  (** [V4L2Subdevice::setFormat(pad, &format)] *)
  hw_subdev_setFormat :
    string -> N -> V4L2SubdeviceFormat.t -> Z * V4L2SubdeviceFormat.t;
  (** [V4L2VideoDevice::setFormat(&format)] *)
  hw_video_setFormat :
    string -> V4L2DeviceFormat.t -> Z * V4L2DeviceFormat.t;
  hw_exportBuffers : string -> N -> Z;
  hw_importBuffers : string -> N -> Z;
  hw_streamOn : string -> Z;
  hw_streamOff : string -> Z;
  hw_releaseBuffers : string -> Z;
  hw_queueBuffer : string -> N -> Z;
}.

Section XISP.

Context {platform : Platform}.

(** Address of [streams_[k]]. *)
Definition stream_addr (data : XISPCameraData.t) (k : nat) : Z :=
  (XISPCameraData.streams_base data + Z.of_nat k * sizeof_Stream)%Z.

(** The [std::transform] that fills a set with the addresses of the
    elements of [streams_]. *)
Definition stream_set (data : XISPCameraData.t) : list Z :=
  foldl (fun s k => set_insert (stream_addr data k) s) []
        (seq 0 (length (XISPCameraData.streams_ data))).

(** ** [XISPCameraConfiguration::validate] *)

(** The loop that binds streams and derives stride and frame size; it
    extracts [availableStreams.begin()] for each entry. *)
Fixpoint assign_streams (i : PixelFormatInfo.t) (availableStreams : list Z)
    (cfgs : list StreamConfiguration.t) {struct cfgs}
    : option (list StreamConfiguration.t) :=
  match cfgs with
  | [] => Some []
  | config :: rest =>
      match availableStreams with
      | [] => None
      | stream :: available' =>
          let config1 := StreamConfiguration.setStream config stream in
          let config2 :=
            StreamConfiguration.mk
              (StreamConfiguration.pixelFormat config1)
              (StreamConfiguration.size config1)
              (PixelFormatInfo.stride i
                 (Size.width (StreamConfiguration.size config1)) 0)
              (PixelFormatInfo.frameSize i
                 (StreamConfiguration.size config1)
                 (PixelFormatInfo.bitsPerPixel i))
              (StreamConfiguration.bufferCount config1)
              (StreamConfiguration.stream_ config1)
              (StreamConfiguration.formats_ config1) in
          match assign_streams i available' rest with
          | Some rest' => Some (config2 :: rest')
          | None => None
          end
      end
  end.

(** The loop selecting [maxSize]. *)
Definition max_size (cfgs : list StreamConfiguration.t) : Size.t :=
  foldl (fun maxSize cfg =>
           if size_gt (StreamConfiguration.size cfg) maxSize
           then StreamConfiguration.size cfg else maxSize)
        Size.zero cfgs.

(** [config_.resize(n)] where [n] is smaller than the size. *)
Definition shrink {A} (n : nat) (l : list A) : list A := take n l.

Definition validate (data : XISPCameraData.t) (c : XISPCameraConfiguration.t)
    : option (Status * XISPCameraConfiguration.t) :=
  let status := Valid in
  let availableStreams := stream_set data in
  let config_ := XISPCameraConfiguration.config_ c in
  match config_ with
  | [] => Some (Invalid, c)
  | _ :: _ =>
      let '(config_, status) :=
        if (length availableStreams <? length config_)%nat
        then (shrink (length availableStreams) config_, Adjusted)
        else (config_, status) in
      let '(config_, status) :=
        if (1 <? length config_)%nat
        then (shrink 1 config_, Adjusted)
        else (config_, status) in
      match config_ with
      | [] => None                 (* config_[0] on an empty vector *)
      | first :: _ =>
          let i := info (StreamConfiguration.pixelFormat first) in
          match assign_streams i availableStreams config_ with
          | None => None
          | Some config_ =>
              let maxSize := max_size config_ in
              Some (status,
                    XISPCameraConfiguration.mk config_
                      (V4L2SubdeviceFormat.mk MEDIA_BUS_FMT_RBG888_1X24 maxSize
                         (V4L2SubdeviceFormat.colorSpace
                            (XISPCameraConfiguration.sensorFormat_ c))))
          end
      end
  end.

(** ** [PipelineHandlerXISP::generateConfiguration] *)

(** The [switch] over a requested role: [false] is the [default] case. *)
Definition role_supported (role : StreamRole) : bool :=
  match role with
  | StillCapture | Viewfinder | VideoRecording | Raw => true
  | UnknownRole _ => false
  end.

(** [Some None] is the null pointer; the outer [None] is undefined
    behaviour inside [validate]. *)
Definition generateConfiguration (data : XISPCameraData.t)
    (roles : list StreamRole) : option (option XISPCameraConfiguration.t) :=
  let config := XISPCameraConfiguration.make in
  match roles with
  | [] => Some (Some config)
  | _ :: _ =>
      if (length (XISPCameraData.streams_ data) <? length roles)%nat
      then Some None
      else if negb (forallb role_supported roles) then Some None
      else
        let streamFormats :=
          map (fun kv => (fst kv, (kMinXISPSize, kMaxXISPSize))) formatsMap_ in
        let cfg := StreamConfiguration.make streamFormats in
        let size := Size.mk 640 480 in
        let pixelFormat := RBG888 in
        let i := info pixelFormat in
        let cfg :=
          StreamConfiguration.mk pixelFormat size
            (PixelFormatInfo.stride i (Size.width size) 0)
            (PixelFormatInfo.frameSize i size (PixelFormatInfo.bitsPerPixel i))
            4
            (StreamConfiguration.stream_ cfg)
            (StreamConfiguration.formats_ cfg) in
        let config := XISPCameraConfiguration.addConfiguration config cfg in
        match validate data config with
        | None => None
        | Some (_, config) => Some (Some config)
        end
  end.

(** ** [PipelineHandlerXISP::match] *)

(** The indices the discovery loop runs over:
    [for (unsigned int i = 0; i < 4; i++)]. *)
Definition kInstances : list N := [0; 1; 2; 3]%N.

(** ["vcap_mipi_" + std::to_string(i) + "_v_proc output 0"] *)
Definition entityName (i : N) : string :=
  "vcap_mipi_" +:+ pretty i +:+ "_v_proc output 0".

Definition device_match (i : N) : DeviceMatch.t :=
  DeviceMatch.add (DeviceMatch.mk "xilinx-video" []) (entityName i).

Definition acquireMediaDevice (enumerator : DeviceEnumerator)
    (dm : DeviceMatch.t) : Dev (option MediaDevice.t) :=
  Some (enumerator dm, [Event.mk (AcquireMediaDevice dm) 0]).

(** The loop over the candidate instances: the value is [mediaDev_] when
    the loop is left. *)
Fixpoint find_pipeline (enumerator : DeviceEnumerator) (indices : list N)
    : Dev (option MediaDevice.t) :=
  match indices with
  | [] => dev_ret None
  | i :: rest =>
      mediaDev <- acquireMediaDevice enumerator (device_match i) ;;
      match mediaDev with
      | Some _ => dev_ret mediaDev
      | None => find_pipeline enumerator rest
      end
  end.

(** The four [if]s that record a sensor's native size and encoding. *)
Definition sensor_profile (name : string) (h : PipelineHandlerXISP.t)
    : PipelineHandlerXISP.t :=
  let h := if contains name "imx219"
           then PipelineHandlerXISP.set_sensorBest h 1920 1080
                  MEDIA_BUS_FMT_SRGGB10_1X10
           else h in
  let h := if contains name "imx708"
           then PipelineHandlerXISP.set_sensorBest h 1536 864
                  MEDIA_BUS_FMT_SRGGB10_1X10
           else h in
  let h := if contains name "imx477"
           then PipelineHandlerXISP.set_sensorBest h 1332 990
                  MEDIA_BUS_FMT_SRGGB10_1X10
           else h in
  let h := if contains name "imx500"
           then PipelineHandlerXISP.set_sensorBest h 2028 1520
                  MEDIA_BUS_FMT_SRGGB10_1X10
           else h in
  h.

(** The body of the loop over [mediaDev_->entities()]. *)
Definition scan_entity (st : Scan.t) (entity : MediaEntity.t) : Scan.t :=
  let name := MediaEntity.name entity in
  let st :=
    if contains name "imx" then
      Scan.mk
        (PipelineHandlerXISP.set_sensor
           (sensor_profile name (Scan.handler st)) (Some name))
        (Some entity) (Scan.resizer st) (Scan.capture st)
    else st in
  let st :=
    if contains name "dw9807" then
      Scan.set_handler st
        (PipelineHandlerXISP.set_vcm (Scan.handler st) (Some name))
    else st in
  let st :=
    if contains name "mipi_csi2_rx_subsystem" then
      Scan.set_handler st
        (PipelineHandlerXISP.set_csi2rx (Scan.handler st) (Some name))
    else st in
  let st :=
    if contains name "ISPPipeline_accel" then
      Scan.set_handler st
        (PipelineHandlerXISP.set_xisp (Scan.handler st) (Some name))
    else st in
  let st :=
    if contains name "v_proc_ss" then
      Scan.mk (Scan.handler st) (Scan.sensor_entity st) (Some name)
        (Scan.capture st)
    else st in
  let st :=
    if contains name "vcap_mipi_" then
      Scan.mk (Scan.handler st) (Scan.sensor_entity st) (Scan.resizer st)
        (Some name)
    else st in
  st.

(** Conversion of an [int] to [bool], as in [return ret;] of a function
    returning [bool]. *)
Definition bool_of_int (ret : Z) : bool := negb (ret =? 0)%Z.

Definition open (dev : string) : Dev Z := emit (Open dev) (hw_open dev).

(** [match]: the value is what it returns and the handler it leaves. *)
Definition match_ (h : PipelineHandlerXISP.t) (enumerator : DeviceEnumerator)
    : Dev (bool * PipelineHandlerXISP.t) :=
  mediaDev <- find_pipeline enumerator kInstances ;;
  let h := PipelineHandlerXISP.set_mediaDev h mediaDev in
  match mediaDev with
  | None => dev_ret (false, h)
  | Some dev =>
  let st := foldl scan_entity (Scan.mk h None None None)
                  (MediaDevice.entities dev) in
  let h := Scan.handler st in
  match PipelineHandlerXISP.csi2rx_ h with
  | None => dev_ret (false, h)
  | Some csi2rx =>
  ret <- open csi2rx ;;
  if negb (ret =? 0)%Z then dev_ret (false, h) else
  match PipelineHandlerXISP.xisp_ h with
  | None => dev_ret (false, h)
  | Some xisp =>
  ret <- open xisp ;;
  if negb (ret =? 0)%Z then dev_ret (false, h) else
  match Scan.resizer st with
  | None => dev_ret (false, h)
  | Some resizer =>
  ret <- open resizer ;;
  if negb (ret =? 0)%Z then dev_ret (false, h) else
  match Scan.capture st with
  | None => dev_ret (false, h)
  | Some capture =>
  _ <- emit (ConnectBufferReady capture) 0 ;;
  ret <- open capture ;;
  if negb (ret =? 0)%Z then dev_ret (bool_of_int ret, h) else
  let h := PipelineHandlerXISP.push_pipe h (Pipe.mk resizer capture) in
  match PipelineHandlerXISP.pipes_ h with
  | [] => dev_ret (false, h)
  | _ :: _ =>
  match Scan.sensor_entity st with
  | None => undefined            (* sensor_entity->function() on NULL *)
  | Some sensor_entity =>
  if negb (MediaEntity.function sensor_entity =? MEDIA_ENT_F_CAM_SENSOR)%N
  then dev_ret (false, h) else
  let data := XISPCameraData.make streams_storage in
  let data :=
    XISPCameraData.set_camSensor data
      (create_sensor (MediaEntity.name sensor_entity)) in
  let ret := XISPCameraData.init data in
  if negb (ret =? 0)%Z then dev_ret (false, h) else
  match XISPCameraData.camSensor_ data with
  | None => undefined
  | Some camSensor =>
  let id := CameraSensor.id camSensor in
  let streams := stream_set data in
  let camera := Camera.mk data id streams in
  dev_ret (true, PipelineHandlerXISP.registerCamera h camera)
  end end end end end end end
  end.

(** ** [PipelineHandlerXISP::configure] *)

Definition sensor_setFormat (sensor : string) (fmt : V4L2SubdeviceFormat.t)
    : Dev (Z * V4L2SubdeviceFormat.t) :=
  let r := hw_sensor_setFormat sensor fmt in
  Some (r, [Event.mk (SensorSetFormat sensor fmt) (fst r)]).

Definition subdev_setFormat (dev : string) (pad : N)
    (fmt : V4L2SubdeviceFormat.t) : Dev (Z * V4L2SubdeviceFormat.t) :=
  let r := hw_subdev_setFormat dev pad fmt in
  Some (r, [Event.mk (SubdevSetFormat dev pad fmt) (fst r)]).

Definition video_setFormat (dev : string) (fmt : V4L2DeviceFormat.t)
    : Dev (Z * V4L2DeviceFormat.t) :=
  let r := hw_video_setFormat dev fmt in
  Some (r, [Event.mk (VideoSetFormat dev fmt) (fst r)]).

(** The loop over the stream configurations. The three format objects live
    outside the loop and are written back by each call; [enabled] is
    [data->enabledStreams_]. *)
Fixpoint configure_streams (h : PipelineHandlerXISP.t)
    (cfgs : list StreamConfiguration.t)
    (xispFormat vpssFormat : V4L2SubdeviceFormat.t)
    (captureFormat : V4L2DeviceFormat.t) (enabled : list (option Z))
    : Dev (Z * list (option Z)) :=
  match cfgs with
  | [] => dev_ret (0%Z, enabled)
  | config :: rest =>
  match PipelineHandlerXISP.pipes_ h !! 0%nat with
  | None => undefined            (* &pipes_[0] on an empty vector *)
  | Some pipe =>
  r <- subdev_setFormat (Pipe.resizer pipe) 0 xispFormat ;;
  let xispFormat := snd r in
  if negb (fst r =? 0)%Z then dev_ret (fst r, enabled) else
  r <- subdev_setFormat (Pipe.resizer pipe) 1 vpssFormat ;;
  let vpssFormat := snd r in
  if negb (fst r =? 0)%Z then dev_ret (fst r, enabled) else
  let i := info (StreamConfiguration.pixelFormat config) in
  let captureFormat :=
    V4L2DeviceFormat.mk
      (toV4L2PixelFormat (StreamConfiguration.pixelFormat config))
      (StreamConfiguration.size config)
      (V4L2DeviceFormat.colorSpace captureFormat)
      (PixelFormatInfo.numPlanes i)
      (StreamConfiguration.stride config) in
  r <- video_setFormat (Pipe.capture pipe) captureFormat ;;
  let captureFormat := snd r in
  if negb (fst r =? 0)%Z then dev_ret (fst r, enabled) else
  configure_streams h rest xispFormat vpssFormat captureFormat
    (enabled ++ [StreamConfiguration.stream_ config])
  end
  end.

Definition configure (h : PipelineHandlerXISP.t) (data : XISPCameraData.t)
    (c : XISPCameraConfiguration.t) : Dev (Z * XISPCameraData.t) :=
  match XISPCameraData.camSensor_ data with
  | None => undefined
  | Some camSensor =>
  let sensor := CameraSensor.entity camSensor in
  _ <- emit (LinkSetEnabled sensor) (hw_setEnabled sensor) ;;
  let csi2rxFormat :=
    V4L2SubdeviceFormat.mk (PipelineHandlerXISP.sensorBestFormatCode_ h)
      (Size.mk (Size.width (PipelineHandlerXISP.sensorBestSize_ h))
               (Size.height (PipelineHandlerXISP.sensorBestSize_ h)))
      None in
  let xispFormat :=
    V4L2SubdeviceFormat.mk MEDIA_BUS_FMT_RBG888_1X24
      (Size.mk (Size.width (PipelineHandlerXISP.sensorBestSize_ h))
               (Size.height (PipelineHandlerXISP.sensorBestSize_ h)))
      None in
  let vpssFormat :=
    V4L2SubdeviceFormat.mk MEDIA_BUS_FMT_RBG888_1X24
      (V4L2SubdeviceFormat.size (XISPCameraConfiguration.sensorFormat_ c))
      (V4L2SubdeviceFormat.colorSpace
         (XISPCameraConfiguration.sensorFormat_ c)) in
  let captureFormat := V4L2DeviceFormat.zero in
  r <- sensor_setFormat sensor csi2rxFormat ;;
  let csi2rxFormat := snd r in
  if negb (fst r =? 0)%Z then dev_ret (fst r, data) else
  match PipelineHandlerXISP.csi2rx_ h with
  | None => undefined
  | Some csi2rx =>
  r <- subdev_setFormat csi2rx 0 csi2rxFormat ;;
  let csi2rxFormat := snd r in
  if negb (fst r =? 0)%Z then dev_ret (fst r, data) else
  r <- subdev_setFormat csi2rx 1 csi2rxFormat ;;
  let csi2rxFormat := snd r in
  if negb (fst r =? 0)%Z then dev_ret (fst r, data) else
  match PipelineHandlerXISP.xisp_ h with
  | None => undefined
  | Some xisp =>
  r <- subdev_setFormat xisp 0 csi2rxFormat ;;
  let csi2rxFormat := snd r in
  if negb (fst r =? 0)%Z then dev_ret (fst r, data) else
  r <- subdev_setFormat xisp 1 xispFormat ;;
  let xispFormat := snd r in
  if negb (fst r =? 0)%Z then dev_ret (fst r, data) else
  r <- configure_streams h (XISPCameraConfiguration.config_ c)
         xispFormat vpssFormat captureFormat [] ;;
  dev_ret (fst r, XISPCameraData.set_enabledStreams data (snd r))
  end end
  end.

(** ** Streams and pipes at run time *)

(** [XISPCameraData::pipeIndex]: the pointer difference
    [stream - &*streams_.begin()], converted to [unsigned int]. *)
Definition pipeIndex (data : XISPCameraData.t) (stream : Z) : N :=
  Z.to_N (((stream - XISPCameraData.streams_base data) / sizeof_Stream)
          mod 2 ^ 32)%Z.

(** [pipeFromStream]: [&pipes_[pipeIndex]], with no check of the index;
    an index outside the vector is undefined behaviour. *)
Definition pipeFromStream (h : PipelineHandlerXISP.t)
    (data : XISPCameraData.t) (stream : Z) : Dev Pipe.t :=
  match PipelineHandlerXISP.pipes_ h !! N.to_nat (pipeIndex data stream) with
  | Some pipe => dev_ret pipe
  | None => undefined
  end.

(** The [Stream] object an address points to. *)
Definition stream_at (data : XISPCameraData.t) (stream : Z) : Dev Stream.t :=
  match
    list_find (fun k => stream_addr data k = stream)
      (seq 0 (length (XISPCameraData.streams_ data)))
  with
  | Some (_, k) =>
      match XISPCameraData.streams_ data !! k with
      | Some s => dev_ret s
      | None => undefined
      end
  | None => undefined
  end.

Definition exportFrameBuffers (h : PipelineHandlerXISP.t)
    (data : XISPCameraData.t) (stream : Z) : Dev Z :=
  s <- stream_at data stream ;;
  let count := StreamConfiguration.bufferCount (Stream.configuration_ s) in
  pipe <- pipeFromStream h data stream ;;
  emit (ExportBuffers (Pipe.capture pipe) count)
       (hw_exportBuffers (Pipe.capture pipe) count).

(** The loop of [start] over [enabledStreams_]. *)
Fixpoint start_streams (h : PipelineHandlerXISP.t) (data : XISPCameraData.t)
    (streams : list (option Z)) : Dev Z :=
  match streams with
  | [] => dev_ret 0%Z
  | None :: _ => undefined
  | Some stream :: rest =>
  pipe <- pipeFromStream h data stream ;;
  s <- stream_at data stream ;;
  let config := Stream.configuration_ s in
  ret <- emit (ImportBuffers (Pipe.capture pipe)
                 (StreamConfiguration.bufferCount config))
              (hw_importBuffers (Pipe.capture pipe)
                 (StreamConfiguration.bufferCount config)) ;;
  if negb (ret =? 0)%Z then dev_ret ret else
  ret <- emit (StreamOn (Pipe.capture pipe))
              (hw_streamOn (Pipe.capture pipe)) ;;
  if negb (ret =? 0)%Z then dev_ret ret else
  start_streams h data rest
  end.

Definition start (h : PipelineHandlerXISP.t) (data : XISPCameraData.t)
    : Dev Z :=
  start_streams h data (XISPCameraData.enabledStreams_ data).

(** The loop of [stopDevice] over [enabledStreams_]. *)
Fixpoint stop_streams (h : PipelineHandlerXISP.t) (data : XISPCameraData.t)
    (streams : list (option Z)) : Dev unit :=
  match streams with
  | [] => dev_ret tt
  | None :: _ => undefined
  | Some stream :: rest =>
  pipe <- pipeFromStream h data stream ;;
  _ <- emit (StreamOff (Pipe.capture pipe))
            (hw_streamOff (Pipe.capture pipe)) ;;
  _ <- emit (ReleaseBuffers (Pipe.capture pipe))
            (hw_releaseBuffers (Pipe.capture pipe)) ;;
  stop_streams h data rest
  end.

Definition stopDevice (h : PipelineHandlerXISP.t) (data : XISPCameraData.t)
    : Dev unit :=
  stop_streams h data (XISPCameraData.enabledStreams_ data).

(** [queueRequestDevice]: [buffers] is [request->buffers()], the Stream
    and the buffer of each slot. *)
Fixpoint queueRequestDevice (h : PipelineHandlerXISP.t)
    (data : XISPCameraData.t) (buffers : list (Z * N)) : Dev Z :=
  match buffers with
  | [] => dev_ret 0%Z
  | (stream, buffer) :: rest =>
  pipe <- pipeFromStream h data stream ;;
  ret <- emit (QueueBuffer (Pipe.capture pipe) buffer)
              (hw_queueBuffer (Pipe.capture pipe) buffer) ;;
  if negb (ret =? 0)%Z then dev_ret ret else
  queueRequestDevice h data rest
  end.

(** ** [PipelineHandlerXISP::bufferReady]

    [request] is [buffer->request()]; the value is that Request after the
    handler ran. *)
Definition bufferReady (request : Request.t) (buffer : FrameBuffer.t)
    : Request.t :=
  let request :=
    if negb (Request.contains request SensorTimestamp)
    then Request.set request SensorTimestamp (FrameBuffer.timestamp buffer)
    else request in
  let request := Request.completeBuffer request buffer in
  if Request.hasPendingBuffers request then request
  else Request.completeRequest request.

End XISP.

(** ** Concrete platforms and systems

    Instances of the external collaborators, used to run the handler on
    concrete inputs. *)

(** libcamera's ordering of sizes ([geometry.cpp], [geometry.h]): a size
    with smaller width and smaller height is smaller; then a size with
    smaller area; then a size with smaller width. The area is computed in
    [unsigned int]. *)
Definition Size_lt (lhs rhs : Size.t) : bool :=
  if (Size.width lhs <? Size.width rhs)%N
     && (Size.height lhs <? Size.height rhs)%N then true
  else if (Size.width rhs <=? Size.width lhs)%N
          && (Size.height rhs <=? Size.height lhs)%N then false
  else
    let larea := ((Size.width lhs * Size.height lhs) mod 2 ^ 32)%N in
    let rarea := ((Size.width rhs * Size.height rhs) mod 2 ^ 32)%N in
    if (larea <? rarea)%N then true
    else if (rarea <? larea)%N then false
    else (Size.width lhs <? Size.width rhs)%N.

(** [operator<=] and [operator>] as [geometry.h] derives them. *)
Definition Size_le (lhs rhs : Size.t) : bool :=
  Size_lt lhs rhs || bool_decide (lhs = rhs).
Definition Size_gt (lhs rhs : Size.t) : bool := negb (Size_le lhs rhs).

(** A packed 24-bit single-plane layout for every format. *)
Definition packed24 : PixelFormatInfo.t :=
  PixelFormatInfo.mk 24 1
    (fun width _ => (3 * width)%N)
    (fun size _ => (3 * Size.width size * Size.height size)%N).

(** A platform whose devices accept every format as requested and whose
    [open()] answers are given by [open_rc]. *)
Definition simple_platform (open_rc : string -> Z) : Platform := {|
  sizeof_Stream := 64;
  streams_storage := 4096;
  info := fun _ => packed24;
  toV4L2PixelFormat :=
    fun f => match f with
             | YUYV => 1 | RGB888 => 2 | BGR888 => 3 | RBG888 => 4
             | OtherFormat fourcc => fourcc
             end%N;
  size_gt := Size_gt;
  SensorTimestamp := 10030;
  create_sensor := fun name => Some (CameraSensor.mk name name);
  hw_open := open_rc;
  hw_setEnabled := fun _ => 0%Z;
  hw_sensor_setFormat := fun _ fmt => (0%Z, fmt);
  hw_subdev_setFormat := fun _ _ fmt => (0%Z, fmt);
  hw_video_setFormat := fun _ fmt => (0%Z, fmt);
  hw_exportBuffers := fun _ count => Z.of_N count;
  hw_importBuffers := fun _ _ => 0%Z;
  hw_streamOn := fun _ => 0%Z;
  hw_streamOff := fun _ => 0%Z;
  hw_releaseBuffers := fun _ => 0%Z;
  hw_queueBuffer := fun _ _ => 0%Z;
|}.

(** Every device opens. *)
Definition good_platform : Platform := simple_platform (fun _ => 0%Z).

(** The capture endpoint of pipeline 0 fails to open with [-ENODEV]. *)
Definition capture_fails_platform : Platform :=
  simple_platform
    (fun dev => if String.eqb dev "vcap_mipi_0_v_proc output 0"
                then (- ENODEV)%Z else 0%Z).

(** Entity functions of [linux/media.h] used by the example graphs. *)
Definition MEDIA_ENT_F_IO_V4L : N := 0x00010001.
Definition MEDIA_ENT_F_VID_IF_BRIDGE : N := 0x00005002.
Definition MEDIA_ENT_F_PROC_VIDEO_PIXEL_FORMATTER : N := 0x00004002.
Definition MEDIA_ENT_F_PROC_VIDEO_SCALER : N := 0x00004005.

(** Capture pipeline 0 of the comment in [match]. *)
Definition pipeline0 : MediaDevice.t :=
  MediaDevice.mk "xilinx-video"
    [ MediaEntity.mk "vcap_mipi_0_v_proc output 0" MEDIA_ENT_F_IO_V4L;
      MediaEntity.mk "imx219 1-0010" MEDIA_ENT_F_CAM_SENSOR;
      MediaEntity.mk "80050000.mipi_csi2_rx_subsystem" MEDIA_ENT_F_VID_IF_BRIDGE;
      MediaEntity.mk "a0010000.ISPPipeline_accel"
        MEDIA_ENT_F_PROC_VIDEO_PIXEL_FORMATTER;
      MediaEntity.mk "a0040000.v_proc_ss" MEDIA_ENT_F_PROC_VIDEO_SCALER ].

(** Capture pipeline 2 of the comment in [match]. *)
Definition pipeline2 : MediaDevice.t :=
  MediaDevice.mk "xilinx-video"
    [ MediaEntity.mk "vcap_mipi_2_v_proc output 0" MEDIA_ENT_F_IO_V4L;
      MediaEntity.mk "imx500 3-001a" MEDIA_ENT_F_CAM_SENSOR;
      MediaEntity.mk "80052000.mipi_csi2_rx_subsystem" MEDIA_ENT_F_VID_IF_BRIDGE;
      MediaEntity.mk "a0090000.ISPPipeline_accel"
        MEDIA_ENT_F_PROC_VIDEO_PIXEL_FORMATTER;
      MediaEntity.mk "a0100000.v_proc_ss" MEDIA_ENT_F_PROC_VIDEO_SCALER ].

(** An enumerator over the media devices of a system: the first device
    with the match's driver that has every entity the match names. *)
Definition system (devices : list MediaDevice.t) : DeviceEnumerator :=
  fun dm =>
    snd <$>
      list_find
        (fun d =>
           MediaDevice.driver d = DeviceMatch.driver dm
           /\ Forall (fun n => n ∈ map MediaEntity.name (MediaDevice.entities d))
                     (DeviceMatch.entities dm))
        devices.

(** A camera's data as the constructor leaves it, with the stream storage
    at address 4096. *)
Definition new_data : XISPCameraData.t := XISPCameraData.make 4096.

(** A proposal with two entries, 1280x720 and 640x480. *)
Definition request_720p : StreamConfiguration.t :=
  StreamConfiguration.mk RGB888 (Size.mk 1280 720) 0 0 4 None [].
Definition request_vga : StreamConfiguration.t :=
  StreamConfiguration.mk YUYV (Size.mk 640 480) 0 0 4 None [].
Definition proposal2 : XISPCameraConfiguration.t :=
  XISPCameraConfiguration.mk [request_720p; request_vga]
    V4L2SubdeviceFormat.zero.

(** The sensor, the Pipe, the camera data and the handler that discovery
    of capture pipeline 0 leaves on [good_platform]. *)
Definition sensor0 : CameraSensor.t :=
  CameraSensor.mk "imx219 1-0010" "imx219 1-0010".
Definition pipe0 : Pipe.t :=
  Pipe.mk "a0040000.v_proc_ss" "vcap_mipi_0_v_proc output 0".
Definition data0 : XISPCameraData.t :=
  XISPCameraData.set_camSensor new_data (Some sensor0).
Definition handler0 : PipelineHandlerXISP.t :=
  PipelineHandlerXISP.mk (Some pipeline0) (Size.mk 1920 1080)
    MEDIA_BUS_FMT_SRGGB10_1X10 (Some "imx219 1-0010") None
    (Some "80050000.mipi_csi2_rx_subsystem")
    (Some "a0010000.ISPPipeline_accel") [pipe0]
    [Camera.mk data0 "imx219 1-0010" [4096%Z]].

(** The configuration [validate] makes of [proposal2] on that camera. *)
Definition validated2 : XISPCameraConfiguration.t :=
  XISPCameraConfiguration.mk
    [StreamConfiguration.mk RGB888 (Size.mk 1280 720) 3840 2764800 4
       (Some 4096%Z) []]
    (V4L2SubdeviceFormat.mk MEDIA_BUS_FMT_RBG888_1X24 (Size.mk 1280 720) None).

(** ** Vocabulary of the properties

    Definitions used to state what the handler does: the entries
    [validate] and [generateConfiguration] produce, the enumerator queries
    of discovery, the chain of format-set calls, the device a run-time call
    addresses, and a run of buffer-ready reports. *)

(** The entries left by the two [resize] calls of [validate], for [n]
    available streams. *)
Definition truncated {A} (n : nat) (l : list A) : list A :=
  let l1 := if (n <? length l)%nat then shrink n l else l in
  if (1 <? length l1)%nat then shrink 1 l1 else l1.

(** The native size and encoding a handler has recorded. *)
Definition recorded_profile (h : PipelineHandlerXISP.t) : Size.t * N :=
  (PipelineHandlerXISP.sensorBestSize_ h,
   PipelineHandlerXISP.sensorBestFormatCode_ h).

(** The enumerator queries for the first [n] candidate instances. *)
Definition acquisitions (n : nat) : list Event.t :=
  map (fun j => Event.mk (AcquireMediaDevice (device_match (N.of_nat j))) 0)
      (seq 0 n).

(** An event that is no query of the enumerator. *)
Definition not_acquisition (ev : Event.t) : Prop :=
  match Event.call ev with
  | AcquireMediaDevice _ => False
  | _ => True
  end.

(** What [match] keeps of the handler it started from. *)
Definition kept (h : PipelineHandlerXISP.t) :=
  (PipelineHandlerXISP.mediaDev_ h, PipelineHandlerXISP.pipes_ h,
   PipelineHandlerXISP.cameras_ h).

(** The sensor of capture pipeline 2. *)
Definition pipeline2_sensor : string := "imx500 3-001a".

(** The stages of the pipeline, upstream to downstream. *)
Inductive Stage : Type :=
| SensorStage | ReceiverStage | IspStage | ResizerStage | CaptureStage.

(** The position of a stage in the pipeline. *)
Definition stage_rank (s : Stage) : nat :=
  match s with
  | SensorStage => 0 | ReceiverStage => 1 | IspStage => 2
  | ResizerStage => 3 | CaptureStage => 4
  end.

(** The device a run-time call addresses. *)
Definition call_device (c : Call) : option string :=
  match c with
  | ExportBuffers dev _ | ImportBuffers dev _ | StreamOn dev | StreamOff dev
  | ReleaseBuffers dev | QueueBuffer dev _ => Some dev
  | _ => None
  end.

(** Every call of a trace addresses the device [dev]. *)
Definition all_on (dev : string) (tr : list Event.t) : Prop :=
  Forall (fun ev => call_device (Event.call ev) = Some dev) tr.

Section Vocabulary.

Context {platform : Platform}.

(** The entry [validate] leaves for a proposal's first entry [first] when
    the stream at [stream] is bound to it. *)
Definition bound_entry (first : StreamConfiguration.t) (stream : Z)
    : StreamConfiguration.t :=
  let i := info (StreamConfiguration.pixelFormat first) in
  StreamConfiguration.mk
    (StreamConfiguration.pixelFormat first)
    (StreamConfiguration.size first)
    (PixelFormatInfo.stride i (Size.width (StreamConfiguration.size first)) 0)
    (PixelFormatInfo.frameSize i (StreamConfiguration.size first)
       (PixelFormatInfo.bitsPerPixel i))
    (StreamConfiguration.bufferCount first)
    (Some stream)
    (StreamConfiguration.formats_ first).

(** The proposal [generateConfiguration] builds for one supported role. *)
Definition default_entry (stream : Z) : StreamConfiguration.t :=
  StreamConfiguration.mk RBG888 (Size.mk 640 480)
    (PixelFormatInfo.stride (info RBG888) 640 0)
    (PixelFormatInfo.frameSize (info RBG888) (Size.mk 640 480)
       (PixelFormatInfo.bitsPerPixel (info RBG888)))
    4 (Some stream)
    (map (fun kv => (fst kv, (kMinXISPSize, kMaxXISPSize))) formatsMap_).

(** The camera [match] registers for capture pipeline 2, [s] being what
    the sensor factory created. *)
Definition pipeline2_camera (s : CameraSensor.t) : Camera.t :=
  let data :=
    XISPCameraData.set_camSensor (XISPCameraData.make streams_storage)
      (Some s) in
  Camera.mk data (CameraSensor.id s) (stream_set data).

(** The return code the platform gives to a call. *)
Definition rc_of (c : Call) : Z :=
  match c with
  | LinkSetEnabled sensor => hw_setEnabled sensor
  | SensorSetFormat sensor fmt => fst (hw_sensor_setFormat sensor fmt)
  | SubdevSetFormat dev pad fmt => fst (hw_subdev_setFormat dev pad fmt)
  | VideoSetFormat dev fmt => fst (hw_video_setFormat dev fmt)
  | _ => 0%Z
  end.

(** Issue the calls in order and stop right after the first that fails:
    the return code of the failing call (0 when none fails) and the calls
    issued. *)
Fixpoint issue_until_failure (calls : list Call) : Z * list Event.t :=
  match calls with
  | [] => (0%Z, [])
  | c :: rest =>
      if (rc_of c =? 0)%Z then
        (fst (issue_until_failure rest),
         Event.mk c 0 :: snd (issue_until_failure rest))
      else (rc_of c, [Event.mk c (rc_of c)])
  end.

(** The format-set calls of the resizer and capture stages for the stream
    configurations [cfgs], each with the stage it addresses. The formats
    are the ones each driver handed back to the call before. *)
Fixpoint stream_chain (pipe : Pipe.t) (cfgs : list StreamConfiguration.t)
    (xispFormat vpssFormat : V4L2SubdeviceFormat.t)
    (captureFormat : V4L2DeviceFormat.t) : list (Stage * Call) :=
  match cfgs with
  | [] => []
  | config :: rest =>
      let capture :=
        V4L2DeviceFormat.mk
          (toV4L2PixelFormat (StreamConfiguration.pixelFormat config))
          (StreamConfiguration.size config)
          (V4L2DeviceFormat.colorSpace captureFormat)
          (PixelFormatInfo.numPlanes
             (info (StreamConfiguration.pixelFormat config)))
          (StreamConfiguration.stride config) in
      [ (ResizerStage, SubdevSetFormat (Pipe.resizer pipe) 0 xispFormat);
        (ResizerStage, SubdevSetFormat (Pipe.resizer pipe) 1 vpssFormat);
        (CaptureStage, VideoSetFormat (Pipe.capture pipe) capture) ]
      ++ stream_chain pipe rest
           (snd (hw_subdev_setFormat (Pipe.resizer pipe) 0 xispFormat))
           (snd (hw_subdev_setFormat (Pipe.resizer pipe) 1 vpssFormat))
           (snd (hw_video_setFormat (Pipe.capture pipe) capture))
  end.

(** The whole chain of format-set calls for a configuration: sensor and
    receiver at the sensor's native size and encoding, ISP core output in
    RBG888_1X24 at that size, then resizer and capture per stream. *)
Definition format_chain (h : PipelineHandlerXISP.t)
    (sensor csi2rx xisp : string) (pipe : Pipe.t)
    (c : XISPCameraConfiguration.t) : list (Stage * Call) :=
  let native :=
    V4L2SubdeviceFormat.mk (PipelineHandlerXISP.sensorBestFormatCode_ h)
      (Size.mk (Size.width (PipelineHandlerXISP.sensorBestSize_ h))
               (Size.height (PipelineHandlerXISP.sensorBestSize_ h)))
      None in
  let f1 := snd (hw_sensor_setFormat sensor native) in
  let f2 := snd (hw_subdev_setFormat csi2rx 0 f1) in
  let f3 := snd (hw_subdev_setFormat csi2rx 1 f2) in
  let xispFormat :=
    V4L2SubdeviceFormat.mk MEDIA_BUS_FMT_RBG888_1X24
      (Size.mk (Size.width (PipelineHandlerXISP.sensorBestSize_ h))
               (Size.height (PipelineHandlerXISP.sensorBestSize_ h)))
      None in
  let vpssFormat :=
    V4L2SubdeviceFormat.mk MEDIA_BUS_FMT_RBG888_1X24
      (V4L2SubdeviceFormat.size (XISPCameraConfiguration.sensorFormat_ c))
      (V4L2SubdeviceFormat.colorSpace
         (XISPCameraConfiguration.sensorFormat_ c)) in
  [ (SensorStage, SensorSetFormat sensor native);
    (ReceiverStage, SubdevSetFormat csi2rx 0 f1);
    (ReceiverStage, SubdevSetFormat csi2rx 1 f2);
    (IspStage, SubdevSetFormat xisp 0 f3);
    (IspStage, SubdevSetFormat xisp 1 xispFormat) ]
  ++ stream_chain pipe (XISPCameraConfiguration.config_ c)
       (snd (hw_subdev_setFormat xisp 1 xispFormat)) vpssFormat
       V4L2DeviceFormat.zero.

(** The buffer-ready reports [reports], handled one at a time. *)
Definition handle_reports (request : Request.t) (reports : list FrameBuffer.t)
    : Request.t :=
  foldl bufferReady request reports.

End Vocabulary.


(** ** Vocabulary of the further properties *)

(** What an application asks for in a stream configuration. *)
Definition requested (c : StreamConfiguration.t) : PixelFormat * Size.t * N :=
  (StreamConfiguration.pixelFormat c, StreamConfiguration.size c,
   StreamConfiguration.bufferCount c).

(** The last entity of a list whose name contains [marker], and its
    name. *)
Definition last_entity (marker : string) (entities : list MediaEntity.t)
    : option MediaEntity.t :=
  last (filter (fun e => contains (MediaEntity.name e) marker = true) entities).

Definition last_named (marker : string) (entities : list MediaEntity.t)
    : option string :=
  MediaEntity.name <$> last_entity marker entities.

(** [o] when it holds a value, [d] otherwise. *)
Definition or_else {A} (o d : option A) : option A :=
  match o with
  | Some x => Some x
  | None => d
  end.

(** The sensor profiles of the entities with a sensor's name, recorded one
    after the other. *)
Definition profiles_recorded (entities : list MediaEntity.t)
    (h : PipelineHandlerXISP.t) : Size.t * N :=
  recorded_profile
    (foldl (fun h e =>
              if contains (MediaEntity.name e) "imx"
              then sensor_profile (MediaEntity.name e) h else h)
           h entities).

(** The device calls [match] makes, after the enumerator queries, when
    every role is resolved and every [open()] succeeds. *)
Definition open_sequence (csi2rx xisp resizer capture : string)
    : list Event.t :=
  [ Event.mk (Open csi2rx) 0; Event.mk (Open xisp) 0;
    Event.mk (Open resizer) 0; Event.mk (ConnectBufferReady capture) 0;
    Event.mk (Open capture) 0 ].

Section FurtherVocabulary.

Context {platform : Platform}.

(** The camera [match] registers for the sensor [s]. *)
Definition registered_camera (s : CameraSensor.t) : Camera.t :=
  let data :=
    XISPCameraData.set_camSensor (XISPCameraData.make streams_storage)
      (Some s) in
  Camera.mk data (CameraSensor.id s) (stream_set data).

(** The return code the platform gives to a call of the streaming
    interface of a capture device. *)
Definition runtime_rc (c : Call) : Z :=
  match c with
  | ImportBuffers dev count => hw_importBuffers dev count
  | StreamOn dev => hw_streamOn dev
  | StreamOff dev => hw_streamOff dev
  | ReleaseBuffers dev => hw_releaseBuffers dev
  | QueueBuffer dev buffer => hw_queueBuffer dev buffer
  | _ => 0%Z
  end.

(** The trace [tr] issues the calls [calls] in order and stops right after
    the first that fails, [ret] being the code of that call, or 0 when all
    were issued and none failed. *)
Definition stops_at_first_failure (calls : list Call) (ret : Z)
    (tr : list Event.t) : Prop :=
  Forall (fun ev => Event.rc ev = runtime_rc (Event.call ev)) tr
  /\ (ret = 0%Z ->
      map Event.call tr = calls /\ Forall (fun ev => Event.rc ev = 0%Z) tr)
  /\ (ret <> 0%Z ->
      exists tr0 ev rest,
        tr = tr0 ++ [ev] /\ calls = map Event.call tr ++ rest
        /\ Event.rc ev = ret
        /\ Forall (fun ev => Event.rc ev = 0%Z) tr0).

(** The calls [start] makes for [n] enabled streams of a capture device,
    and the calls [stopDevice] makes. *)
Definition start_calls (capture : string) (count : N) (n : nat) : list Call :=
  concat (replicate n [ImportBuffers capture count; StreamOn capture]).

Definition stop_calls (capture : string) (n : nat) : list Call :=
  concat (replicate n [StreamOff capture; ReleaseBuffers capture]).

(** The calls that undo what [start] did on a capture device. *)
Definition is_teardown (c : Call) : bool :=
  match c with
  | StreamOff _ | ReleaseBuffers _ => true
  | _ => false
  end.

(** The calls [queueRequestDevice] makes for the buffers of a Request,
    [pipes] being the Pipes their streams resolve to. *)
Definition queue_calls (buffers : list (Z * N)) (pipes : list Pipe.t)
    : list Call :=
  zip_with (fun sb pipe => QueueBuffer (Pipe.capture pipe) (snd sb))
    buffers pipes.

End FurtherVocabulary.

(** Capture pipeline 0 without its sensor entity, and with a sensor entity
    that does not declare the camera-sensor function. *)
Definition pipeline0_no_sensor : MediaDevice.t :=
  MediaDevice.mk "xilinx-video"
    [ MediaEntity.mk "vcap_mipi_0_v_proc output 0" MEDIA_ENT_F_IO_V4L;
      MediaEntity.mk "80050000.mipi_csi2_rx_subsystem" MEDIA_ENT_F_VID_IF_BRIDGE;
      MediaEntity.mk "a0010000.ISPPipeline_accel"
        MEDIA_ENT_F_PROC_VIDEO_PIXEL_FORMATTER;
      MediaEntity.mk "a0040000.v_proc_ss" MEDIA_ENT_F_PROC_VIDEO_SCALER ].

Definition pipeline0_odd_sensor : MediaDevice.t :=
  MediaDevice.mk "xilinx-video"
    [ MediaEntity.mk "vcap_mipi_0_v_proc output 0" MEDIA_ENT_F_IO_V4L;
      MediaEntity.mk "imx219 1-0010" MEDIA_ENT_F_VID_IF_BRIDGE;
      MediaEntity.mk "80050000.mipi_csi2_rx_subsystem" MEDIA_ENT_F_VID_IF_BRIDGE;
      MediaEntity.mk "a0010000.ISPPipeline_accel"
        MEDIA_ENT_F_PROC_VIDEO_PIXEL_FORMATTER;
      MediaEntity.mk "a0040000.v_proc_ss" MEDIA_ENT_F_PROC_VIDEO_SCALER ].


(** Camera data with two streams and a handler with a Pipe for each (the
    handler's own cameras hold one Stream), and a platform on which
    queuing buffer 1 fails with [-EIO]. *)
Definition EIO : Z := 5.
Definition pipe1 : Pipe.t :=
  Pipe.mk "a00c0000.v_proc_ss" "vcap_mipi_1_v_proc output 0".
Definition data_two_streams : XISPCameraData.t :=
  XISPCameraData.mk (Some sensor0) 4096 [Stream.fresh; Stream.fresh] [].
Definition handler_two_pipes : PipelineHandlerXISP.t :=
  PipelineHandlerXISP.push_pipe handler0 pipe1.
Definition queue_fails_platform : Platform := {|
  sizeof_Stream := @sizeof_Stream good_platform;
  streams_storage := @streams_storage good_platform;
  info := @info good_platform;
  toV4L2PixelFormat := @toV4L2PixelFormat good_platform;
  size_gt := @size_gt good_platform;
  SensorTimestamp := @SensorTimestamp good_platform;
  create_sensor := @create_sensor good_platform;
  hw_open := @hw_open good_platform;
  hw_setEnabled := @hw_setEnabled good_platform;
  hw_sensor_setFormat := @hw_sensor_setFormat good_platform;
  hw_subdev_setFormat := @hw_subdev_setFormat good_platform;
  hw_video_setFormat := @hw_video_setFormat good_platform;
  hw_exportBuffers := @hw_exportBuffers good_platform;
  hw_importBuffers := @hw_importBuffers good_platform;
  hw_streamOn := @hw_streamOn good_platform;
  hw_streamOff := @hw_streamOff good_platform;
  hw_releaseBuffers := @hw_releaseBuffers good_platform;
  hw_queueBuffer := fun _ buffer => if (buffer =? 1)%N then (- EIO)%Z else 0%Z;
|}.

(** The camera data [configure] leaves for [validated2]. *)
Definition data0_configured : XISPCameraData.t :=
  XISPCameraData.set_enabledStreams data0 [Some 4096%Z].

(** * Properties *)

(** Case analysis along the early returns of a handler function: [H]
    states what the function returned. The innermost test that decides the
    next step is split first. *)
Ltac plain_scrutinee x :=
  lazymatch x with
  | context [match _ with Some _ => _ | None => _ end] => fail
  | context [match _ with [] => _ | _ :: _ => _ end] => fail
  | context [if _ then _ else _] => fail
  | context [match _ with (_, _) => _ end] => fail
  | _ => idtac
  end.

Ltac follow_returns H :=
  repeat first
    [ progress cbn [dev_bind dev_ret emit open undefined fst snd] in H
    | progress unfold dev_bind in H
    | match type of H with
      | context [match ?x with (_, _) => _ end] => is_var x; destruct x
      | context [match ?x with Some _ => _ | None => _ end] =>
          plain_scrutinee x; destruct x eqn:?
      | context [match ?x with [] => _ | _ :: _ => _ end] =>
          plain_scrutinee x; destruct x eqn:?
      | context [if ?x then _ else _] =>
          plain_scrutinee x; destruct x eqn:?
      end ];
  try discriminate H.

(** ** Stream configuration validation *)

Section Validation.

Context {platform : Platform}.

(** With the single stream the constructor creates, the set of available
    streams holds the address of [streams_[0]] only. *)
Lemma stream_set_single data :
  length (XISPCameraData.streams_ data) = 1%nat ->
  stream_set data = [stream_addr data 0].
Proof.
  intros Hlen. unfold stream_set. rewrite Hlen. reflexivity.
Qed.

Lemma stream_addr_0 data : stream_addr data 0 = XISPCameraData.streams_base data.
Proof. unfold stream_addr. simpl. lia. Qed.

(** What [validate] computes on a camera with one stream. *)
Lemma validate_single_stream data c first rest :
  length (XISPCameraData.streams_ data) = 1%nat ->
  XISPCameraConfiguration.config_ c = first :: rest ->
  validate data c =
    Some (match rest with [] => Valid | _ :: _ => Adjusted end,
          XISPCameraConfiguration.mk
            [bound_entry first (stream_addr data 0)]
            (V4L2SubdeviceFormat.mk MEDIA_BUS_FMT_RBG888_1X24
               (if size_gt (StreamConfiguration.size first) Size.zero
                then StreamConfiguration.size first else Size.zero)
               (V4L2SubdeviceFormat.colorSpace
                  (XISPCameraConfiguration.sensorFormat_ c)))).
Proof.
  intros Hlen Hc. unfold validate.
  rewrite (stream_set_single _ Hlen), Hc.
  destruct rest as [|second rest]; reflexivity.
Qed.

(** [assign_streams] keeps the number of entries and their sizes. *)
Lemma assign_streams_sizes i avail cfgs out :
  assign_streams i avail cfgs = Some out ->
  map StreamConfiguration.size out = map StreamConfiguration.size cfgs.
Proof.
  revert avail out.
  induction cfgs as [|config rest IH]; intros avail out H; simpl in H.
  - inversion H. reflexivity.
  - destruct avail as [|stream avail']; [discriminate|].
    destruct (assign_streams i avail' rest) as [rest'|] eqn:E; [|discriminate].
    inversion H; subst. simpl. f_equal. eauto.
Qed.

(** After the two truncations at most one entry is left. *)
Lemma truncated_length {A} (n : nat) (l : list A) :
  (length (truncated n l) <= 1)%nat.
Proof.
  unfold truncated, shrink.
  destruct (1 <? length (if (n <? length l)%nat then take n l else l))%nat eqn:E.
  - rewrite length_take. lia.
  - apply Nat.ltb_ge in E. exact E.
Qed.

(** [validate] on a non-empty proposal, in terms of the truncated list. *)
Lemma validate_nonempty data c first rest :
  XISPCameraConfiguration.config_ c = first :: rest ->
  exists status,
    validate data c =
      match truncated (length (stream_set data)) (first :: rest) with
      | [] => None
      | f :: _ =>
          match
            assign_streams (info (StreamConfiguration.pixelFormat f))
              (stream_set data)
              (truncated (length (stream_set data)) (first :: rest))
          with
          | None => None
          | Some out =>
              Some (status,
                    XISPCameraConfiguration.mk out
                      (V4L2SubdeviceFormat.mk MEDIA_BUS_FMT_RBG888_1X24
                         (max_size out)
                         (V4L2SubdeviceFormat.colorSpace
                            (XISPCameraConfiguration.sensorFormat_ c))))
          end
      end.
Proof.
  intros Hc. unfold validate, truncated. rewrite Hc.
  destruct (length (stream_set data) <? length (first :: rest))%nat;
    match goal with
    | |- context [(1 <? length ?l)%nat] => destruct (1 <? length l)%nat
    end; eexists; reflexivity.
Qed.

(** C5. For every proposal with more than one entry, on a camera with the
    single stream (and Pipe) of this design, [validate] returns [Adjusted]
    and leaves exactly one entry, bound to Stream 0, the first element of
    the camera's stream collection; a proposal with no entry returns
    [Invalid]. *)
Theorem validate_truncates_to_stream0 data c :
  length (XISPCameraData.streams_ data) = 1%nat ->
  ((1 < length (XISPCameraConfiguration.config_ c))%nat ->
     exists entry sensorFormat,
       validate data c =
         Some (Adjusted, XISPCameraConfiguration.mk [entry] sensorFormat)
       /\ StreamConfiguration.stream_ entry = Some (stream_addr data 0)
       /\ stream_addr data 0 = XISPCameraData.streams_base data)
  /\ (XISPCameraConfiguration.config_ c = [] ->
        validate data c = Some (Invalid, c)).
Proof.
  intros Hlen. split.
  - intros Hmany.
    destruct (XISPCameraConfiguration.config_ c) as [|first rest] eqn:Hc;
      [simpl in Hmany; lia|].
    destruct rest as [|second rest]; [simpl in Hmany; lia|].
    eexists _, _.
    rewrite (validate_single_stream data c first (second :: rest) Hlen Hc).
    split; [reflexivity|]. split; [reflexivity|apply stream_addr_0].
  - intros Hc. unfold validate. rewrite Hc. reflexivity.
Qed.

End Validation.

(** ** Configuration proposal *)

Section Generation.

Context {platform : Platform}.

Lemma generateConfiguration_single data role :
  length (XISPCameraData.streams_ data) = 1%nat ->
  role_supported role = true ->
  exists sensorFormat,
    generateConfiguration data [role] =
      Some (Some (XISPCameraConfiguration.mk
                    [default_entry (stream_addr data 0)] sensorFormat)).
Proof.
  intros Hlen Hrole. unfold generateConfiguration.
  rewrite Hlen. simpl. rewrite Hrole. simpl.
  erewrite validate_single_stream by (try exact Hlen; reflexivity).
  eexists. reflexivity.
Qed.

(** C10. On a camera with its single stream, [generateConfiguration]
    returns, for a role list holding exactly one supported role
    (StillCapture, Viewfinder, VideoRecording or Raw), a proposal with
    exactly one stream configuration: size 640x480, pixel format RBG888,
    buffer count 4, stride and frame size as the pixel-format metadata of
    RBG888 gives them. It returns null for a role list with more than one
    role or with an unsupported role, and an empty proposal for an empty
    role list. *)
Theorem generateConfiguration_defaults data roles :
  length (XISPCameraData.streams_ data) = 1%nat ->
  (roles = [] ->
     generateConfiguration data roles = Some (Some XISPCameraConfiguration.make)
     /\ XISPCameraConfiguration.config_ XISPCameraConfiguration.make = [])
  /\ (forall role,
        roles = [role] ->
        role ∈ [StillCapture; Viewfinder; VideoRecording; Raw] ->
        exists cfg sensorFormat,
          generateConfiguration data roles =
            Some (Some (XISPCameraConfiguration.mk [cfg] sensorFormat))
          /\ StreamConfiguration.size cfg = Size.mk 640 480
          /\ StreamConfiguration.pixelFormat cfg = RBG888
          /\ StreamConfiguration.bufferCount cfg = 4%N
          /\ StreamConfiguration.stride cfg
             = PixelFormatInfo.stride (info RBG888) 640 0
          /\ StreamConfiguration.frameSize cfg
             = PixelFormatInfo.frameSize (info RBG888) (Size.mk 640 480)
                 (PixelFormatInfo.bitsPerPixel (info RBG888)))
  /\ ((1 < length roles)%nat -> generateConfiguration data roles = Some None)
  /\ (forall v, UnknownRole v ∈ roles ->
        generateConfiguration data roles = Some None).
Proof.
  intros Hlen. split; [|split; [|split]].
  - intros ->. split; reflexivity.
  - intros role -> Hin.
    assert (Hs : role_supported role = true).
    { repeat (apply elem_of_cons in Hin as [->|Hin]; [reflexivity|]).
      inversion Hin. }
    destruct (generateConfiguration_single data role Hlen Hs) as [sf Hg].
    exists (default_entry (stream_addr data 0)), sf.
    rewrite Hg. repeat split; reflexivity.
  - intros Hmany. unfold generateConfiguration.
    destruct roles as [|r1 rest]; [simpl in Hmany; lia|].
    rewrite Hlen.
    destruct (1 <? length (r1 :: rest))%nat eqn:E; [reflexivity|].
    apply Nat.ltb_ge in E. lia.
  - intros v Hin. unfold generateConfiguration.
    destruct roles as [|r1 rest]; [inversion Hin|].
    destruct (length (XISPCameraData.streams_ data) <? length (r1 :: rest))%nat;
      [reflexivity|].
    assert (Hf : forallb role_supported (r1 :: rest) = false).
    { apply not_true_is_false. intros Hall.
      rewrite forallb_forall in Hall.
      apply list_elem_of_In in Hin. specialize (Hall _ Hin). discriminate. }
    rewrite Hf. reflexivity.
Qed.

End Generation.

(** ** Substring search *)

Lemma starts_with_app p q s :
  starts_with (p +:+ q) s = true -> starts_with p s = true.
Proof.
  revert s. induction p as [|a p IH]; intros s; simpl; [reflexivity|].
  destruct s as [|b s]; [discriminate|].
  rewrite !andb_true_iff. intros [Ha Hp]. split; [exact Ha|]. now apply IH.
Qed.

Lemma find_from_app p q s pos :
  find_from (p +:+ q) s pos <> None -> find_from p s pos <> None.
Proof.
  revert pos. induction s as [|b s IH]; intros pos.
  - simpl. destruct (starts_with (p +:+ q) "") eqn:E; [|congruence].
    rewrite (starts_with_app _ _ _ E). congruence.
  - cbn [find_from].
    destruct (starts_with (p +:+ q) (String b s)) eqn:E.
    + rewrite (starts_with_app _ _ _ E). congruence.
    + intros H. destruct (starts_with p (String b s)); [congruence|].
      now apply IH.
Qed.

(** A string that contains [p ++ q] contains [p]. *)
Lemma contains_app s p q :
  contains s (p +:+ q) = true -> contains s p = true.
Proof.
  unfold contains, find. intros H.
  pose proof (find_from_app p q s 0) as Hf.
  destruct (find_from (p +:+ q) s 0); [|discriminate].
  destruct (find_from p s 0); [reflexivity|].
  exfalso. apply Hf; congruence.
Qed.

(** ** Sensor profiles *)

(** Scanning an entity changes the recorded profile only through the four
    profile tests, and only for a name that contains ["imx"]. *)
Lemma scan_entity_profile st entity :
  recorded_profile (Scan.handler (scan_entity st entity))
  = if contains (MediaEntity.name entity) "imx"
    then recorded_profile
           (sensor_profile (MediaEntity.name entity) (Scan.handler st))
    else recorded_profile (Scan.handler st).
Proof.
  destruct entity as [name fn]. unfold scan_entity. cbn [MediaEntity.name].
  destruct (contains name "imx"), (contains name "dw9807"),
    (contains name "mipi_csi2_rx_subsystem"),
    (contains name "ISPPipeline_accel"), (contains name "v_proc_ss"),
    (contains name "vcap_mipi_"); reflexivity.
Qed.

(** C7. The profile recorded when discovery scans an entity is a function
    of the entity's name. A name with one sensor family marker gets that
    family's native size: "imx219" 1920x1080, "imx708" 1536x864, "imx477"
    1332x990, "imx500" 2028x1520, each with the SRGGB10 encoding; a name
    with none of the four leaves the recorded size and encoding as they
    were (no profile match). The four tests run in this order, so a family
    is stated with the later markers absent. *)
Theorem sensor_profile_lookup st entity :
  let name := MediaEntity.name entity in
  let recorded := recorded_profile (Scan.handler (scan_entity st entity)) in
  (contains name "imx500" = true ->
     recorded = (Size.mk 2028 1520, MEDIA_BUS_FMT_SRGGB10_1X10))
  /\ (contains name "imx477" = true -> contains name "imx500" = false ->
        recorded = (Size.mk 1332 990, MEDIA_BUS_FMT_SRGGB10_1X10))
  /\ (contains name "imx708" = true -> contains name "imx477" = false ->
      contains name "imx500" = false ->
        recorded = (Size.mk 1536 864, MEDIA_BUS_FMT_SRGGB10_1X10))
  /\ (contains name "imx219" = true -> contains name "imx708" = false ->
      contains name "imx477" = false -> contains name "imx500" = false ->
        recorded = (Size.mk 1920 1080, MEDIA_BUS_FMT_SRGGB10_1X10))
  /\ (contains name "imx219" = false -> contains name "imx708" = false ->
      contains name "imx477" = false -> contains name "imx500" = false ->
        recorded = recorded_profile (Scan.handler st)).
Proof.
  intros name recorded. subst recorded. rewrite scan_entity_profile.
  fold name. unfold sensor_profile.
  repeat split.
  - intros H5. rewrite (contains_app name "imx" "500" H5), H5.
    reflexivity.
  - intros H4 H5. rewrite (contains_app name "imx" "477" H4), H4, H5.
    reflexivity.
  - intros H7 H4 H5. rewrite (contains_app name "imx" "708" H7), H7, H4, H5.
    reflexivity.
  - intros H2 H7 H4 H5.
    rewrite (contains_app name "imx" "219" H2), H2, H7, H4, H5. reflexivity.
  - intros H2 H7 H4 H5. rewrite H2, H7, H4, H5.
    destruct (contains name "imx"); reflexivity.
Qed.

(** ** Topology discovery *)

Section Discovery.

Context {platform : Platform}.

(** The loop stops at the first index whose device group is found. *)
Lemma find_pipeline_first enumerator (k : nat) d :
  (k < 4)%nat ->
  (forall j, (j < k)%nat -> enumerator (device_match (N.of_nat j)) = None) ->
  enumerator (device_match (N.of_nat k)) = Some d ->
  find_pipeline enumerator kInstances = Some (Some d, acquisitions (S k)).
Proof.
  intros Hk Hbefore Hfound.
  assert (H0 : (0 < k)%nat -> enumerator (device_match 0) = None)
    by (intros; apply (Hbefore 0%nat); lia).
  assert (H1 : (1 < k)%nat -> enumerator (device_match 1) = None)
    by (intros; apply (Hbefore 1%nat); lia).
  assert (H2 : (2 < k)%nat -> enumerator (device_match 2) = None)
    by (intros; apply (Hbefore 2%nat); lia).
  unfold kInstances, acquisitions.
  destruct k as [|[|[|[|k]]]]; [| | | |lia];
    cbn [find_pipeline acquireMediaDevice dev_bind seq map N.of_nat].
  - change (N.of_nat 0) with 0%N in Hfound. rewrite Hfound. reflexivity.
  - change (N.of_nat 1) with 1%N in Hfound.
    rewrite H0, Hfound by lia. reflexivity.
  - change (N.of_nat 2) with 2%N in Hfound.
    rewrite H0, H1, Hfound by lia. reflexivity.
  - change (N.of_nat 3) with 3%N in Hfound.
    rewrite H0, H1, H2, Hfound by lia. reflexivity.
Qed.

(** With no device group at any index all four are queried, in order. *)
Lemma find_pipeline_none enumerator :
  (forall j, (j < 4)%nat -> enumerator (device_match (N.of_nat j)) = None) ->
  find_pipeline enumerator kInstances = Some (None, acquisitions 4).
Proof.
  intros Hnone.
  pose proof (Hnone 0%nat ltac:(lia)) as H0.
  pose proof (Hnone 1%nat ltac:(lia)) as H1.
  pose proof (Hnone 2%nat ltac:(lia)) as H2.
  pose proof (Hnone 3%nat ltac:(lia)) as H3.
  change (N.of_nat 0) with 0%N in H0. change (N.of_nat 1) with 1%N in H1.
  change (N.of_nat 2) with 2%N in H2. change (N.of_nat 3) with 3%N in H3.
  unfold kInstances, acquisitions.
  cbn [find_pipeline acquireMediaDevice dev_bind seq map].
  rewrite H0, H1, H2, H3. reflexivity.
Qed.

Lemma sensor_profile_kept name h : kept (sensor_profile name h) = kept h.
Proof.
  unfold sensor_profile.
  destruct (contains name "imx219"), (contains name "imx708"),
    (contains name "imx477"), (contains name "imx500"); reflexivity.
Qed.

Lemma scan_entity_kept st entity :
  kept (Scan.handler (scan_entity st entity)) = kept (Scan.handler st).
Proof.
  pose proof (sensor_profile_kept (MediaEntity.name entity) (Scan.handler st))
    as Hp.
  unfold scan_entity.
  destruct (contains (MediaEntity.name entity) "imx"),
    (contains (MediaEntity.name entity) "dw9807"),
    (contains (MediaEntity.name entity) "mipi_csi2_rx_subsystem"),
    (contains (MediaEntity.name entity) "ISPPipeline_accel"),
    (contains (MediaEntity.name entity) "v_proc_ss"),
    (contains (MediaEntity.name entity) "vcap_mipi_");
    first [reflexivity | exact Hp].
Qed.

Lemma scan_kept entities st :
  kept (Scan.handler (foldl scan_entity st entities)) = kept (Scan.handler st).
Proof.
  revert st. induction entities as [|e es IH]; intros st; simpl;
    [reflexivity|].
  rewrite IH. apply scan_entity_kept.
Qed.

(** Whatever [match] returns, the handler holds the device group the loop
    selected, and after the loop no further group is asked for. *)
Lemma match_keeps_selection h enumerator md tr0 b h' tr :
  find_pipeline enumerator kInstances = Some (md, tr0) ->
  match_ h enumerator = Some (b, h', tr) ->
  PipelineHandlerXISP.mediaDev_ h' = md
  /\ exists tr1, tr = tr0 ++ tr1 /\ Forall not_acquisition tr1.
Proof.
  intros Hfind Hm. unfold match_ in Hm. rewrite Hfind in Hm.
  cbn [dev_bind] in Hm.
  destruct md as [dev|].
  2:{ cbn in Hm. inversion Hm; subst. split; [reflexivity|].
      exists []. split; [reflexivity|constructor]. }
  pose proof (scan_kept (MediaDevice.entities dev)
                (Scan.mk (PipelineHandlerXISP.set_mediaDev h (Some dev))
                   None None None)) as Hk.
  set (st := foldl scan_entity _ _) in *.
  unfold kept in Hk. cbn in Hk.
  assert (Hmd : PipelineHandlerXISP.mediaDev_ (Scan.handler st) = Some dev)
    by congruence.
  clearbody st. clear Hk.
  follow_returns Hm; inversion Hm; subst; clear Hm;
    (split; [try exact Hmd; cbn; exact Hmd|]);
    eexists; (split; [reflexivity|]);
    repeat constructor.
Qed.

(** With no device group at any index [match] returns false after asking
    for all four. *)
Lemma match_none h enumerator :
  (forall j, (j < 4)%nat -> enumerator (device_match (N.of_nat j)) = None) ->
  match_ h enumerator =
    Some (false, PipelineHandlerXISP.set_mediaDev h None, acquisitions 4).
Proof.
  intros Hnone. unfold match_. rewrite (find_pipeline_none _ Hnone).
  cbn [dev_bind dev_ret]. rewrite app_nil_r. reflexivity.
Qed.

(** A system on which only instance 2 is present and whose devices open:
    [match] binds instance 2 and registers its camera. *)
Lemma match_instance2 h enumerator s :
  enumerator (device_match 0) = None ->
  enumerator (device_match 1) = None ->
  enumerator (device_match 2) = Some pipeline2 ->
  (forall e, e ∈ MediaDevice.entities pipeline2 ->
             hw_open (MediaEntity.name e) = 0%Z) ->
  create_sensor pipeline2_sensor = Some s ->
  exists h' tr1,
    match_ h enumerator = Some (true, h', acquisitions 3 ++ tr1)
    /\ Forall not_acquisition tr1
    /\ PipelineHandlerXISP.mediaDev_ h' = Some pipeline2
    /\ PipelineHandlerXISP.pipes_ h'
       = PipelineHandlerXISP.pipes_ h
         ++ [Pipe.mk "a0100000.v_proc_ss" "vcap_mipi_2_v_proc output 0"]
    /\ PipelineHandlerXISP.cameras_ h'
       = PipelineHandlerXISP.cameras_ h ++ [pipeline2_camera s].
Proof.
  intros H0 H1 H2 Hopen Hsensor.
  assert (Hfind : find_pipeline enumerator kInstances
                  = Some (Some pipeline2, acquisitions 3)).
  { apply (find_pipeline_first enumerator 2 pipeline2); [lia| |exact H2].
    intros [|[|j]] Hj; [exact H0|exact H1|lia]. }
  assert (Ho1 : hw_open "80052000.mipi_csi2_rx_subsystem" = 0%Z)
    by (apply (Hopen (MediaEntity.mk _ MEDIA_ENT_F_VID_IF_BRIDGE));
        unfold pipeline2; cbn; set_solver).
  assert (Ho2 : hw_open "a0090000.ISPPipeline_accel" = 0%Z)
    by (apply (Hopen (MediaEntity.mk _ MEDIA_ENT_F_PROC_VIDEO_PIXEL_FORMATTER));
        unfold pipeline2; cbn; set_solver).
  assert (Ho3 : hw_open "a0100000.v_proc_ss" = 0%Z)
    by (apply (Hopen (MediaEntity.mk _ MEDIA_ENT_F_PROC_VIDEO_SCALER));
        unfold pipeline2; cbn; set_solver).
  assert (Ho4 : hw_open "vcap_mipi_2_v_proc output 0" = 0%Z)
    by (apply (Hopen (MediaEntity.mk _ MEDIA_ENT_F_IO_V4L));
        unfold pipeline2; cbn; set_solver).
  unfold match_. rewrite Hfind. cbn [dev_bind].
  assert (Hscan :
    foldl scan_entity
      (Scan.mk (PipelineHandlerXISP.set_mediaDev h (Some pipeline2))
         None None None)
      (MediaDevice.entities pipeline2)
    = Scan.mk
        (PipelineHandlerXISP.mk (Some pipeline2) (Size.mk 2028 1520)
           MEDIA_BUS_FMT_SRGGB10_1X10 (Some pipeline2_sensor)
           (PipelineHandlerXISP.vcm_ h)
           (Some "80052000.mipi_csi2_rx_subsystem")
           (Some "a0090000.ISPPipeline_accel")
           (PipelineHandlerXISP.pipes_ h) (PipelineHandlerXISP.cameras_ h))
        (Some (MediaEntity.mk pipeline2_sensor MEDIA_ENT_F_CAM_SENSOR))
        (Some "a0100000.v_proc_ss") (Some "vcap_mipi_2_v_proc output 0"))
    by (vm_compute; reflexivity).
  rewrite Hscan. clear Hscan.
  cbn [Scan.handler Scan.resizer Scan.capture Scan.sensor_entity
       PipelineHandlerXISP.csi2rx_ PipelineHandlerXISP.xisp_
       dev_bind dev_ret emit open].
  rewrite Ho1, Ho2, Ho3, Ho4.
  cbn [Z.eqb negb dev_bind dev_ret emit open PipelineHandlerXISP.push_pipe
       PipelineHandlerXISP.pipes_ MediaEntity.function MediaEntity.name].
  change (create_sensor "imx500 3-001a") with (create_sensor pipeline2_sensor).
  rewrite Hsensor.
  destruct (PipelineHandlerXISP.pipes_ h) as [|p ps] eqn:Hp;
    cbn; rewrite ?Hp; (eexists _, _; split; [reflexivity|]);
    (split; [repeat constructor|]); repeat split; reflexivity.
Qed.

(** C6. Discovery asks for the candidate instances in ascending order
    0, 1, 2, 3 and selects the first whose device group is found: the
    groups asked for are exactly those up to the first found one, none is
    asked for afterwards, and the handler holds that group. With no group
    at all it returns false after the four queries. In particular, on a
    system where only instance 2 is present (and its devices open),
    discovery binds instance 2 and registers its camera. *)
Theorem discovery_first_match_wins h enumerator :
  (forall (k : nat) d,
      (k < 4)%nat ->
      (forall j, (j < k)%nat ->
                 enumerator (device_match (N.of_nat j)) = None) ->
      enumerator (device_match (N.of_nat k)) = Some d ->
      find_pipeline enumerator kInstances = Some (Some d, acquisitions (S k))
      /\ forall b h' tr,
           match_ h enumerator = Some (b, h', tr) ->
           PipelineHandlerXISP.mediaDev_ h' = Some d
           /\ exists tr1,
                tr = acquisitions (S k) ++ tr1 /\ Forall not_acquisition tr1)
  /\ ((forall j, (j < 4)%nat ->
                 enumerator (device_match (N.of_nat j)) = None) ->
      match_ h enumerator =
        Some (false, PipelineHandlerXISP.set_mediaDev h None, acquisitions 4))
  /\ (forall s,
        enumerator (device_match 0) = None ->
        enumerator (device_match 1) = None ->
        enumerator (device_match 2) = Some pipeline2 ->
        (forall e, e ∈ MediaDevice.entities pipeline2 ->
                   hw_open (MediaEntity.name e) = 0%Z) ->
        create_sensor pipeline2_sensor = Some s ->
        exists h' tr1,
          match_ h enumerator = Some (true, h', acquisitions 3 ++ tr1)
          /\ Forall not_acquisition tr1
          /\ PipelineHandlerXISP.mediaDev_ h' = Some pipeline2
          /\ PipelineHandlerXISP.cameras_ h'
             = PipelineHandlerXISP.cameras_ h ++ [pipeline2_camera s]).
Proof.
  split; [|split].
  - intros k d Hk Hbefore Hfound.
    pose proof (find_pipeline_first enumerator k d Hk Hbefore Hfound) as Hfind.
    split; [exact Hfind|].
    intros b h' tr Hm. exact (match_keeps_selection _ _ _ _ _ _ _ Hfind Hm).
  - apply match_none.
  - intros s H0 H1 H2 Hopen Hsensor.
    destruct (match_instance2 h enumerator s H0 H1 H2 Hopen Hsensor)
      as (h' & tr1 & Hm & Hacq & Hmd & _ & Hcam).
    exists h', tr1. auto.
Qed.

(** C1 (not satisfied by the code). On capture pipeline 0 with every
    role present, when the capture endpoint's [open()] fails with
    [-ENODEV], [match] returns true although no Pipe was bound and no
    camera was registered: the failure of a required role's open does not
    make discovery report failure. *)
Theorem match_true_when_capture_open_fails code0 :
  exists h' tr,
    @match_ capture_fails_platform (PipelineHandlerXISP.make code0)
      (system [pipeline0]) = Some (true, h', tr)
    /\ last tr
       = Some (Event.mk (Open "vcap_mipi_0_v_proc output 0") (- ENODEV)%Z)
    /\ PipelineHandlerXISP.pipes_ h' = []
    /\ PipelineHandlerXISP.cameras_ h' = [].
Proof.
  eexists _, _. split; [vm_compute; reflexivity|].
  repeat split; reflexivity.
Qed.

End Discovery.

(** ** Format propagation *)

Section Configuration.

Context {platform : Platform}.

(** What stopping at the first failure means. *)
Lemma issue_until_failure_spec calls :
  let r := fst (issue_until_failure calls) in
  let tr := snd (issue_until_failure calls) in
  exists n,
    map Event.call tr = take n calls
    /\ Forall (fun ev => Event.rc ev = rc_of (Event.call ev)) tr
    /\ (r = 0%Z -> n = length calls /\ Forall (fun ev => Event.rc ev = 0%Z) tr)
    /\ (r <> 0%Z ->
        exists tr0 ev,
          tr = tr0 ++ [ev] /\ Event.rc ev = r
          /\ Forall (fun ev => Event.rc ev = 0%Z) tr0).
Proof.
  induction calls as [|c rest IH]; cbn [issue_until_failure].
  - exists 0%nat. cbn. repeat split; auto; try constructor. congruence.
  - destruct (rc_of c =? 0)%Z eqn:E.
    + apply Z.eqb_eq in E. destruct IH as (n & Hcalls & Hrc & Hok & Hfail).
      exists (S n). cbn [fst snd map take Event.call].
      split; [f_equal; exact Hcalls|].
      split; [constructor; [cbn; congruence|exact Hrc]|].
      split.
      * intros Hr. destruct (Hok Hr) as [-> Hall].
        split; [reflexivity|constructor; [reflexivity|exact Hall]].
      * intros Hr. destruct (Hfail Hr) as (tr0 & ev & Htr & Hev & Hall).
        exists (Event.mk c 0 :: tr0), ev. rewrite Htr.
        split; [reflexivity|]. split; [exact Hev|].
        constructor; [reflexivity|exact Hall].
    + apply Z.eqb_neq in E. exists 1%nat. cbn [fst snd map take Event.call].
      split; [reflexivity|].
      split; [constructor; [reflexivity|constructor]|].
      split; [intros Hr; contradiction|].
      intros _. exists [], (Event.mk c (rc_of c)).
      split; [reflexivity|]. split; [reflexivity|constructor].
Qed.

(** The loop of [configure] issues the stream chain until a call fails. *)
Lemma configure_streams_chain h pipe cfgs xispFormat vpssFormat captureFormat
    enabled :
  PipelineHandlerXISP.pipes_ h !! 0%nat = Some pipe ->
  exists enabled',
    configure_streams h cfgs xispFormat vpssFormat captureFormat enabled
    = Some
        ((fst (issue_until_failure
                 (map snd (stream_chain pipe cfgs xispFormat vpssFormat
                             captureFormat))),
          enabled'),
         snd (issue_until_failure
                (map snd (stream_chain pipe cfgs xispFormat vpssFormat
                            captureFormat)))).
Proof.
  intros Hpipe.
  revert xispFormat vpssFormat captureFormat enabled.
  induction cfgs as [|config rest IH]; intros x v cap enabled.
  - eexists. reflexivity.
  - cbn [configure_streams stream_chain map app snd issue_until_failure rc_of].
    rewrite Hpipe.
    unfold subdev_setFormat, video_setFormat.
    cbn [dev_bind fst snd].
    destruct (fst (hw_subdev_setFormat (Pipe.resizer pipe) 0 x) =? 0)%Z eqn:E1;
      cbn [negb dev_ret]; [|eexists; apply Z.eqb_neq in E1; reflexivity].
    destruct (fst (hw_subdev_setFormat (Pipe.resizer pipe) 1 v) =? 0)%Z eqn:E2;
      cbn [negb dev_ret fst snd];
      [|eexists; apply Z.eqb_eq in E1; rewrite E1; reflexivity].
    match goal with
    | |- context [hw_video_setFormat (Pipe.capture pipe) ?f] =>
        destruct (fst (hw_video_setFormat (Pipe.capture pipe) f) =? 0)%Z eqn:E3
    end; cbn [negb dev_ret fst snd];
      apply Z.eqb_eq in E1, E2; rewrite E1, E2.
    + match goal with
      | |- context [configure_streams h rest ?x' ?v' ?cap' ?en] =>
          destruct (IH x' v' cap' en) as [enabled' ->]
      end.
      apply Z.eqb_eq in E3. rewrite E3.
      eexists. reflexivity.
    + eexists. reflexivity.
Qed.

(** [configure] on a bound pipeline enables the sensor link and then issues
    the format chain until a call fails. *)
Lemma configure_chain h data c sensor csi2rx xisp pipe :
  XISPCameraData.camSensor_ data = Some sensor ->
  PipelineHandlerXISP.csi2rx_ h = Some csi2rx ->
  PipelineHandlerXISP.xisp_ h = Some xisp ->
  PipelineHandlerXISP.pipes_ h !! 0%nat = Some pipe ->
  let calls :=
    map snd (format_chain h (CameraSensor.entity sensor) csi2rx xisp pipe c) in
  exists data',
    configure h data c
    = Some ((fst (issue_until_failure calls), data'),
            Event.mk (LinkSetEnabled (CameraSensor.entity sensor))
              (hw_setEnabled (CameraSensor.entity sensor))
            :: snd (issue_until_failure calls)).
Proof.
  intros Hsensor Hcsi Hxisp Hpipe calls. subst calls.
  unfold configure, format_chain. rewrite Hsensor, Hcsi, Hxisp.
  unfold sensor_setFormat, subdev_setFormat.
  cbn [map app snd fst issue_until_failure rc_of dev_bind emit].
  set (sname := CameraSensor.entity sensor).
  match goal with
  | |- context [hw_sensor_setFormat sname ?f] =>
      destruct (fst (hw_sensor_setFormat sname f) =? 0)%Z eqn:E1
  end; cbn [negb dev_ret dev_bind fst snd app];
    [apply Z.eqb_eq in E1; rewrite ?E1|eexists; reflexivity].
  match goal with
  | |- context [hw_subdev_setFormat csi2rx 0 ?f] =>
      destruct (fst (hw_subdev_setFormat csi2rx 0 f) =? 0)%Z eqn:E2
  end; cbn [negb dev_ret dev_bind fst snd app];
    [apply Z.eqb_eq in E2; rewrite ?E2|eexists; reflexivity].
  match goal with
  | |- context [hw_subdev_setFormat csi2rx 1 ?f] =>
      destruct (fst (hw_subdev_setFormat csi2rx 1 f) =? 0)%Z eqn:E3
  end; cbn [negb dev_ret dev_bind fst snd app];
    [apply Z.eqb_eq in E3; rewrite ?E3|eexists; reflexivity].
  match goal with
  | |- context [hw_subdev_setFormat xisp 0 ?f] =>
      destruct (fst (hw_subdev_setFormat xisp 0 f) =? 0)%Z eqn:E4
  end; cbn [negb dev_ret dev_bind fst snd app];
    [apply Z.eqb_eq in E4; rewrite ?E4|eexists; reflexivity].
  match goal with
  | |- context [hw_subdev_setFormat xisp 1 ?f] =>
      destruct (fst (hw_subdev_setFormat xisp 1 f) =? 0)%Z eqn:E5
  end; cbn [negb dev_ret dev_bind fst snd app];
    [apply Z.eqb_eq in E5; rewrite ?E5|eexists; reflexivity].
  match goal with
  | |- context [configure_streams h ?cfgs ?x ?v ?cap ?en] =>
      destruct (configure_streams_chain h pipe cfgs x v cap en Hpipe)
        as [enabled' ->]
  end.
  cbn [dev_bind dev_ret fst snd app]. rewrite app_nil_r.
  eexists. reflexivity.
Qed.

(** The stages the chain addresses, in order. *)
Lemma stream_chain_stages pipe cfgs x v cap :
  map fst (stream_chain pipe cfgs x v cap)
  = concat (map (fun _ => [ResizerStage; ResizerStage; CaptureStage]) cfgs).
Proof.
  revert x v cap. induction cfgs as [|config rest IH]; intros x v cap;
    [reflexivity|].
  cbn [stream_chain map concat app fst]. now rewrite IH.
Qed.

Lemma format_chain_stages h sensor csi2rx xisp pipe c :
  map fst (format_chain h sensor csi2rx xisp pipe c)
  = [SensorStage; ReceiverStage; ReceiverStage; IspStage; IspStage]
    ++ concat (map (fun _ => [ResizerStage; ResizerStage; CaptureStage])
                   (XISPCameraConfiguration.config_ c)).
Proof.
  unfold format_chain. cbn [map app fst]. now rewrite stream_chain_stages.
Qed.

(** C4. On a bound pipeline, [configure] issues the format-set calls of the
    stages in the order of the chain (sensor, receiver, ISP core, then
    resizer and capture for each stream configuration; upstream to
    downstream for the single configuration [validate] leaves). It stops
    right after the first call that fails and returns that call's error:
    every call before it succeeded, no call follows it, and no call is
    issued a second time to undo a format. *)
Theorem configure_upstream_to_downstream h data c sensor csi2rx xisp pipe :
  XISPCameraData.camSensor_ data = Some sensor ->
  PipelineHandlerXISP.csi2rx_ h = Some csi2rx ->
  PipelineHandlerXISP.xisp_ h = Some xisp ->
  PipelineHandlerXISP.pipes_ h !! 0%nat = Some pipe ->
  let chain :=
    format_chain h (CameraSensor.entity sensor) csi2rx xisp pipe c in
  exists ret data' tr,
    configure h data c
    = Some ((ret, data'),
            Event.mk (LinkSetEnabled (CameraSensor.entity sensor))
              (hw_setEnabled (CameraSensor.entity sensor)) :: tr)
    /\ map fst chain
       = [SensorStage; ReceiverStage; ReceiverStage; IspStage; IspStage]
         ++ concat (map (fun _ => [ResizerStage; ResizerStage; CaptureStage])
                        (XISPCameraConfiguration.config_ c))
    /\ ((length (XISPCameraConfiguration.config_ c) <= 1)%nat ->
        StronglySorted (fun a b => (stage_rank a <= stage_rank b)%nat)
          (map fst chain))
    /\ exists n,
         map Event.call tr = take n (map snd chain)
         /\ (ret = 0%Z ->
             n = length chain /\ Forall (fun ev => Event.rc ev = 0%Z) tr)
         /\ (ret <> 0%Z ->
             exists tr0 ev,
               tr = tr0 ++ [ev] /\ Event.rc ev = ret
               /\ Event.rc ev = rc_of (Event.call ev)
               /\ Forall (fun ev => Event.rc ev = 0%Z) tr0).
Proof.
  intros Hsensor Hcsi Hxisp Hpipe chain.
  destruct (configure_chain h data c sensor csi2rx xisp pipe
              Hsensor Hcsi Hxisp Hpipe) as [data' Hconf].
  fold chain in Hconf.
  destruct (issue_until_failure_spec (map snd chain))
    as (n & Hcalls & Hrc & Hok & Hfail).
  exists (fst (issue_until_failure (map snd chain))), data',
         (snd (issue_until_failure (map snd chain))).
  split; [exact Hconf|].
  split; [apply format_chain_stages|].
  split.
  - intros Hlen. subst chain. rewrite format_chain_stages.
    destruct (XISPCameraConfiguration.config_ c) as [|c0 [|c1 rest]];
      [| |simpl in Hlen; lia]; cbn;
      repeat (constructor; [|repeat (constructor; [cbn; lia|])]);
      repeat constructor.
  - exists n. split; [exact Hcalls|]. split.
    + intros Hr. destruct (Hok Hr) as [-> Hall].
      split; [now rewrite length_map|exact Hall].
    + intros Hr. destruct (Hfail Hr) as (tr0 & ev & Htr & Hev & Hall).
      exists tr0, ev. repeat split; try assumption.
      rewrite Htr in Hrc. apply Forall_app in Hrc as [_ Hlast].
      now inversion Hlast.
Qed.

(** C8. [configure] run a second time with the same configuration, on the
    camera data the first run left, makes exactly the same calls with the
    same format arguments, returns the same code and leaves the same list
    of enabled streams. (What a device answers to a call is a function of
    the call: the platform's.) *)
Theorem configure_twice_same h data c ret data1 tr :
  configure h data c = Some ((ret, data1), tr) ->
  configure h data1 c = Some ((ret, data1), tr).
Proof.
  intros H. unfold configure in H |- *.
  destruct (XISPCameraData.camSensor_ data) as [sensor|] eqn:Hs;
    [|discriminate].
  assert (Hs1 : XISPCameraData.camSensor_ data1 = Some sensor).
  { revert H. unfold sensor_setFormat, subdev_setFormat.
    intros H. follow_returns H; inversion H; subst; clear H;
      first [exact Hs | cbn; exact Hs]. }
  rewrite Hs1.
  revert H. unfold sensor_setFormat, subdev_setFormat.
  intros H. follow_returns H; inversion H; subst; clear H;
    cbn [dev_bind dev_ret emit fst snd];
    repeat match goal with
           | E : ?x = _ |- context [?x] => rewrite E
           end;
    cbn [dev_bind dev_ret emit fst snd negb];
    reflexivity.
Qed.

End Configuration.

(** ** Streams and pipes at run time *)

Section Runtime.

Context {platform : Platform}.

Lemma pipeIndex_first data : pipeIndex data (stream_addr data 0) = 0%N.
Proof.
  unfold pipeIndex. rewrite stream_addr_0, Z.sub_diag, Zdiv_0_l. reflexivity.
Qed.

Lemma pipeFromStream_first h data pipe rest :
  PipelineHandlerXISP.pipes_ h = pipe :: rest ->
  pipeFromStream h data (stream_addr data 0) = dev_ret pipe.
Proof.
  intros Hp. unfold pipeFromStream. rewrite pipeIndex_first, Hp. reflexivity.
Qed.

Lemma stream_at_first data s rest :
  XISPCameraData.streams_ data = s :: rest ->
  stream_at data (stream_addr data 0) = dev_ret s.
Proof.
  intros Hs. unfold stream_at. rewrite Hs. cbn [length seq list_find].
  rewrite decide_True by reflexivity. reflexivity.
Qed.

Lemma start_streams_first h data pipe rest streams :
  PipelineHandlerXISP.pipes_ h = pipe :: rest ->
  XISPCameraData.streams_ data <> [] ->
  Forall (fun s => s = Some (stream_addr data 0)) streams ->
  exists ret tr,
    start_streams h data streams = Some (ret, tr)
    /\ all_on (Pipe.capture pipe) tr.
Proof.
  intros Hp Hne Hall.
  destruct (XISPCameraData.streams_ data) as [|s0 ss] eqn:Hs; [congruence|].
  induction Hall as [|s streams -> _ IH].
  - eexists _, _. split; [reflexivity|constructor].
  - cbn [start_streams].
    rewrite (pipeFromStream_first _ _ _ _ Hp), (stream_at_first _ _ _ Hs).
    cbn [dev_bind dev_ret emit].
    destruct IH as (ret & tr & -> & Htr).
    repeat match goal with
           | |- context [negb (?x =? 0)%Z] => destruct (negb (x =? 0)%Z)
           end;
      cbn [dev_bind dev_ret emit app];
      eexists _, _; (split; [reflexivity|]);
      repeat (constructor; [reflexivity|]); first [exact Htr | constructor].
Qed.

Lemma stop_streams_first h data pipe rest streams :
  PipelineHandlerXISP.pipes_ h = pipe :: rest ->
  Forall (fun s => s = Some (stream_addr data 0)) streams ->
  exists tr,
    stop_streams h data streams = Some (tt, tr)
    /\ all_on (Pipe.capture pipe) tr.
Proof.
  intros Hp Hall. induction Hall as [|s streams -> _ IH].
  - eexists. split; [reflexivity|constructor].
  - cbn [stop_streams]. rewrite (pipeFromStream_first _ _ _ _ Hp).
    cbn [dev_bind dev_ret emit]. destruct IH as (tr & -> & Htr).
    eexists. split; [reflexivity|].
    cbn [app]. repeat (constructor; [reflexivity|]). exact Htr.
Qed.

Lemma queueRequestDevice_first h data pipe rest buffers :
  PipelineHandlerXISP.pipes_ h = pipe :: rest ->
  Forall (fun sb => fst sb = stream_addr data 0) buffers ->
  exists ret tr,
    queueRequestDevice h data buffers = Some (ret, tr)
    /\ all_on (Pipe.capture pipe) tr.
Proof.
  intros Hp Hall. induction Hall as [|[s b] buffers Hs _ IH].
  - eexists _, _. split; [reflexivity|constructor].
  - cbn [fst] in Hs. subst s. cbn [queueRequestDevice].
    rewrite (pipeFromStream_first _ _ _ _ Hp).
    cbn [dev_bind dev_ret emit]. destruct IH as (ret & tr & -> & Htr).
    destruct (negb (hw_queueBuffer (Pipe.capture pipe) b =? 0)%Z);
      cbn [dev_bind dev_ret emit app];
      eexists _, _; (split; [reflexivity|]);
      repeat (constructor; [reflexivity|]); first [exact Htr | constructor].
Qed.

(** C9. The run-time operations resolve a Stream's Pipe by [pipeFromStream]
    alone, which indexes [pipes_] with the stream's position in the
    camera's stream collection (the pointer difference to its first
    element) and checks no bound: an index outside [pipes_] is undefined
    behaviour, not an error. For a stream of the camera's single-element
    collection the index is 0, and with the one bound Pipe the access is in
    bounds: [exportFrameBuffers], [start], [stopDevice] and
    [queueRequestDevice] all run on that Pipe's capture device. *)
Theorem runtime_ops_resolve_pipe0 h data pipe stream :
  length (XISPCameraData.streams_ data) = 1%nat ->
  PipelineHandlerXISP.pipes_ h = [pipe] ->
  stream ∈ stream_set data ->
  pipeIndex data stream = 0%N
  /\ pipeFromStream h data stream = dev_ret pipe
  /\ (forall other,
        (length (PipelineHandlerXISP.pipes_ h)
         <= N.to_nat (pipeIndex data other))%nat ->
        pipeFromStream h data other = undefined)
  /\ (exists ret tr,
        exportFrameBuffers h data stream = Some (ret, tr)
        /\ all_on (Pipe.capture pipe) tr)
  /\ (Forall (fun s => s = Some stream) (XISPCameraData.enabledStreams_ data) ->
      (exists ret tr,
          start h data = Some (ret, tr) /\ all_on (Pipe.capture pipe) tr)
      /\ (exists tr,
            stopDevice h data = Some (tt, tr)
            /\ all_on (Pipe.capture pipe) tr))
  /\ (forall buffers,
        Forall (fun sb => fst sb = stream) buffers ->
        exists ret tr,
          queueRequestDevice h data buffers = Some (ret, tr)
          /\ all_on (Pipe.capture pipe) tr).
Proof.
  intros Hlen Hp Hin.
  rewrite (stream_set_single _ Hlen) in Hin.
  apply list_elem_of_singleton in Hin. subst stream.
  destruct (XISPCameraData.streams_ data) as [|s0 [|s1 ss]] eqn:Hs;
    try discriminate Hlen.
  split; [apply pipeIndex_first|].
  split; [exact (pipeFromStream_first _ _ _ _ Hp)|].
  split.
  { intros other Hout. unfold pipeFromStream.
    rewrite (proj2 (lookup_ge_None _ _) Hout). reflexivity. }
  split.
  { unfold exportFrameBuffers.
    rewrite (stream_at_first _ _ _ Hs), (pipeFromStream_first _ _ _ _ Hp).
    cbn [dev_bind dev_ret emit app].
    eexists _, _. split; [reflexivity|]. repeat constructor. }
  split.
  { intros Hen. split.
    - apply (start_streams_first h data pipe [] _ Hp); [congruence|exact Hen].
    - apply (stop_streams_first h data pipe [] _ Hp). exact Hen. }
  intros buffers Hb. exact (queueRequestDevice_first h data pipe [] _ Hp Hb).
Qed.

End Runtime.

(** ** Buffer completion *)

Section Completion.

Context {platform : Platform}.

Lemma bufferReady_pending request buffer :
  Request.pending_ (bufferReady request buffer)
  = Request.pending_ request ∖ {[FrameBuffer.cookie buffer]}.
Proof.
  unfold bufferReady.
  destruct (negb (Request.contains request SensorTimestamp));
    cbn [Request.completeBuffer Request.set Request.pending_
         Request.metadata Request.completions];
    match goal with
    | |- context [Request.hasPendingBuffers ?r] =>
        destruct (Request.hasPendingBuffers r)
    end; reflexivity.
Qed.

Lemma bufferReady_completions request buffer :
  Request.completions (bufferReady request buffer)
  = if bool_decide
         (Request.pending_ request ∖ {[FrameBuffer.cookie buffer]} = ∅)
    then S (Request.completions request)
    else Request.completions request.
Proof.
  unfold bufferReady, Request.hasPendingBuffers.
  destruct (negb (Request.contains request SensorTimestamp));
    cbn [Request.completeBuffer Request.set Request.pending_
         Request.metadata Request.completions];
    destruct (bool_decide
                (Request.pending_ request ∖ {[FrameBuffer.cookie buffer]} = ∅));
    reflexivity.
Qed.

(** The timestamp is written only when the metadata holds none. *)
Lemma bufferReady_timestamp request buffer :
  Request.metadata (bufferReady request buffer) !! SensorTimestamp
  = match Request.metadata request !! SensorTimestamp with
    | Some t => Some t
    | None => Some (FrameBuffer.timestamp buffer)
    end.
Proof.
  unfold bufferReady, Request.contains.
  destruct (Request.metadata request !! SensorTimestamp) as [t|] eqn:Ht.
  - rewrite bool_decide_true by eauto. cbn [negb].
    match goal with
    | |- context [Request.hasPendingBuffers ?r] =>
        destruct (Request.hasPendingBuffers r)
    end; exact Ht.
  - rewrite bool_decide_false by (intros [? ?]; discriminate). cbn [negb].
    match goal with
    | |- context [Request.hasPendingBuffers ?r] =>
        destruct (Request.hasPendingBuffers r)
    end; cbn; apply lookup_insert_eq.
Qed.

(** Once set, the timestamp stays. *)
Lemma handle_reports_timestamp_kept reports request t :
  Request.metadata request !! SensorTimestamp = Some t ->
  Request.metadata (handle_reports request reports) !! SensorTimestamp = Some t.
Proof.
  revert request. induction reports as [|b rest IH]; intros request Ht;
    [exact Ht|].
  cbn [handle_reports foldl]. apply IH.
  rewrite bufferReady_timestamp, Ht. reflexivity.
Qed.

(** With every outstanding buffer reported once, the Request is completed
    at the last report and not before. *)
Lemma handle_reports_once reports : forall request n,
  NoDup (map FrameBuffer.cookie reports) ->
  reports <> [] ->
  Request.pending_ request = list_to_set (map FrameBuffer.cookie reports) ->
  Request.completions request = n ->
  Request.completions (handle_reports request reports) = S n
  /\ forall pre post,
       reports = pre ++ post -> post <> [] ->
       Request.completions (handle_reports request pre) = n.
Proof.
  induction reports as [|b rest IH]; intros request n Hnd Hne Hpend Hn;
    [congruence|].
  cbn [map] in Hnd. apply NoDup_cons in Hnd as [Hfresh Hnd].
  assert (Hpend' : Request.pending_ (bufferReady request b)
                   = list_to_set (map FrameBuffer.cookie rest)).
  { rewrite bufferReady_pending, Hpend. cbn [map list_to_set].
    apply set_eq. intros x.
    rewrite elem_of_difference, elem_of_union, !elem_of_singleton,
      elem_of_list_to_set.
    split.
    - intros [[Hx|Hx] Hnx]; [contradiction|exact Hx].
    - intros Hx. split; [right; exact Hx|]. intros ->. contradiction. }
  pose proof (bufferReady_completions request b) as Hc.
  rewrite <- bufferReady_pending, Hpend' in Hc.
  destruct rest as [|b' rest'].
  - rewrite bool_decide_true in Hc by reflexivity.
    split; [cbn; congruence|].
    intros pre post Hsplit Hpost.
    destruct pre as [|x pre]; [exact Hn|].
    destruct pre; destruct post; try discriminate; congruence.
  - rewrite bool_decide_false in Hc.
    2:{ cbn [map list_to_set]. intros Hempty.
        apply (not_elem_of_empty (C := gset N) (FrameBuffer.cookie b')).
        rewrite <- Hempty. apply elem_of_union_l, elem_of_singleton.
        reflexivity. }
    destruct (IH (bufferReady request b) n Hnd ltac:(discriminate) Hpend'
                ltac:(congruence)) as [Hdone Hbefore].
    split; [exact Hdone|].
    intros pre post Hsplit Hpost.
    destruct pre as [|x pre]; [exact Hn|].
    cbn [app] in Hsplit. injection Hsplit as -> Hrest.
    exact (Hbefore pre post Hrest Hpost).
Qed.

Lemma handle_reports_cons request buffer reports :
  handle_reports request (buffer :: reports)
  = handle_reports (bufferReady request buffer) reports.
Proof. reflexivity. Qed.

(** Once no slot is unfulfilled, none becomes unfulfilled again. *)
Lemma handle_reports_pending_empty reports : forall request,
  Request.pending_ request = ∅ ->
  Request.pending_ (handle_reports request reports) = ∅.
Proof.
  induction reports as [|b rest IH]; intros request He; [exact He|].
  rewrite handle_reports_cons. apply IH.
  rewrite bufferReady_pending, He. apply set_eq. intros x.
  rewrite elem_of_difference. split; [intros [Hx _]; exact Hx|].
  intros Hx. exfalso. revert Hx. apply not_elem_of_empty.
Qed.

(** The reports handled when the Request has no unfulfilled slot left:
    each of them completes it again. *)
Lemma handle_reports_after_last reports : forall request,
  Request.pending_ request = ∅ ->
  Request.completions (handle_reports request reports)
  = (length reports + Request.completions request)%nat.
Proof.
  induction reports as [|b rest IH]; intros request He; [reflexivity|].
  rewrite handle_reports_cons, IH.
  - rewrite bufferReady_completions, bool_decide_true.
    + cbn [length]. lia.
    + rewrite <- bufferReady_pending.
      apply (handle_reports_pending_empty [b]). exact He.
  - apply (handle_reports_pending_empty [b]). exact He.
Qed.

(** C3 (as amended). Whatever buffers are reported, in whatever order and
    however often: the Request is not completed while one of its buffer
    slots is unfulfilled; the report that fulfils the last slot completes
    it, exactly once, also when buffers were reported repeatedly before;
    the SensorTimestamp is written at the first report only, from that
    buffer (a timestamp the Request already holds is kept). A report that
    arrives after the last slot was fulfilled completes the Request again:
    the handler has no guard of its own. *)
Theorem bufferReady_completes_once request reports :
  (Request.pending_ (handle_reports request reports) <> ∅ ->
     Request.completions (handle_reports request reports)
     = Request.completions request)
  /\ (forall before last,
        reports = before ++ [last] ->
        Request.pending_ (handle_reports request before) <> ∅ ->
        Request.pending_ (handle_reports request reports) = ∅ ->
        Request.completions (handle_reports request reports)
        = S (Request.completions request))
  /\ (forall first rest,
        reports = first :: rest ->
        Request.metadata (handle_reports request reports) !! SensorTimestamp
        = Some (default (FrameBuffer.timestamp first)
                  (Request.metadata request !! SensorTimestamp)))
  /\ (Request.pending_ request = ∅ ->
      Request.completions (handle_reports request reports)
      = (length reports + Request.completions request)%nat).
Proof.
  assert (Hearly : forall l r,
            Request.pending_ (handle_reports r l) <> ∅ ->
            Request.completions (handle_reports r l) = Request.completions r).
  { induction l as [|b l IH]; intros r Hp; [reflexivity|].
    rewrite handle_reports_cons in *.
    rewrite (IH _ Hp), bufferReady_completions.
    rewrite bool_decide_false; [reflexivity|].
    intros He. apply Hp, handle_reports_pending_empty.
    rewrite bufferReady_pending. exact He. }
  split; [apply Hearly|]. split; [|split].
  - intros before last -> Hbefore Hdone.
    unfold handle_reports in *. rewrite foldl_app in *. cbn [foldl] in *.
    rewrite bufferReady_completions.
    rewrite bufferReady_pending in Hdone.
    rewrite bool_decide_true by exact Hdone.
    f_equal. exact (Hearly before request Hbefore).
  - intros first rest ->. rewrite handle_reports_cons.
    apply handle_reports_timestamp_kept.
    rewrite bufferReady_timestamp.
    destruct (Request.metadata request !! SensorTimestamp); reflexivity.
  - apply handle_reports_after_last.
Qed.

End Completion.

(** C3, as stated, fails: the handler has no guard against a report that
    arrives after the Request was completed. A Request with two buffers
    whose second buffer is reported twice is completed twice. *)
Lemma bufferReady_duplicate_completes_twice :
  let b1 := FrameBuffer.mk 1 100 in
  let b2 := FrameBuffer.mk 2 200 in
  Request.completions
    (@handle_reports good_platform (Request.queued [1; 2]%N) [b1; b2])
  = 1%nat
  /\ Request.completions
       (@handle_reports good_platform (Request.queued [1; 2]%N) [b1; b2; b2])
     = 2%nat.
Proof. split; vm_compute; reflexivity. Qed.


(** * Further properties *)

(** ** Validation on any camera data *)

Section ValidationMore.

Context {platform : Platform}.

(** An address above all elements of the set is inserted at its end. *)
Lemma set_insert_above x s :
  Forall (fun y => (y < x)%Z) s -> set_insert x s = s ++ [x].
Proof.
  induction 1 as [|y s Hy _ IH]; [reflexivity|].
  cbn [set_insert app].
  rewrite (proj2 (Z.ltb_ge x y)) by lia.
  rewrite (proj2 (Z.eqb_neq x y)) by lia.
  now rewrite IH.
Qed.

(** With elements of positive size the set of streams lists the addresses
    of [streams_[0]], [streams_[1]], ... in this order. *)
Lemma stream_set_ascending data :
  (0 < sizeof_Stream)%Z ->
  stream_set data
  = map (stream_addr data) (seq 0 (length (XISPCameraData.streams_ data))).
Proof.
  intros Hpos. unfold stream_set.
  generalize (length (XISPCameraData.streams_ data)) as n.
  assert (Hgen : forall j m,
            foldl (fun s k => set_insert (stream_addr data k) s)
                  (map (stream_addr data) (seq 0 m)) (seq m j)
            = map (stream_addr data) (seq 0 (m + j))).
  { induction j as [|j IH]; intros m.
    - now rewrite Nat.add_0_r.
    - cbn [seq foldl]. rewrite set_insert_above.
      + replace (map (stream_addr data) (seq 0 m) ++ [stream_addr data m])
          with (map (stream_addr data) (seq 0 (S m)))
          by (rewrite seq_S, map_app; reflexivity).
        rewrite IH. f_equal. f_equal. lia.
      + apply Forall_forall. intros y Hy.
        apply list_elem_of_In, in_map_iff in Hy as (k & <- & Hk).
        apply in_seq in Hk.
        unfold stream_addr. nia. }
  intros n. exact (Hgen n 0%nat).
Qed.

(** [validate] on a non-empty proposal, for any camera data: it is
    undefined exactly when the camera has no stream; otherwise one entry is
    left, made of the proposal's first entry and the first available
    stream. *)
Lemma validate_first_entry data c first rest :
  XISPCameraConfiguration.config_ c = first :: rest ->
  validate data c =
    match stream_set data with
    | [] => None
    | stream :: _ =>
        Some (match rest with [] => Valid | _ :: _ => Adjusted end,
              XISPCameraConfiguration.mk [bound_entry first stream]
                (V4L2SubdeviceFormat.mk MEDIA_BUS_FMT_RBG888_1X24
                   (if size_gt (StreamConfiguration.size first) Size.zero
                    then StreamConfiguration.size first else Size.zero)
                   (V4L2SubdeviceFormat.colorSpace
                      (XISPCameraConfiguration.sensorFormat_ c))))
    end.
Proof.
  intros Hc. unfold validate. rewrite Hc.
  destruct (stream_set data) as [|stream streams]; [reflexivity|].
  destruct rest as [|second rest].
  { cbn [length]. rewrite (proj2 (Nat.ltb_ge _ 1)) by lia. reflexivity. }
  destruct (length (stream :: streams) <? length (first :: second :: rest))%nat.
  - cbn [shrink take length].
    destruct (1 <? S (length (take (length streams) (second :: rest))))%nat
      eqn:E.
    + reflexivity.
    + apply Nat.ltb_ge in E.
      destruct (take (length streams) (second :: rest)) as [|x l] eqn:Et;
        [reflexivity|cbn [length] in E; lia].
  - reflexivity.
Qed.




(** X2. [validate] never changes what the kept entry asks for: pixel
    format, size and buffer count of the proposal's first entry are taken
    as they are (no clamping to the XISP size limits, no check against
    [formatsMap_]). It returns [Valid] exactly for a proposal of one entry
    and [Adjusted] exactly for a longer one, and the sensor format's code is
    always RBG888_1X24. *)
Theorem validate_keeps_request data c status c' :
  validate data c = Some (status, c') ->
  XISPCameraConfiguration.config_ c <> [] ->
  exists entry,
    XISPCameraConfiguration.config_ c' = [entry]
    /\ head (map requested (XISPCameraConfiguration.config_ c))
       = Some (requested entry)
    /\ (status = Valid <-> length (XISPCameraConfiguration.config_ c) = 1%nat)
    /\ (status = Adjusted
        <-> (1 < length (XISPCameraConfiguration.config_ c))%nat)
    /\ V4L2SubdeviceFormat.code (XISPCameraConfiguration.sensorFormat_ c')
       = MEDIA_BUS_FMT_RBG888_1X24.
Proof.
  intros Hv Hne.
  destruct (XISPCameraConfiguration.config_ c) as [|first rest] eqn:Hc;
    [congruence|].
  rewrite (validate_first_entry data c first rest Hc) in Hv.
  destruct (stream_set data) as [|stream streams]; [discriminate|].
  inversion Hv; subst; clear Hv.
  exists (bound_entry first stream). cbn [XISPCameraConfiguration.config_
    XISPCameraConfiguration.sensorFormat_ V4L2SubdeviceFormat.code map head].
  split; [reflexivity|]. split; [reflexivity|].
  destruct rest as [|second rest]; cbn [length];
    repeat split; try reflexivity; try discriminate; intros; lia.
Qed.

(** X3. Whatever the number of streams the camera holds (elements of
    positive size), [validate] leaves exactly one entry of a non-empty
    proposal and binds it to [streams_[0]]; on camera data without any
    stream it resizes the proposal to nothing and then reads [config_[0]]:
    undefined behaviour. *)
Theorem validate_binds_stream0_any_count data c first rest :
  (0 < sizeof_Stream)%Z ->
  XISPCameraConfiguration.config_ c = first :: rest ->
  (XISPCameraData.streams_ data = [] -> validate data c = None)
  /\ (XISPCameraData.streams_ data <> [] ->
      exists status sensorFormat,
        validate data c
        = Some (status,
                XISPCameraConfiguration.mk
                  [bound_entry first (XISPCameraData.streams_base data)]
                  sensorFormat)).
Proof.
  intros Hpos Hc.
  rewrite (validate_first_entry data c first rest Hc),
    (stream_set_ascending data Hpos).
  split.
  - intros ->. reflexivity.
  - intros Hne.
    destruct (XISPCameraData.streams_ data) as [|s0 ss]; [congruence|].
    cbn [length seq map]. rewrite stream_addr_0. eexists _, _. reflexivity.
Qed.

(** X4. [validate] is idempotent: a configuration it returned as [Valid]
    or [Adjusted] validates again as [Valid] and is left as it is. *)
Theorem validate_idempotent data c status c' :
  validate data c = Some (status, c') ->
  status <> Invalid ->
  validate data c' = Some (Valid, c').
Proof.
  intros Hv Hst.
  destruct (XISPCameraConfiguration.config_ c) as [|first rest] eqn:Hc.
  { unfold validate in Hv. rewrite Hc in Hv. inversion Hv; subst.
    congruence. }
  rewrite (validate_first_entry data c first rest Hc) in Hv.
  destruct (stream_set data) as [|stream streams] eqn:Hs; [discriminate|].
  inversion Hv; subst; clear Hv.
  erewrite validate_first_entry by reflexivity.
  rewrite Hs. reflexivity.
Qed.

(** X5. What [generateConfiguration] returns is consistent with
    [validate]: a generated proposal with an entry validates as [Valid]
    and unchanged, and the empty proposal generated for no role is the one
    [validate] rejects as [Invalid]. *)
Theorem generateConfiguration_validates data roles config :
  generateConfiguration data roles = Some (Some config) ->
  (roles = [] /\ XISPCameraConfiguration.config_ config = []
   /\ validate data config = Some (Invalid, config))
  \/ (roles <> [] /\ validate data config = Some (Valid, config)).
Proof.
  intros Hg. unfold generateConfiguration in Hg.
  destruct roles as [|role roles].
  { inversion Hg; subst. left. repeat split; reflexivity. }
  right. split; [discriminate|].
  destruct (length (XISPCameraData.streams_ data) <? length (role :: roles))%nat;
    [discriminate|].
  destruct (negb (forallb role_supported (role :: roles))); [discriminate|].
  match type of Hg with
  | context [validate data ?c0] =>
      rewrite (validate_first_entry data c0 _ _ eq_refl) in Hg
  end.
  destruct (stream_set data) as [|stream streams] eqn:Hs; [discriminate|].
  cbn [map] in Hg. inversion Hg; subst; clear Hg.
  erewrite validate_first_entry by reflexivity.
  rewrite Hs. reflexivity.
Qed.

(** X6. Neither the requested roles nor their number have any influence
    on the generated proposal: any two non-empty role lists that pass the
    checks (no more roles than streams, every role supported) get the same
    result, a single 640x480 RBG888 entry also for a Raw role or for
    several roles. *)
Theorem generateConfiguration_ignores_role data roles1 roles2 :
  roles1 <> [] -> roles2 <> [] ->
  (length roles1 <= length (XISPCameraData.streams_ data))%nat ->
  (length roles2 <= length (XISPCameraData.streams_ data))%nat ->
  forallb role_supported roles1 = true ->
  forallb role_supported roles2 = true ->
  generateConfiguration data roles1 = generateConfiguration data roles2.
Proof.
  intros Hne1 Hne2 Hlen1 Hlen2 H1 H2. unfold generateConfiguration.
  destruct roles1 as [|r1 l1]; [congruence|].
  destruct roles2 as [|r2 l2]; [congruence|].
  rewrite (proj2 (Nat.ltb_ge _ _) Hlen1), (proj2 (Nat.ltb_ge _ _) Hlen2).
  rewrite H1, H2. reflexivity.
Qed.

End ValidationMore.


(** ** Resolution of the roles *)

Lemma last_entity_cons marker e es :
  last_entity marker (e :: es)
  = or_else (last_entity marker es)
      (if contains (MediaEntity.name e) marker then Some e else None).
Proof.
  unfold last_entity. rewrite filter_cons.
  destruct (contains (MediaEntity.name e) marker) eqn:E.
  - rewrite decide_True by reflexivity.
    destruct (filter _ es) as [|x l] eqn:Ef; [reflexivity|].
    cbn [last]. fold (last (x :: l)).
    destruct (last (x :: l)) eqn:El; [reflexivity|].
    apply last_None in El. discriminate.
  - rewrite decide_False by congruence.
    destruct (last (filter _ es)); reflexivity.
Qed.

(** A role that each entity with [marker] in its name takes over is, after
    the scan, held by the last such entity. *)
Lemma scan_last_wins {A} (get : Scan.t -> option A)
    (pick : MediaEntity.t -> A) marker :
  (forall st e,
      get (scan_entity st e)
      = if contains (MediaEntity.name e) marker then Some (pick e)
        else get st) ->
  forall es st,
    get (foldl scan_entity st es)
    = or_else (pick <$> last_entity marker es) (get st).
Proof.
  intros Hstep es. induction es as [|e es IH]; intros st; [reflexivity|].
  cbn [foldl]. rewrite IH, Hstep, last_entity_cons.
  destruct (last_entity marker es); [reflexivity|].
  destruct (contains (MediaEntity.name e) marker); reflexivity.
Qed.

(** The four profile tests leave the roles alone. *)
Lemma sensor_profile_roles name h :
  PipelineHandlerXISP.sensor_ (sensor_profile name h)
  = PipelineHandlerXISP.sensor_ h
  /\ PipelineHandlerXISP.vcm_ (sensor_profile name h)
     = PipelineHandlerXISP.vcm_ h
  /\ PipelineHandlerXISP.csi2rx_ (sensor_profile name h)
     = PipelineHandlerXISP.csi2rx_ h
  /\ PipelineHandlerXISP.xisp_ (sensor_profile name h)
     = PipelineHandlerXISP.xisp_ h.
Proof.
  unfold sensor_profile.
  destruct (contains name "imx219"), (contains name "imx708"),
    (contains name "imx477"), (contains name "imx500");
    repeat split; reflexivity.
Qed.

(** Splits the six marker tests of one scan step. *)
Ltac scan_cases entity :=
  destruct (contains (MediaEntity.name entity) "imx"),
    (contains (MediaEntity.name entity) "dw9807"),
    (contains (MediaEntity.name entity) "mipi_csi2_rx_subsystem"),
    (contains (MediaEntity.name entity) "ISPPipeline_accel"),
    (contains (MediaEntity.name entity) "v_proc_ss"),
    (contains (MediaEntity.name entity) "vcap_mipi_").

(** Each role of the scan state is bound to the last entity whose name
    contains the role's marker; a role no entity matches keeps the handle
    it had. *)
Lemma scan_roles entities st :
  let st' := foldl scan_entity st entities in
  Scan.sensor_entity st'
  = or_else (last_entity "imx" entities) (Scan.sensor_entity st)
  /\ PipelineHandlerXISP.sensor_ (Scan.handler st')
     = or_else (last_named "imx" entities)
         (PipelineHandlerXISP.sensor_ (Scan.handler st))
  /\ PipelineHandlerXISP.vcm_ (Scan.handler st')
     = or_else (last_named "dw9807" entities)
         (PipelineHandlerXISP.vcm_ (Scan.handler st))
  /\ PipelineHandlerXISP.csi2rx_ (Scan.handler st')
     = or_else (last_named "mipi_csi2_rx_subsystem" entities)
         (PipelineHandlerXISP.csi2rx_ (Scan.handler st))
  /\ PipelineHandlerXISP.xisp_ (Scan.handler st')
     = or_else (last_named "ISPPipeline_accel" entities)
         (PipelineHandlerXISP.xisp_ (Scan.handler st))
  /\ Scan.resizer st'
     = or_else (last_named "v_proc_ss" entities) (Scan.resizer st)
  /\ Scan.capture st'
     = or_else (last_named "vcap_mipi_" entities) (Scan.capture st).
Proof.
  cbv zeta. unfold last_named.
  split; [|split; [|split; [|split; [|split; [|split]]]]].
  - rewrite <- (option_fmap_id (last_entity "imx" entities)).
    apply (scan_last_wins Scan.sensor_entity id "imx").
    intros s e. unfold scan_entity. scan_cases e; reflexivity.
  - apply (scan_last_wins
             (fun s => PipelineHandlerXISP.sensor_ (Scan.handler s))
             MediaEntity.name "imx").
    intros s e. unfold scan_entity.
    destruct (sensor_profile_roles (MediaEntity.name e) (Scan.handler s))
      as (Hs & _).
    scan_cases e; cbn; first [reflexivity | exact Hs].
  - apply (scan_last_wins
             (fun s => PipelineHandlerXISP.vcm_ (Scan.handler s))
             MediaEntity.name "dw9807").
    intros s e. unfold scan_entity.
    destruct (sensor_profile_roles (MediaEntity.name e) (Scan.handler s))
      as (_ & Hv & _).
    scan_cases e; cbn; first [reflexivity | exact Hv].
  - apply (scan_last_wins
             (fun s => PipelineHandlerXISP.csi2rx_ (Scan.handler s))
             MediaEntity.name "mipi_csi2_rx_subsystem").
    intros s e. unfold scan_entity.
    destruct (sensor_profile_roles (MediaEntity.name e) (Scan.handler s))
      as (_ & _ & Hc & _).
    scan_cases e; cbn; first [reflexivity | exact Hc].
  - apply (scan_last_wins
             (fun s => PipelineHandlerXISP.xisp_ (Scan.handler s))
             MediaEntity.name "ISPPipeline_accel").
    intros s e. unfold scan_entity.
    destruct (sensor_profile_roles (MediaEntity.name e) (Scan.handler s))
      as (_ & _ & _ & Hx).
    scan_cases e; cbn; first [reflexivity | exact Hx].
  - apply (scan_last_wins Scan.resizer MediaEntity.name "v_proc_ss").
    intros s e. unfold scan_entity. scan_cases e; reflexivity.
  - apply (scan_last_wins Scan.capture MediaEntity.name "vcap_mipi_").
    intros s e. unfold scan_entity. scan_cases e; reflexivity.
Qed.

(** X7. Discovery binds each role to the last entity, in the order the
    selected device group lists them, whose name contains the role's
    marker ("imx" sensor, "dw9807" lens, "mipi_csi2_rx_subsystem"
    receiver, "ISPPipeline_accel" ISP core, "v_proc_ss" resizer,
    "vcap_mipi_" capture). The sensor entity, resizer and capture of this
    run are null when no entity matches; the handler's sensor, lens,
    receiver and ISP core members then keep the handles they had before
    this run. *)
Theorem scan_binds_last_match h dev :
  let entities := MediaDevice.entities dev in
  let st := foldl scan_entity
              (Scan.mk (PipelineHandlerXISP.set_mediaDev h (Some dev))
                 None None None)
              entities in
  Scan.sensor_entity st = last_entity "imx" entities
  /\ Scan.resizer st = last_named "v_proc_ss" entities
  /\ Scan.capture st = last_named "vcap_mipi_" entities
  /\ PipelineHandlerXISP.sensor_ (Scan.handler st)
     = or_else (last_named "imx" entities) (PipelineHandlerXISP.sensor_ h)
  /\ PipelineHandlerXISP.vcm_ (Scan.handler st)
     = or_else (last_named "dw9807" entities) (PipelineHandlerXISP.vcm_ h)
  /\ PipelineHandlerXISP.csi2rx_ (Scan.handler st)
     = or_else (last_named "mipi_csi2_rx_subsystem" entities)
         (PipelineHandlerXISP.csi2rx_ h)
  /\ PipelineHandlerXISP.xisp_ (Scan.handler st)
     = or_else (last_named "ISPPipeline_accel" entities)
         (PipelineHandlerXISP.xisp_ h).
Proof.
  cbv zeta.
  destruct (scan_roles (MediaDevice.entities dev)
              (Scan.mk (PipelineHandlerXISP.set_mediaDev h (Some dev))
                 None None None))
    as (Hse & Hs & Hv & Hc & Hx & Hr & Hp).
  cbv zeta in Hse, Hs, Hv, Hc, Hx, Hr, Hp.
  rewrite Hse, Hs, Hv, Hc, Hx, Hr, Hp.
  cbn [Scan.sensor_entity Scan.resizer Scan.capture Scan.handler
       PipelineHandlerXISP.set_mediaDev PipelineHandlerXISP.sensor_
       PipelineHandlerXISP.vcm_ PipelineHandlerXISP.csi2rx_
       PipelineHandlerXISP.xisp_].
  repeat split;
    match goal with
    | |- or_else ?o None = _ => destruct o; reflexivity
    | _ => reflexivity
    end.
Qed.

(** ** Discovery: success, failure and what is left behind *)

Section DiscoveryMore.

Context {platform : Platform}.

Lemma sensor_profile_ext name h1 h2 :
  recorded_profile h1 = recorded_profile h2 ->
  recorded_profile (sensor_profile name h1)
  = recorded_profile (sensor_profile name h2).
Proof.
  intros H. unfold sensor_profile.
  destruct (contains name "imx219"), (contains name "imx708"),
    (contains name "imx477"), (contains name "imx500");
    first [reflexivity | exact H].
Qed.

Lemma profiles_recorded_ext es : forall h1 h2,
  recorded_profile h1 = recorded_profile h2 ->
  profiles_recorded es h1 = profiles_recorded es h2.
Proof.
  induction es as [|e es IH]; intros h1 h2 H; [exact H|].
  unfold profiles_recorded. cbn [foldl].
  apply IH. destruct (contains (MediaEntity.name e) "imx"); [|exact H].
  now apply sensor_profile_ext.
Qed.

(** The profile the scan leaves is the one of the sensor-named entities,
    recorded in their order. *)
Lemma scan_profile es : forall st,
  recorded_profile (Scan.handler (foldl scan_entity st es))
  = profiles_recorded es (Scan.handler st).
Proof.
  induction es as [|e es IH]; intros st; [reflexivity|].
  cbn [foldl]. rewrite IH. unfold profiles_recorded at 2. cbn [foldl].
  apply profiles_recorded_ext. rewrite scan_entity_profile.
  destruct (contains (MediaEntity.name e) "imx"); reflexivity.
Qed.

(** X8. If the selected device group has an entity for each of receiver,
    ISP core, resizer and capture, the four devices open, the (last)
    sensor-named entity is a camera sensor and the sensor factory creates
    it, then [match] returns true: it opens receiver, ISP core, resizer
    and capture in this order (connecting the buffer-ready signal before
    the capture device is opened), binds exactly one more Pipe and
    registers exactly one more camera, for that sensor. *)
Theorem match_succeeds h enumerator dev tr0 csi2rx xisp resizer capture
    sensor_entity s :
  find_pipeline enumerator kInstances = Some (Some dev, tr0) ->
  last_named "mipi_csi2_rx_subsystem" (MediaDevice.entities dev)
    = Some csi2rx ->
  last_named "ISPPipeline_accel" (MediaDevice.entities dev) = Some xisp ->
  last_named "v_proc_ss" (MediaDevice.entities dev) = Some resizer ->
  last_named "vcap_mipi_" (MediaDevice.entities dev) = Some capture ->
  last_entity "imx" (MediaDevice.entities dev) = Some sensor_entity ->
  MediaEntity.function sensor_entity = MEDIA_ENT_F_CAM_SENSOR ->
  hw_open csi2rx = 0%Z -> hw_open xisp = 0%Z ->
  hw_open resizer = 0%Z -> hw_open capture = 0%Z ->
  create_sensor (MediaEntity.name sensor_entity) = Some s ->
  exists h',
    match_ h enumerator
    = Some (true, h', tr0 ++ open_sequence csi2rx xisp resizer capture)
    /\ PipelineHandlerXISP.mediaDev_ h' = Some dev
    /\ PipelineHandlerXISP.csi2rx_ h' = Some csi2rx
    /\ PipelineHandlerXISP.xisp_ h' = Some xisp
    /\ PipelineHandlerXISP.pipes_ h'
       = PipelineHandlerXISP.pipes_ h ++ [Pipe.mk resizer capture]
    /\ PipelineHandlerXISP.cameras_ h'
       = PipelineHandlerXISP.cameras_ h ++ [registered_camera s]
    /\ recorded_profile h'
       = profiles_recorded (MediaDevice.entities dev) h.
Proof.
  intros Hfind Hcsi Hxisp Hres Hcap Hsens Hfun Ho1 Ho2 Ho3 Ho4 Hcreate.
  unfold match_. rewrite Hfind. cbn [dev_bind]. cbv zeta.
  set (st0 := Scan.mk (PipelineHandlerXISP.set_mediaDev h (Some dev))
                None None None).
  destruct (scan_roles (MediaDevice.entities dev) st0)
    as (Hse & _ & _ & Hc & Hx & Hr & Hp).
  pose proof (scan_kept (MediaDevice.entities dev) st0) as Hk.
  pose proof (scan_profile (MediaDevice.entities dev) st0) as Hprof.
  cbv zeta in Hse, Hc, Hx, Hr, Hp.
  rewrite Hsens in Hse. rewrite Hcsi in Hc. rewrite Hxisp in Hx.
  rewrite Hres in Hr. rewrite Hcap in Hp.
  cbn [or_else] in Hse, Hc, Hx, Hr, Hp.
  unfold kept in Hk. cbn in Hk. injection Hk as Hmd Hpipes Hcams.
  set (st := foldl scan_entity st0 (MediaDevice.entities dev)) in *.
  clearbody st.
  rewrite Hc, Hx, Hr, Hp, Hse.
  cbn [dev_bind dev_ret emit open]. rewrite Ho1, Ho2, Ho3, Ho4.
  cbn [Z.eqb negb dev_bind dev_ret emit open
       PipelineHandlerXISP.push_pipe PipelineHandlerXISP.pipes_].
  rewrite Hfun, N.eqb_refl, Hcreate. cbn [negb].
  destruct (PipelineHandlerXISP.pipes_ (Scan.handler st)) as [|p0 ps] eqn:Hps;
    cbn [app XISPCameraData.init XISPCameraData.set_camSensor
         XISPCameraData.camSensor_ XISPCameraData.make Z.eqb negb dev_ret
         dev_bind];
    (eexists; split; [reflexivity|]);
    (split; [exact Hmd|]); (split; [exact Hc|]); (split; [exact Hx|]);
    (split; [cbn; rewrite ?Hps, <- Hpipes; reflexivity|]);
    (split; [cbn; rewrite Hcams; reflexivity|]);
    (transitivity (recorded_profile (Scan.handler st)); [reflexivity|]);
    rewrite Hprof; apply profiles_recorded_ext; reflexivity.
Qed.

(** The state of [match] after the scan of the selected group [dev]. *)
Lemma scan_summary h dev :
  let st := foldl scan_entity
              (Scan.mk (PipelineHandlerXISP.set_mediaDev h (Some dev))
                 None None None)
              (MediaDevice.entities dev) in
  PipelineHandlerXISP.mediaDev_ (Scan.handler st) = Some dev
  /\ PipelineHandlerXISP.pipes_ (Scan.handler st)
     = PipelineHandlerXISP.pipes_ h
  /\ PipelineHandlerXISP.cameras_ (Scan.handler st)
     = PipelineHandlerXISP.cameras_ h
  /\ recorded_profile (Scan.handler st)
     = profiles_recorded (MediaDevice.entities dev) h.
Proof.
  cbv zeta.
  pose proof (scan_kept (MediaDevice.entities dev)
                (Scan.mk (PipelineHandlerXISP.set_mediaDev h (Some dev))
                   None None None)) as Hk.
  unfold kept in Hk. cbn in Hk. injection Hk as Hmd Hpipes Hcams.
  repeat split; try assumption.
  rewrite scan_profile. apply profiles_recorded_ext. reflexivity.
Qed.

(** X9. [match] registers a camera only when it returns true: a return of
    false leaves the registered cameras as they were. Whatever it returns,
    at most one camera and at most one Pipe are added, at the end. *)
Theorem match_false_registers_nothing h enumerator b h' tr :
  match_ h enumerator = Some (b, h', tr) ->
  (b = false ->
     PipelineHandlerXISP.cameras_ h' = PipelineHandlerXISP.cameras_ h)
  /\ (PipelineHandlerXISP.cameras_ h' = PipelineHandlerXISP.cameras_ h
      \/ exists camera,
           PipelineHandlerXISP.cameras_ h'
           = PipelineHandlerXISP.cameras_ h ++ [camera])
  /\ (PipelineHandlerXISP.pipes_ h' = PipelineHandlerXISP.pipes_ h
      \/ exists pipe,
           PipelineHandlerXISP.pipes_ h'
           = PipelineHandlerXISP.pipes_ h ++ [pipe]).
Proof.
  intros Hm. unfold match_ in Hm.
  destruct (find_pipeline enumerator kInstances) as [[md tr0]|];
    [|discriminate].
  cbn [dev_bind] in Hm.
  destruct md as [dev|].
  2:{ cbn in Hm. inversion Hm; subst. cbn. auto. }
  destruct (scan_summary h dev) as (_ & Hp & Hc & _). cbv zeta in Hp, Hc.
  set (st := foldl scan_entity _ _) in *. clearbody st.
  follow_returns Hm; inversion Hm; subst; clear Hm; cbn;
    rewrite ?Hp, ?Hc; (split; [first [reflexivity | discriminate]|]);
    split; eauto.
Qed.

Lemma or_else_None {A} (o : option A) : or_else o None = o.
Proof. destruct o; reflexivity. Qed.

(** The roles the scan of the selected group [dev] resolves, in terms of
    the group's entities. *)
Lemma scan_resolves h dev :
  let entities := MediaDevice.entities dev in
  let st := foldl scan_entity
              (Scan.mk (PipelineHandlerXISP.set_mediaDev h (Some dev))
                 None None None)
              entities in
  Scan.sensor_entity st = last_entity "imx" entities
  /\ PipelineHandlerXISP.csi2rx_ (Scan.handler st)
     = or_else (last_named "mipi_csi2_rx_subsystem" entities)
         (PipelineHandlerXISP.csi2rx_ h)
  /\ PipelineHandlerXISP.xisp_ (Scan.handler st)
     = or_else (last_named "ISPPipeline_accel" entities)
         (PipelineHandlerXISP.xisp_ h)
  /\ Scan.resizer st = last_named "v_proc_ss" entities
  /\ Scan.capture st = last_named "vcap_mipi_" entities.
Proof.
  cbv zeta.
  destruct (scan_roles (MediaDevice.entities dev)
              (Scan.mk (PipelineHandlerXISP.set_mediaDev h (Some dev))
                 None None None))
    as (Hse & _ & _ & Hc & Hx & Hr & Hp).
  cbv zeta in Hse, Hc, Hx, Hr, Hp.
  rewrite Hse, Hc, Hx, Hr, Hp.
  cbn [Scan.sensor_entity Scan.resizer Scan.capture Scan.handler
       PipelineHandlerXISP.set_mediaDev PipelineHandlerXISP.csi2rx_
       PipelineHandlerXISP.xisp_].
  rewrite !or_else_None. repeat split; reflexivity.
Qed.

(** X10. After the enumerator queries, [match] opens the receiver, the ISP
    core, the resizer and the capture device in this order, connecting the
    buffer-ready signal just before it opens the capture device, and makes
    no other device call; each device is the one the scan resolved for
    that role (the last entity of the selected group with the role's
    marker; for receiver and ISP core the handle the handler held when the
    group has none). It stops at the first [open()] that fails: every call
    before the last one made returned 0, and the code recorded for an
    [open()] is the device's. When no device group was found it makes no
    device call. *)
Theorem match_opens_in_order h enumerator md tr0 b h' tr :
  find_pipeline enumerator kInstances = Some (md, tr0) ->
  match_ h enumerator = Some (b, h', tr) ->
  exists tr1,
    tr = tr0 ++ tr1
    /\ match md with
       | None => tr1 = []
       | Some dev =>
           let entities := MediaDevice.entities dev in
           let csi2rx :=
             default "" (or_else (last_named "mipi_csi2_rx_subsystem" entities)
                           (PipelineHandlerXISP.csi2rx_ h)) in
           let xisp :=
             default "" (or_else (last_named "ISPPipeline_accel" entities)
                           (PipelineHandlerXISP.xisp_ h)) in
           let resizer := default "" (last_named "v_proc_ss" entities) in
           let capture := default "" (last_named "vcap_mipi_" entities) in
           map Event.call tr1
             `prefix_of`
             map Event.call (open_sequence csi2rx xisp resizer capture)
           /\ Forall (fun ev => Event.rc ev = 0%Z) (removelast tr1)
           /\ Forall (fun ev => forall d, Event.call ev = Open d ->
                                 Event.rc ev = hw_open d) tr1
       end.
Proof.
  intros Hfind Hm. unfold match_ in Hm. rewrite Hfind in Hm.
  cbn [dev_bind] in Hm.
  destruct md as [dev|].
  2:{ cbn in Hm. inversion Hm; subst. exists [].
      split; reflexivity. }
  destruct (scan_resolves h dev) as (_ & Hc & Hx & Hr & Hp).
  cbv zeta in Hm, Hc, Hx, Hr, Hp.
  set (st := foldl scan_entity _ _) in *. clearbody st.
  rewrite Hc, Hx, Hr, Hp in Hm. clear Hc Hx Hr Hp.
  follow_returns Hm; inversion Hm; subst; clear Hm;
    repeat match goal with
           | E : negb (_ =? 0)%Z = false |- _ =>
               apply negb_false_iff, Z.eqb_eq in E
           end;
    (eexists; split; [reflexivity|]); cbv zeta;
    repeat match goal with
           | E : _ = Some _ |- _ => rewrite E
           end;
    cbn [default];
    (split; [cbn; eexists; reflexivity|]);
    (split;
     [ cbn; repeat constructor; assumption
     | repeat constructor; intros d Hd; cbn in Hd; inversion Hd; subst;
       reflexivity ]).
Qed.

Lemma last_entity_none marker es :
  Forall (fun e => contains (MediaEntity.name e) marker = false) es ->
  last_entity marker es = None.
Proof.
  induction 1 as [|e es He _ IH]; [reflexivity|].
  rewrite last_entity_cons, IH, He. reflexivity.
Qed.

(** [match] up to the point where the sensor entity is looked at, when the
    four required roles are resolved and open. *)
Lemma match_reaches_sensor h enumerator dev tr0 csi2rx xisp resizer capture :
  find_pipeline enumerator kInstances = Some (Some dev, tr0) ->
  last_named "mipi_csi2_rx_subsystem" (MediaDevice.entities dev)
    = Some csi2rx ->
  last_named "ISPPipeline_accel" (MediaDevice.entities dev) = Some xisp ->
  last_named "v_proc_ss" (MediaDevice.entities dev) = Some resizer ->
  last_named "vcap_mipi_" (MediaDevice.entities dev) = Some capture ->
  hw_open csi2rx = 0%Z -> hw_open xisp = 0%Z ->
  hw_open resizer = 0%Z -> hw_open capture = 0%Z ->
  exists hs,
    PipelineHandlerXISP.pipes_ hs = PipelineHandlerXISP.pipes_ h
    /\ PipelineHandlerXISP.cameras_ hs = PipelineHandlerXISP.cameras_ h
    /\ match_ h enumerator
       = match last_entity "imx" (MediaDevice.entities dev) with
         | None => None
         | Some sensor_entity =>
             let bound :=
               PipelineHandlerXISP.push_pipe hs (Pipe.mk resizer capture) in
             if negb (MediaEntity.function sensor_entity
                      =? MEDIA_ENT_F_CAM_SENSOR)%N
             then Some (false, bound,
                        tr0 ++ open_sequence csi2rx xisp resizer capture)
             else
               match create_sensor (MediaEntity.name sensor_entity) with
               | None =>
                   Some (false, bound,
                         tr0 ++ open_sequence csi2rx xisp resizer capture)
               | Some s =>
                   Some (true,
                         PipelineHandlerXISP.registerCamera bound
                           (registered_camera s),
                         tr0 ++ open_sequence csi2rx xisp resizer capture)
               end
         end.
Proof.
  intros Hfind Hcsi Hxisp Hres Hcap Ho1 Ho2 Ho3 Ho4.
  unfold match_. rewrite Hfind. cbn [dev_bind]. cbv zeta.
  set (st0 := Scan.mk (PipelineHandlerXISP.set_mediaDev h (Some dev))
                None None None).
  destruct (scan_roles (MediaDevice.entities dev) st0)
    as (Hse & _ & _ & Hc & Hx & Hr & Hp).
  destruct (scan_summary h dev) as (_ & Hpipes & Hcams & _).
  cbv zeta in Hse, Hc, Hx, Hr, Hp, Hpipes, Hcams.
  fold st0 in Hpipes, Hcams.
  rewrite Hcsi in Hc. rewrite Hxisp in Hx. rewrite Hres in Hr.
  rewrite Hcap in Hp. cbn [or_else Scan.sensor_entity st0] in Hse, Hc, Hx, Hr, Hp.
  set (st := foldl scan_entity st0 (MediaDevice.entities dev)) in *.
  clearbody st.
  exists (Scan.handler st). split; [exact Hpipes|]. split; [exact Hcams|].
  rewrite Hc, Hx, Hr, Hp, Hse.
  cbn [dev_bind dev_ret emit open]. rewrite Ho1, Ho2, Ho3, Ho4.
  cbn [Z.eqb negb dev_bind dev_ret emit open
       PipelineHandlerXISP.push_pipe PipelineHandlerXISP.pipes_].
  destruct (last_entity "imx" (MediaDevice.entities dev)) as [se|];
    cbn [or_else].
  2:{ destruct (PipelineHandlerXISP.pipes_ (Scan.handler st)); reflexivity. }
  destruct (PipelineHandlerXISP.pipes_ (Scan.handler st)) as [|p0 ps];
    cbn [app];
    destruct (negb (MediaEntity.function se =? MEDIA_ENT_F_CAM_SENSOR)%N);
    try reflexivity;
    destruct (create_sensor (MediaEntity.name se)); reflexivity.
Qed.

(** X1. When [match], started on a handler without Pipe and camera,
    returns true, a device group was selected, receiver, ISP core and
    resizer were resolved and opened with code 0, the capture role was
    resolved, and one of two things happened. Either the capture device
    opened too: the calls are the whole open sequence, exactly one Pipe of
    resizer and capture is bound and exactly one camera is registered, for
    the group's sensor entity. Or the [open()] of the device resolved for
    the capture role returned a non-zero code, as the last call: no Pipe
    is bound and no camera registered (the [return ret;] after
    [capture->open()] converts the non-zero [int] to [true]). *)
Theorem match_true_cases h enumerator h' tr :
  PipelineHandlerXISP.pipes_ h = [] ->
  PipelineHandlerXISP.cameras_ h = [] ->
  match_ h enumerator = Some (true, h', tr) ->
  exists dev tr0 csi2rx xisp resizer capture,
    find_pipeline enumerator kInstances = Some (Some dev, tr0)
    /\ or_else (last_named "mipi_csi2_rx_subsystem" (MediaDevice.entities dev))
         (PipelineHandlerXISP.csi2rx_ h) = Some csi2rx
    /\ or_else (last_named "ISPPipeline_accel" (MediaDevice.entities dev))
         (PipelineHandlerXISP.xisp_ h) = Some xisp
    /\ last_named "v_proc_ss" (MediaDevice.entities dev) = Some resizer
    /\ last_named "vcap_mipi_" (MediaDevice.entities dev) = Some capture
    /\ PipelineHandlerXISP.csi2rx_ h' = Some csi2rx
    /\ PipelineHandlerXISP.xisp_ h' = Some xisp
    /\ hw_open csi2rx = 0%Z /\ hw_open xisp = 0%Z /\ hw_open resizer = 0%Z
    /\ ((hw_open capture = 0%Z
         /\ tr = tr0 ++ open_sequence csi2rx xisp resizer capture
         /\ PipelineHandlerXISP.pipes_ h' = [Pipe.mk resizer capture]
         /\ exists sensor_entity s,
              last_entity "imx" (MediaDevice.entities dev) = Some sensor_entity
              /\ MediaEntity.function sensor_entity = MEDIA_ENT_F_CAM_SENSOR
              /\ create_sensor (MediaEntity.name sensor_entity) = Some s
              /\ PipelineHandlerXISP.cameras_ h' = [registered_camera s])
        \/ (hw_open capture <> 0%Z
            /\ tr = tr0
                    ++ removelast (open_sequence csi2rx xisp resizer capture)
                    ++ [Event.mk (Open capture) (hw_open capture)]
            /\ PipelineHandlerXISP.pipes_ h' = []
            /\ PipelineHandlerXISP.cameras_ h' = [])).
Proof.
  intros Hpipes Hcams Hm. unfold match_ in Hm.
  destruct (find_pipeline enumerator kInstances) as [[md tr0]|] eqn:Hfind;
    [|discriminate].
  cbn [dev_bind] in Hm.
  destruct md as [dev|]; [|cbn in Hm; inversion Hm].
  destruct (scan_resolves h dev) as (Hse & Hc & Hx & Hr & Hp).
  destruct (scan_summary h dev) as (_ & Hps & Hcs & _).
  cbv zeta in Hm, Hse, Hc, Hx, Hr, Hp, Hps, Hcs.
  rewrite Hpipes in Hps. rewrite Hcams in Hcs.
  set (st := foldl scan_entity _ _) in *. clearbody st.
  exists dev, tr0.
  destruct (PipelineHandlerXISP.csi2rx_ (Scan.handler st)) as [csi2rx|] eqn:Ec;
    [|cbn in Hm; inversion Hm].
  destruct (PipelineHandlerXISP.xisp_ (Scan.handler st)) as [xisp|] eqn:Ex;
    [|follow_returns Hm; inversion Hm].
  destruct (Scan.resizer st) as [resizer|] eqn:Er;
    [|follow_returns Hm; inversion Hm].
  destruct (Scan.capture st) as [capture|] eqn:Ep;
    [|follow_returns Hm; inversion Hm].
  exists csi2rx, xisp, resizer, capture.
  split; [reflexivity|]. split; [symmetry; exact Hc|].
  split; [symmetry; exact Hx|]. split; [symmetry; exact Hr|].
  split; [symmetry; exact Hp|].
  rewrite Hse in Hm. clear Hc Hx Hr Hp Hse.
  follow_returns Hm; inversion Hm; subst; clear Hm;
    repeat match goal with
           | E : negb (_ =? 0)%Z = false |- _ =>
               apply negb_false_iff, Z.eqb_eq in E
           | E : negb (_ =? 0)%Z = true |- _ =>
               apply negb_true_iff, Z.eqb_neq in E
           | E : negb (_ =? _)%N = false |- _ =>
               apply negb_false_iff, N.eqb_eq in E
           end;
    cbn [PipelineHandlerXISP.registerCamera PipelineHandlerXISP.push_pipe
         PipelineHandlerXISP.csi2rx_ PipelineHandlerXISP.xisp_
         PipelineHandlerXISP.pipes_ PipelineHandlerXISP.cameras_];
    rewrite ?Hps, ?Hcs;
    (split; [assumption|]); (split; [assumption|]);
    (split; [assumption|]); (split; [assumption|]);
    (split; [assumption|]).
  all: try match goal with
           | E : XISPCameraData.camSensor_ _ = Some _ |- _ =>
               cbn [XISPCameraData.camSensor_ XISPCameraData.set_camSensor
                    XISPCameraData.make] in E;
               rewrite ?E
           end.
  all: cbn [app];
    repeat match goal with
           | E : hw_open _ = 0%Z |- _ => rewrite !E
           end.
  all: first
    [ right; split; [assumption|]; split; [reflexivity|];
      split; reflexivity
    | left; split; [reflexivity|]; split; [reflexivity|];
      split; [reflexivity|];
      eexists _, _; split; [reflexivity|]; split; [assumption|];
      split; [eassumption|]; reflexivity ].
Qed.

(** X11. A device group without any sensor-named entity whose receiver,
    ISP core, resizer and capture are present and open makes [match] read
    the function of a null [sensor_entity]: undefined behaviour, not a
    return of false. *)
Theorem match_without_sensor_undefined h enumerator dev tr0 csi2rx xisp
    resizer capture :
  find_pipeline enumerator kInstances = Some (Some dev, tr0) ->
  last_named "mipi_csi2_rx_subsystem" (MediaDevice.entities dev)
    = Some csi2rx ->
  last_named "ISPPipeline_accel" (MediaDevice.entities dev) = Some xisp ->
  last_named "v_proc_ss" (MediaDevice.entities dev) = Some resizer ->
  last_named "vcap_mipi_" (MediaDevice.entities dev) = Some capture ->
  hw_open csi2rx = 0%Z -> hw_open xisp = 0%Z ->
  hw_open resizer = 0%Z -> hw_open capture = 0%Z ->
  Forall (fun e => contains (MediaEntity.name e) "imx" = false)
    (MediaDevice.entities dev) ->
  match_ h enumerator = undefined.
Proof.
  intros Hfind Hcsi Hxisp Hres Hcap Ho1 Ho2 Ho3 Ho4 Hnone.
  destruct (match_reaches_sensor h enumerator dev tr0 csi2rx xisp resizer
              capture Hfind Hcsi Hxisp Hres Hcap Ho1 Ho2 Ho3 Ho4)
    as (hs & _ & _ & ->).
  rewrite (last_entity_none _ _ Hnone). reflexivity.
Qed.

(** X12. A failure after the devices were opened leaves them bound: when
    the sensor entity is no camera sensor, or the sensor factory creates
    nothing, [match] returns false with the new Pipe kept in [pipes_] and
    no camera registered, all four devices having been opened. *)
Theorem match_late_failure_keeps_pipe h enumerator dev tr0 csi2rx xisp
    resizer capture sensor_entity :
  find_pipeline enumerator kInstances = Some (Some dev, tr0) ->
  last_named "mipi_csi2_rx_subsystem" (MediaDevice.entities dev)
    = Some csi2rx ->
  last_named "ISPPipeline_accel" (MediaDevice.entities dev) = Some xisp ->
  last_named "v_proc_ss" (MediaDevice.entities dev) = Some resizer ->
  last_named "vcap_mipi_" (MediaDevice.entities dev) = Some capture ->
  hw_open csi2rx = 0%Z -> hw_open xisp = 0%Z ->
  hw_open resizer = 0%Z -> hw_open capture = 0%Z ->
  last_entity "imx" (MediaDevice.entities dev) = Some sensor_entity ->
  MediaEntity.function sensor_entity <> MEDIA_ENT_F_CAM_SENSOR
  \/ create_sensor (MediaEntity.name sensor_entity) = None ->
  exists h',
    match_ h enumerator
    = Some (false, h', tr0 ++ open_sequence csi2rx xisp resizer capture)
    /\ PipelineHandlerXISP.pipes_ h'
       = PipelineHandlerXISP.pipes_ h ++ [Pipe.mk resizer capture]
    /\ PipelineHandlerXISP.cameras_ h' = PipelineHandlerXISP.cameras_ h.
Proof.
  intros Hfind Hcsi Hxisp Hres Hcap Ho1 Ho2 Ho3 Ho4 Hsens Hlate.
  destruct (match_reaches_sensor h enumerator dev tr0 csi2rx xisp resizer
              capture Hfind Hcsi Hxisp Hres Hcap Ho1 Ho2 Ho3 Ho4)
    as (hs & Hp & Hc & ->).
  rewrite Hsens. cbv zeta.
  exists (PipelineHandlerXISP.push_pipe hs (Pipe.mk resizer capture)).
  split; [|cbn; rewrite Hp, Hc; split; reflexivity].
  destruct (MediaEntity.function sensor_entity =? MEDIA_ENT_F_CAM_SENSOR)%N
    eqn:E; cbn [negb]; [|reflexivity].
  apply N.eqb_eq in E. destruct Hlate as [Hf| ->]; [contradiction|reflexivity].
Qed.

Lemma profiles_recorded_unknown es : forall h,
  Forall (fun e =>
            contains (MediaEntity.name e) "imx219" = false
            /\ contains (MediaEntity.name e) "imx708" = false
            /\ contains (MediaEntity.name e) "imx477" = false
            /\ contains (MediaEntity.name e) "imx500" = false) es ->
  profiles_recorded es h = recorded_profile h.
Proof.
  intros h Hall. revert h.
  induction Hall as [|e es (H2 & H7 & H4 & H5) _ IH]; intros h;
    [reflexivity|].
  unfold profiles_recorded. cbn [foldl].
  fold (profiles_recorded es
          (if contains (MediaEntity.name e) "imx"
           then sensor_profile (MediaEntity.name e) h else h)).
  rewrite IH. unfold sensor_profile. rewrite H2, H7, H4, H5.
  destruct (contains (MediaEntity.name e) "imx"); reflexivity.
Qed.

(** X13. Whatever [match] returns, the native size and encoding it leaves
    in the handler are those of the selected group's sensor-named
    entities, recorded in their order (so the last entity of a known
    family decides). When no entity name holds a known family, the values
    the handler was constructed with stay (size 0x0), also for a camera
    that gets registered. *)
Theorem match_records_profiles h enumerator dev tr0 b h' tr :
  find_pipeline enumerator kInstances = Some (Some dev, tr0) ->
  match_ h enumerator = Some (b, h', tr) ->
  recorded_profile h' = profiles_recorded (MediaDevice.entities dev) h
  /\ (Forall (fun e =>
                contains (MediaEntity.name e) "imx219" = false
                /\ contains (MediaEntity.name e) "imx708" = false
                /\ contains (MediaEntity.name e) "imx477" = false
                /\ contains (MediaEntity.name e) "imx500" = false)
             (MediaDevice.entities dev) ->
      recorded_profile h' = recorded_profile h).
Proof.
  intros Hfind Hm.
  assert (Hrec : recorded_profile h'
                 = profiles_recorded (MediaDevice.entities dev) h).
  { unfold match_ in Hm. rewrite Hfind in Hm. cbn [dev_bind] in Hm.
    destruct (scan_summary h dev) as (_ & _ & _ & Hprof).
    cbv zeta in Hprof.
    set (st := foldl scan_entity _ _) in *. clearbody st.
    follow_returns Hm; inversion Hm; subst; clear Hm; exact Hprof. }
  split; [exact Hrec|].
  intros Hunknown. rewrite Hrec. now apply profiles_recorded_unknown.
Qed.

End DiscoveryMore.

(** ** What [configure] leaves in the camera data *)

Section ConfigurationMore.

Context {platform : Platform}.

(** The loop of [configure] appends the streams of the entries whose three
    calls succeeded. *)
Lemma configure_streams_enabled h cfgs : forall x v cap enabled ret enabled' tr,
  configure_streams h cfgs x v cap enabled = Some ((ret, enabled'), tr) ->
  exists k,
    enabled' = enabled ++ map StreamConfiguration.stream_ (take k cfgs)
    /\ (ret = 0%Z -> k = length cfgs)
    /\ (ret <> 0%Z -> (k < length cfgs)%nat /\ tr <> []).
Proof.
  induction cfgs as [|config rest IH]; intros x v cap enabled ret enabled' tr H.
  - cbn in H. inversion H; subst. exists 0%nat. cbn. rewrite app_nil_r.
    repeat split; congruence.
  - cbn [configure_streams] in H.
    destruct (PipelineHandlerXISP.pipes_ h !! 0%nat) as [pipe|];
      [|discriminate].
    unfold subdev_setFormat, video_setFormat in H.
    cbn [dev_bind fst snd] in H.
    destruct (negb (fst (hw_subdev_setFormat (Pipe.resizer pipe) 0 x) =? 0)%Z)
      eqn:E1.
    { cbn in H. inversion H; subst. exists 0%nat. cbn. rewrite app_nil_r.
      apply negb_true_iff, Z.eqb_neq in E1.
      repeat split; try congruence; lia. }
    destruct (negb (fst (hw_subdev_setFormat (Pipe.resizer pipe) 1 v) =? 0)%Z)
      eqn:E2.
    { cbn in H. inversion H; subst. exists 0%nat. cbn. rewrite app_nil_r.
      apply negb_true_iff, Z.eqb_neq in E2.
      repeat split; try congruence; lia. }
    match type of H with
    | context [hw_video_setFormat (Pipe.capture pipe) ?f] =>
        destruct (negb (fst (hw_video_setFormat (Pipe.capture pipe) f) =? 0)%Z)
          eqn:E3
    end.
    { cbn in H. inversion H; subst. exists 0%nat. cbn. rewrite app_nil_r.
      apply negb_true_iff, Z.eqb_neq in E3.
      repeat split; try congruence; lia. }
    match type of H with
    | context [configure_streams h rest ?x' ?v' ?cap' ?en] =>
        destruct (configure_streams h rest x' v' cap' en)
          as [[[ret1 en1] tr1]|] eqn:Hrec; [|discriminate]
    end.
    cbn in H. inversion H; subst.
    destruct (IH _ _ _ _ _ _ _ Hrec) as (k & Hen & Hok & Hfail).
    exists (S k). cbn [take map length]. rewrite Hen, <- app_assoc.
    split; [reflexivity|]. split.
    + intros Hr. now rewrite (Hok Hr).
    + intros Hr. destruct (Hfail Hr) as [Hk _]. split; [lia|discriminate].
Qed.

(** What [configure] leaves in the camera data: nothing changed when a
    call before the per-stream part fails, otherwise the streams of the
    entries configured. *)
Lemma configure_camera_data h data c ret data' tr :
  configure h data c = Some ((ret, data'), tr) ->
  (ret <> 0%Z /\ data' = data /\ (length tr <= 6)%nat)
  \/ exists k,
       data'
       = XISPCameraData.set_enabledStreams data
           (map StreamConfiguration.stream_
              (take k (XISPCameraConfiguration.config_ c)))
       /\ (ret = 0%Z -> k = length (XISPCameraConfiguration.config_ c))
       /\ (ret <> 0%Z ->
           (k < length (XISPCameraConfiguration.config_ c))%nat
           /\ (6 < length tr)%nat).
Proof.
  intros H. unfold configure in H.
  destruct (XISPCameraData.camSensor_ data) as [sensor|] eqn:Hs;
    [|discriminate].
  unfold sensor_setFormat, subdev_setFormat in H.
  repeat first
    [ progress cbn [dev_bind emit fst snd] in H
    | match type of H with
      | context [if negb (?x =? 0)%Z then _ else _] =>
          let E := fresh "E" in
          destruct (negb (x =? 0)%Z) eqn:E;
          [ apply negb_true_iff, Z.eqb_neq in E;
            cbn in H; inversion H; subst; clear H;
            left; split; [assumption|]; split; [reflexivity|];
            cbn [length]; lia
          | ]
      | context [match PipelineHandlerXISP.csi2rx_ h with _ => _ end] =>
          destruct (PipelineHandlerXISP.csi2rx_ h); [|discriminate H]
      | context [match PipelineHandlerXISP.xisp_ h with _ => _ end] =>
          destruct (PipelineHandlerXISP.xisp_ h); [|discriminate H]
      end ].
  unfold dev_bind in H.
  match type of H with
  | context [configure_streams h ?cfgs ?x ?v ?cap ?en] =>
      destruct (configure_streams h cfgs x v cap en)
        as [[[ret1 en1] tr1]|] eqn:Hloop; [|discriminate]
  end.
  destruct (configure_streams_enabled _ _ _ _ _ _ _ _ _ Hloop)
    as (k & Hen & Hok & Hfail).
  cbn in H. inversion H; subst; clear H.
  right. exists k. split; [reflexivity|]. split; [exact Hok|].
  intros Hr. destruct (Hfail Hr) as [Hk Hne]. split; [exact Hk|].
  destruct tr1; [congruence|]. rewrite app_nil_r. cbn [length]. lia.
Qed.

(** X14. [configure] changes nothing of the camera data but the list of
    enabled streams. On success the list holds the streams of the
    configuration's entries, in order. On a failure of the sensor, receiver
    or ISP core call the list is left as it was (it may still hold the
    streams of an earlier configuration); on a failure in the per-stream
    part it holds the streams of the entries configured before the failing
    one, a strict prefix. *)
Theorem configure_enabled_streams h data c ret data' tr :
  configure h data c = Some ((ret, data'), tr) ->
  XISPCameraData.camSensor_ data' = XISPCameraData.camSensor_ data
  /\ XISPCameraData.streams_base data' = XISPCameraData.streams_base data
  /\ XISPCameraData.streams_ data' = XISPCameraData.streams_ data
  /\ (ret = 0%Z ->
      XISPCameraData.enabledStreams_ data'
      = map StreamConfiguration.stream_ (XISPCameraConfiguration.config_ c))
  /\ (ret <> 0%Z ->
      ((length tr <= 6)%nat -> data' = data)
      /\ ((6 < length tr)%nat ->
          exists k,
            (k < length (XISPCameraConfiguration.config_ c))%nat
            /\ XISPCameraData.enabledStreams_ data'
               = map StreamConfiguration.stream_
                   (take k (XISPCameraConfiguration.config_ c)))).
Proof.
  intros H.
  destruct (configure_camera_data _ _ _ _ _ _ H)
    as [(Hr & -> & Hlen)|(k & -> & Hok & Hfail)].
  - split; [reflexivity|]. split; [reflexivity|]. split; [reflexivity|].
    split; [intros Hz; contradiction|].
    intros _. split; [reflexivity|]. intros Hgt. lia.
  - split; [reflexivity|]. split; [reflexivity|]. split; [reflexivity|].
    split.
    + intros Hr. rewrite (Hok Hr), firstn_all. reflexivity.
    + intros Hr. destruct (Hfail Hr) as [Hk Hgt].
      split; [intros Hle; lia|].
      intros _. exists k. split; [exact Hk|reflexivity].
Qed.

End ConfigurationMore.

(** ** Streams, pipes and the streaming calls *)

Section RuntimeMore.

Context {platform : Platform}.

(** X15. The address of [streams_[k]] leads back to position [k]:
    [pipeIndex] returns [k], [pipeFromStream] the Pipe at position [k] of
    [pipes_] (undefined behaviour when there is none), and the address
    designates the Stream object at position [k]. *)
Theorem pipeIndex_round_trip h data k :
  (0 < sizeof_Stream)%Z ->
  (Z.of_nat k < 2 ^ 32)%Z ->
  pipeIndex data (stream_addr data k) = N.of_nat k
  /\ pipeFromStream h data (stream_addr data k)
     = match PipelineHandlerXISP.pipes_ h !! k with
       | Some pipe => dev_ret pipe
       | None => undefined
       end
  /\ (forall s, XISPCameraData.streams_ data !! k = Some s ->
        stream_at data (stream_addr data k) = dev_ret s).
Proof.
  intros Hsz Hk.
  assert (Hidx : pipeIndex data (stream_addr data k) = N.of_nat k).
  { unfold pipeIndex, stream_addr.
    replace (XISPCameraData.streams_base data + Z.of_nat k * sizeof_Stream
             - XISPCameraData.streams_base data)%Z
      with (Z.of_nat k * sizeof_Stream)%Z by lia.
    rewrite Z.div_mul by lia. rewrite Z.mod_small by lia. lia. }
  split; [exact Hidx|]. split.
  - unfold pipeFromStream. rewrite Hidx, Nat2N.id. reflexivity.
  - intros s Hs. unfold stream_at.
    assert (Hfind :
      list_find (fun k' => stream_addr data k' = stream_addr data k)
        (seq 0 (length (XISPCameraData.streams_ data))) = Some (k, k)).
    { apply list_find_Some. split; [|split].
      - apply lookup_seq. split; [reflexivity|].
        apply lookup_lt_Some in Hs. exact Hs.
      - reflexivity.
      - intros j y Hj Hlt Heq. apply lookup_seq in Hj as [-> _].
        unfold stream_addr in Heq. nia. }
    rewrite Hfind, Hs. reflexivity.
Qed.

Lemma stops_nil : stops_at_first_failure [] 0 [].
Proof.
  split; [constructor|].
  split; [intros _; split; [reflexivity|constructor]|congruence].
Qed.

Lemma stops_fail c calls :
  runtime_rc c <> 0%Z ->
  stops_at_first_failure (c :: calls) (runtime_rc c)
    [Event.mk c (runtime_rc c)].
Proof.
  intros Hc. split; [repeat constructor|].
  split; [intros Hr; contradiction|].
  intros _. exists [], (Event.mk c (runtime_rc c)), calls.
  repeat split. constructor.
Qed.

Lemma stops_cons c calls ret tr :
  runtime_rc c = 0%Z ->
  stops_at_first_failure calls ret tr ->
  stops_at_first_failure (c :: calls) ret (Event.mk c (runtime_rc c) :: tr).
Proof.
  intros Hc (Hall & Hok & Hfail).
  split; [constructor; [reflexivity|exact Hall]|].
  split.
  - intros Hr. destruct (Hok Hr) as [Hcalls Hzero].
    cbn [map Event.call]. rewrite Hcalls.
    split; [reflexivity|constructor; [exact Hc|exact Hzero]].
  - intros Hr. destruct (Hfail Hr) as (tr0 & ev & rest & Htr & Hcs & Hev & Hz).
    exists (Event.mk c (runtime_rc c) :: tr0), ev, rest.
    rewrite Htr. cbn [app map Event.call].
    split; [reflexivity|]. rewrite Htr in Hcs. rewrite Hcs.
    split; [reflexivity|]. split; [exact Hev|].
    constructor; [exact Hc|exact Hz].
Qed.

(** A list all of whose elements are [x]. *)
Lemma Forall_eq_replicate {A} (x : A) l :
  Forall (fun y => y = x) l -> l = replicate (length l) x.
Proof.
  induction 1 as [|y l -> _ IH]; [reflexivity|].
  cbn [length replicate]. now rewrite <- IH.
Qed.

Lemma start_streams_until_failure h data pipe pipes s0 ss n :
  PipelineHandlerXISP.pipes_ h = pipe :: pipes ->
  XISPCameraData.streams_ data = s0 :: ss ->
  exists ret tr,
    start_streams h data (replicate n (Some (stream_addr data 0)))
    = Some (ret, tr)
    /\ stops_at_first_failure
         (start_calls (Pipe.capture pipe)
            (StreamConfiguration.bufferCount (Stream.configuration_ s0)) n)
         ret tr
    /\ Forall (fun ev => is_teardown (Event.call ev) = false) tr.
Proof.
  intros Hp Hs. induction n as [|n IH].
  - eexists _, _. split; [reflexivity|]. split; [exact stops_nil|constructor].
  - destruct IH as (ret & tr & Hrun & Hstops & Hno).
    cbn [replicate start_streams].
    rewrite (pipeFromStream_first _ _ _ _ Hp), (stream_at_first _ _ _ Hs).
    cbn [dev_bind dev_ret emit]. rewrite Hrun.
    set (cap := Pipe.capture pipe) in *.
    set (count := StreamConfiguration.bufferCount (Stream.configuration_ s0))
      in *.
    unfold start_calls in *. cbn [replicate concat app].
    destruct (hw_importBuffers cap count =? 0)%Z eqn:E1; cbn [negb].
    2:{ apply Z.eqb_neq in E1. eexists _, _. split; [reflexivity|].
        split; [exact (stops_fail (ImportBuffers cap count) _ E1)|].
        repeat constructor. }
    apply Z.eqb_eq in E1.
    destruct (hw_streamOn cap =? 0)%Z eqn:E2; cbn [negb].
    2:{ apply Z.eqb_neq in E2. eexists _, _. split; [reflexivity|].
        split; [|repeat constructor].
        apply (stops_cons (ImportBuffers cap count)); [exact E1|].
        exact (stops_fail (StreamOn cap) _ E2). }
    apply Z.eqb_eq in E2.
    eexists _, _. split; [reflexivity|]. cbn [app].
    split; [|repeat (constructor; [reflexivity|]); exact Hno].
    apply (stops_cons (ImportBuffers cap count)); [exact E1|].
    apply (stops_cons (StreamOn cap)); [exact E2|]. exact Hstops.
Qed.

Lemma stop_streams_all h data pipe pipes n :
  PipelineHandlerXISP.pipes_ h = pipe :: pipes ->
  stop_streams h data (replicate n (Some (stream_addr data 0)))
  = Some (tt, map (fun c => Event.mk c (runtime_rc c))
                (stop_calls (Pipe.capture pipe) n)).
Proof.
  intros Hp. induction n as [|n IH]; [reflexivity|].
  cbn [replicate stop_streams].
  rewrite (pipeFromStream_first _ _ _ _ Hp).
  cbn [dev_bind dev_ret emit]. rewrite IH. reflexivity.
Qed.

(** X16. [start] imports the buffers and starts streaming for each enabled
    stream in turn and stops at the first call that fails, returning its
    code: the calls after it are not made, and nothing already done is
    undone (no [streamOff], no [releaseBuffers]), so a failing [streamOn]
    leaves the buffers imported and a failure on a later stream leaves the
    earlier ones streaming. *)
Theorem start_stops_at_first_failure h data pipe pipes s0 ss :
  PipelineHandlerXISP.pipes_ h = pipe :: pipes ->
  XISPCameraData.streams_ data = s0 :: ss ->
  Forall (fun s => s = Some (stream_addr data 0))
    (XISPCameraData.enabledStreams_ data) ->
  exists ret tr,
    start h data = Some (ret, tr)
    /\ stops_at_first_failure
         (start_calls (Pipe.capture pipe)
            (StreamConfiguration.bufferCount (Stream.configuration_ s0))
            (length (XISPCameraData.enabledStreams_ data)))
         ret tr
    /\ Forall (fun ev => is_teardown (Event.call ev) = false) tr.
Proof.
  intros Hp Hs Hen. unfold start.
  destruct (start_streams_until_failure h data pipe pipes s0 ss
              (length (XISPCameraData.enabledStreams_ data)) Hp Hs)
    as (ret & tr & Hrun & Hstops & Hno).
  rewrite <- (Forall_eq_replicate _ _ Hen) in Hrun.
  exists ret, tr. split; [exact Hrun|]. split; [exact Hstops|exact Hno].
Qed.

(** X17. [stopDevice] stops streaming and releases the buffers of every
    enabled stream whatever the devices answer: the return codes are
    dropped, no call is skipped after a failure, and two calls are made
    per enabled stream. *)
Theorem stopDevice_ignores_failures h data pipe pipes :
  PipelineHandlerXISP.pipes_ h = pipe :: pipes ->
  Forall (fun s => s = Some (stream_addr data 0))
    (XISPCameraData.enabledStreams_ data) ->
  exists tr,
    stopDevice h data = Some (tt, tr)
    /\ map Event.call tr
       = stop_calls (Pipe.capture pipe)
           (length (XISPCameraData.enabledStreams_ data))
    /\ Forall (fun ev => Event.rc ev = runtime_rc (Event.call ev)) tr
    /\ length tr = (2 * length (XISPCameraData.enabledStreams_ data))%nat.
Proof.
  intros Hp Hen. unfold stopDevice.
  assert (Hrun := stop_streams_all h data pipe pipes
                    (length (XISPCameraData.enabledStreams_ data)) Hp).
  rewrite <- (Forall_eq_replicate _ _ Hen) in Hrun.
  eexists. split; [exact Hrun|]. clear Hrun.
  generalize (length (XISPCameraData.enabledStreams_ data)) as n.
  intros n. split; [|split].
  - rewrite map_map. cbn [Event.call]. apply map_id.
  - apply Forall_forall. intros ev Hev.
    apply list_elem_of_In, in_map_iff in Hev as (c & <- & _). reflexivity.
  - rewrite length_map. unfold stop_calls.
    induction n as [|n IH]; [reflexivity|].
    cbn [replicate concat app length]. rewrite IH. lia.
Qed.

(** The Pipe of the stream at position [k]. *)
Lemma pipeFromStream_at h data k pipe :
  (0 < sizeof_Stream)%Z ->
  (Z.of_nat k < 2 ^ 32)%Z ->
  PipelineHandlerXISP.pipes_ h !! k = Some pipe ->
  pipeFromStream h data (stream_addr data k) = dev_ret pipe.
Proof.
  intros Hsz Hk Hp. unfold pipeFromStream, pipeIndex, stream_addr.
  replace (XISPCameraData.streams_base data + Z.of_nat k * sizeof_Stream
           - XISPCameraData.streams_base data)%Z
    with (Z.of_nat k * sizeof_Stream)%Z by lia.
  rewrite Z.div_mul by lia. rewrite Z.mod_small by lia.
  replace (Z.to_N (Z.of_nat k)) with (N.of_nat k) by lia.
  rewrite Nat2N.id, Hp. reflexivity.
Qed.

(** X18. [queueRequestDevice] queues the buffers of a Request in the
    order the Request yields them, each on the capture device of the Pipe
    its stream resolves to, and stops at the first [queueBuffer] that
    fails, returning its code: the remaining buffers are not queued and
    the ones already queued stay queued. A Request without buffers returns
    0 and makes no call. This holds for camera data with any number of
    streams, each buffer being attached to a stream [streams_[k]] with a
    Pipe [pipes_[k]]. *)
Theorem queueRequestDevice_stops_at_first_failure h data buffers pipes :
  (0 < sizeof_Stream)%Z ->
  Forall2 (fun sb pipe =>
             exists k,
               fst sb = stream_addr data k
               /\ (Z.of_nat k < 2 ^ 32)%Z
               /\ PipelineHandlerXISP.pipes_ h !! k = Some pipe)
          buffers pipes ->
  exists ret tr,
    queueRequestDevice h data buffers = Some (ret, tr)
    /\ stops_at_first_failure (queue_calls buffers pipes) ret tr
    /\ (buffers = [] -> ret = 0%Z /\ tr = []).
Proof.
  intros Hsz Hall.
  induction Hall as [|[s b] pipe buffers pipes (k & Hs & Hk & Hp) _ IH].
  - eexists _, _. split; [reflexivity|]. split; [exact stops_nil|].
    intros _. split; reflexivity.
  - cbn [fst] in Hs. subst s. cbn [queueRequestDevice].
    rewrite (pipeFromStream_at _ _ _ _ Hsz Hk Hp).
    cbn [dev_bind dev_ret emit].
    destruct IH as (ret & tr & -> & Hstops & _).
    unfold queue_calls in *. cbn [zip_with snd].
    destruct (hw_queueBuffer (Pipe.capture pipe) b =? 0)%Z eqn:E; cbn [negb].
    + apply Z.eqb_eq in E. eexists _, _. split; [reflexivity|].
      split; [|intros Hnil; discriminate Hnil].
      exact (stops_cons (QueueBuffer (Pipe.capture pipe) b) _ _ _ E Hstops).
    + apply Z.eqb_neq in E. eexists _, _. split; [reflexivity|].
      split; [|intros Hnil; discriminate Hnil].
      exact (stops_fail (QueueBuffer (Pipe.capture pipe) b) _ E).
Qed.

End RuntimeMore.

(** ** From a validated configuration to streaming *)

Section LifeCycle.

Context {platform : Platform}.

(** X19. The operations compose without undefined behaviour: on a handler
    with a bound Pipe, a configuration that [validate] accepted and
    [configure] applied with return code 0 leaves exactly [streams_[0]]
    enabled; [start] then runs on the capture device of [pipes_[0]] with
    the buffer count held by [streams_[0]], and [stopDevice] makes the two
    teardown calls on that device. *)
Theorem configure_then_start h data c status c' data' tr pipe pipes s0 ss :
  (0 < sizeof_Stream)%Z ->
  XISPCameraData.streams_ data = s0 :: ss ->
  PipelineHandlerXISP.pipes_ h = pipe :: pipes ->
  validate data c = Some (status, c') ->
  status <> Invalid ->
  configure h data c' = Some ((0%Z, data'), tr) ->
  XISPCameraData.enabledStreams_ data' = [Some (stream_addr data' 0)]
  /\ (exists ret tr',
        start h data' = Some (ret, tr')
        /\ stops_at_first_failure
             (start_calls (Pipe.capture pipe)
                (StreamConfiguration.bufferCount (Stream.configuration_ s0))
                1)
             ret tr')
  /\ (exists tr',
        stopDevice h data' = Some (tt, tr')
        /\ map Event.call tr'
           = [StreamOff (Pipe.capture pipe);
              ReleaseBuffers (Pipe.capture pipe)]).
Proof.
  intros Hpos Hs Hp Hv Hst Hc.
  destruct (XISPCameraConfiguration.config_ c) as [|first rest] eqn:Hcfg.
  { unfold validate in Hv. rewrite Hcfg in Hv. inversion Hv; subst.
    congruence. }
  rewrite (validate_first_entry data c first rest Hcfg),
    (stream_set_ascending data Hpos), Hs in Hv.
  cbn [length seq map] in Hv. inversion Hv; subst; clear Hv.
  destruct (configure_camera_data _ _ _ _ _ _ Hc)
    as [(Hr & _)|(k & -> & Hok & _)]; [congruence|].
  rewrite (Hok eq_refl). cbn [XISPCameraConfiguration.config_ length take map
    bound_entry StreamConfiguration.stream_ XISPCameraData.enabledStreams_
    XISPCameraData.set_enabledStreams].
  split; [reflexivity|]. split.
  - destruct (start_streams_until_failure h
                (XISPCameraData.set_enabledStreams data
                   [Some (stream_addr data 0)])
                pipe pipes s0 ss 1 Hp Hs)
      as (ret & tr' & Hrun & Hstops & _).
    exists ret, tr'. split; [exact Hrun|exact Hstops].
  - eexists. split.
    + exact (stop_streams_all h
               (XISPCameraData.set_enabledStreams data
                  [Some (stream_addr data 0)])
               pipe pipes 1 Hp).
    + reflexivity.
Qed.

End LifeCycle.

(** ** Buffer-ready reports in any order and number *)

Section CompletionMore.

Context {platform : Platform}.

(** X20. The handler never completes a Request early: whatever buffers
    are reported, in whatever order and however often, as long as a slot
    of the Request is left unfulfilled at the end the Request was not
    marked complete by any of the reports. *)
Theorem bufferReady_never_completes_early reports : forall request,
  Request.pending_ (handle_reports request reports) <> ∅ ->
  Request.completions (handle_reports request reports)
  = Request.completions request.
Proof.
  induction reports as [|b rest IH]; intros request Hp; [reflexivity|].
  rewrite handle_reports_cons in *.
  rewrite (IH _ Hp), bufferReady_completions.
  rewrite bool_decide_false; [reflexivity|].
  intros He. apply Hp, handle_reports_pending_empty.
  rewrite bufferReady_pending. exact He.
Qed.

End CompletionMore.

(** * The theorems at concrete inputs *)

(** The concrete handler and configuration are what the code computes. *)
Lemma handler0_discovered :
  exists tr,
    @match_ good_platform (PipelineHandlerXISP.make 0) (system [pipeline0])
    = Some (true, handler0, tr).
Proof. eexists. vm_compute. reflexivity. Qed.

Lemma validated2_computed :
  @validate good_platform data0 proposal2 = Some (Adjusted, validated2).
Proof. vm_compute. reflexivity. Qed.


Lemma validate_truncates_witness :
  exists entry sensorFormat,
    @validate good_platform new_data proposal2
    = Some (Adjusted, XISPCameraConfiguration.mk [entry] sensorFormat)
    /\ StreamConfiguration.stream_ entry
       = Some (XISPCameraData.streams_base new_data).
Proof.
  destruct (proj1 (@validate_truncates_to_stream0 good_platform new_data
                     proposal2 eq_refl))
    as (entry & sensorFormat & Hv & Hs & Hb).
  - cbn. lia.
  - exists entry, sensorFormat. split; [exact Hv|]. rewrite Hs, Hb. reflexivity.
Defined.


Lemma generateConfiguration_witness :
  exists cfg sensorFormat,
    @generateConfiguration good_platform new_data [Viewfinder]
    = Some (Some (XISPCameraConfiguration.mk [cfg] sensorFormat))
    /\ StreamConfiguration.size cfg = Size.mk 640 480
    /\ StreamConfiguration.pixelFormat cfg = RBG888
    /\ StreamConfiguration.bufferCount cfg = 4%N
    /\ StreamConfiguration.stride cfg = 1920%N
    /\ StreamConfiguration.frameSize cfg = 921600%N.
Proof.
  destruct (proj1 (proj2 (@generateConfiguration_defaults good_platform
                            new_data [Viewfinder] eq_refl))
              Viewfinder eq_refl)
    as (cfg & sensorFormat & Hg & Hsize & Hfmt & Hcount & Hstride & Hframe).
  - apply list_elem_of_further, list_elem_of_here.
  - exists cfg, sensorFormat. rewrite Hstride, Hframe. auto 10.
Defined.

Lemma discovery_instance2_witness :
  exists h' tr1,
    @match_ good_platform (PipelineHandlerXISP.make 0) (system [pipeline2])
    = Some (true, h', acquisitions 3 ++ tr1)
    /\ PipelineHandlerXISP.mediaDev_ h' = Some pipeline2
    /\ length (PipelineHandlerXISP.cameras_ h') = 1%nat.
Proof.
  destruct (proj2 (proj2 (@discovery_first_match_wins good_platform
                            (PipelineHandlerXISP.make 0) (system [pipeline2])))
              (CameraSensor.mk pipeline2_sensor pipeline2_sensor))
    as (h' & tr1 & Hm & _ & Hmd & Hcam);
    try (vm_compute; reflexivity).
  exists h', tr1. rewrite Hcam. auto.
Defined.

Lemma configure_chain_witness :
  exists data' tr,
    @configure good_platform handler0 data0 validated2
    = Some ((0%Z, data'),
            Event.mk (LinkSetEnabled "imx219 1-0010") 0 :: tr)
    /\ length tr = 8%nat
    /\ Forall (fun ev => Event.rc ev = 0%Z) tr.
Proof.
  destruct (@configure_upstream_to_downstream good_platform handler0 data0
              validated2 sensor0 "80050000.mipi_csi2_rx_subsystem"
              "a0010000.ISPPipeline_accel" pipe0
              eq_refl eq_refl eq_refl eq_refl)
    as (ret & data' & tr & Hc & _ & _ & n & Hcalls & Hok & _).
  assert (Hret : ret = 0%Z).
  { revert Hc. vm_compute. intros Hc. now inversion Hc. }
  subst ret. destruct (Hok eq_refl) as [Hn Hall].
  exists data', tr. split; [exact Hc|]. split; [|exact Hall].
  apply (f_equal length) in Hcalls.
  rewrite length_map, length_take, length_map, Hn in Hcalls.
  rewrite Hcalls. reflexivity.
Defined.

Lemma configure_twice_witness :
  exists ret data1 tr,
    @configure good_platform handler0 data0 validated2
    = Some ((ret, data1), tr)
    /\ @configure good_platform handler0 data1 validated2
       = Some ((ret, data1), tr)
    /\ XISPCameraData.enabledStreams_ data1 = [Some 4096%Z].
Proof.
  eexists _, _, _. split; [vm_compute; reflexivity|].
  split; [|reflexivity].
  apply (@configure_twice_same good_platform handler0 data0).
  vm_compute. reflexivity.
Defined.

Lemma runtime_ops_witness :
  @pipeIndex good_platform data0 4096 = 0%N
  /\ @pipeFromStream good_platform handler0 data0 4096 = dev_ret pipe0.
Proof.
  destruct (@runtime_ops_resolve_pipe0 good_platform handler0 data0 pipe0 4096
              eq_refl eq_refl)
    as (Hi & Hp & _).
  - apply list_elem_of_here.
  - split; [exact Hi|exact Hp].
Defined.

Lemma bufferReady_once_witness :
  Request.completions
    (@handle_reports good_platform (Request.queued [1; 2]%N)
       [FrameBuffer.mk 1 100; FrameBuffer.mk 1 150; FrameBuffer.mk 2 200])
  = 1%nat.
Proof.
  apply (proj1 (proj2 (@bufferReady_completes_once good_platform
                         (Request.queued [1; 2]%N)
                         [FrameBuffer.mk 1 100; FrameBuffer.mk 1 150;
                          FrameBuffer.mk 2 200]))
           [FrameBuffer.mk 1 100; FrameBuffer.mk 1 150]
           (FrameBuffer.mk 2 200) eq_refl).
  - intros He.
    assert (Hin : (2%N ∈ (∅ : gset N))).
    { rewrite <- He. apply (bool_decide_unpack _). vm_compute. reflexivity. }
    revert Hin. apply not_elem_of_empty.
  - apply (bool_decide_unpack _). vm_compute. reflexivity.
Defined.

Lemma match_true_cases_witness :
  PipelineHandlerXISP.pipes_ handler0 = [pipe0]
  /\ exists tr0 tr,
       @match_ good_platform (PipelineHandlerXISP.make 0) (system [pipeline0])
       = Some (true, handler0, tr)
       /\ tr = tr0
               ++ open_sequence "80050000.mipi_csi2_rx_subsystem"
                    "a0010000.ISPPipeline_accel" "a0040000.v_proc_ss"
                    "vcap_mipi_0_v_proc output 0".
Proof.
  destruct handler0_discovered as [tr Hm].
  destruct (@match_true_cases good_platform (PipelineHandlerXISP.make 0)
              (system [pipeline0]) handler0 tr eq_refl eq_refl Hm)
    as (dev & tr0 & csi2rx & xisp & resizer & capture & Hfind & Hc & Hx & Hr
        & Hp & _ & _ & _ & _ & _ & [(_ & Htr & Hpipes & _)|(Hfail & _)]).
  - split; [reflexivity|]. exists tr0, tr. split; [exact Hm|].
    assert (Hdev : dev = pipeline0).
    { revert Hfind. vm_compute. intros Hfind. now inversion Hfind. }
    subst dev. rewrite Htr.
    revert Hc Hx Hr Hp. vm_compute. intros Hc Hx Hr Hp.
    inversion Hc; inversion Hx; inversion Hr; inversion Hp. reflexivity.
  - exfalso. apply Hfail. reflexivity.
Defined.

(** ** The further properties at concrete inputs *)

Lemma validate_keeps_request_witness :
  exists entry,
    XISPCameraConfiguration.config_ validated2 = [entry]
    /\ requested entry = (RGB888, Size.mk 1280 720, 4%N).
Proof.
  destruct (@validate_keeps_request good_platform data0 proposal2 Adjusted
              validated2 validated2_computed)
    as (entry & Hentry & Hreq & _).
  - discriminate.
  - exists entry. split; [exact Hentry|].
    unfold proposal2 in Hreq.
    cbn [XISPCameraConfiguration.config_ map head] in Hreq.
    apply (inj Some) in Hreq. rewrite <- Hreq. reflexivity.
Defined.

Lemma validate_binds_stream0_witness :
  exists status sensorFormat,
    @validate good_platform new_data proposal2
    = Some (status,
            XISPCameraConfiguration.mk
              [@bound_entry good_platform request_720p 4096] sensorFormat).
Proof.
  apply (proj2 (@validate_binds_stream0_any_count good_platform new_data
                  proposal2 request_720p [request_vga]
                  ltac:(reflexivity) eq_refl)).
  discriminate.
Defined.

Lemma validate_idempotent_witness :
  @validate good_platform data0 validated2 = Some (Valid, validated2).
Proof.
  apply (@validate_idempotent good_platform data0 proposal2 Adjusted
           validated2 validated2_computed).
  discriminate.
Defined.

Lemma generateConfiguration_validates_witness :
  exists config,
    @generateConfiguration good_platform new_data [Viewfinder]
    = Some (Some config)
    /\ @validate good_platform new_data config = Some (Valid, config).
Proof.
  eexists. split; [vm_compute; reflexivity|].
  destruct (@generateConfiguration_validates good_platform new_data
              [Viewfinder] _ ltac:(vm_compute; reflexivity))
    as [(Hnil & _)|(_ & Hv)]; [discriminate Hnil|exact Hv].
Defined.

Lemma generateConfiguration_ignores_role_witness :
  @generateConfiguration good_platform new_data [Raw]
  = @generateConfiguration good_platform new_data [Viewfinder].
Proof.
  apply (@generateConfiguration_ignores_role good_platform new_data
           [Raw] [Viewfinder]);
    first [discriminate | reflexivity | cbn; lia].
Defined.

Lemma match_succeeds_witness :
  exists h',
    @match_ good_platform (PipelineHandlerXISP.make 0) (system [pipeline0])
    = Some (true, h',
            acquisitions 1
            ++ open_sequence "80050000.mipi_csi2_rx_subsystem"
                 "a0010000.ISPPipeline_accel" "a0040000.v_proc_ss"
                 "vcap_mipi_0_v_proc output 0")
    /\ PipelineHandlerXISP.pipes_ h' = [pipe0]
    /\ recorded_profile h' = (Size.mk 1920 1080, MEDIA_BUS_FMT_SRGGB10_1X10).
Proof.
  destruct (@match_succeeds good_platform (PipelineHandlerXISP.make 0)
              (system [pipeline0]) pipeline0 (acquisitions 1)
              "80050000.mipi_csi2_rx_subsystem" "a0010000.ISPPipeline_accel"
              "a0040000.v_proc_ss" "vcap_mipi_0_v_proc output 0"
              (MediaEntity.mk "imx219 1-0010" MEDIA_ENT_F_CAM_SENSOR) sensor0)
    as (h' & Hm & _ & _ & _ & Hp & _ & Hprof);
    try (vm_compute; reflexivity).
  exists h'. split; [exact Hm|]. split; [exact Hp|].
  rewrite Hprof. vm_compute. reflexivity.
Defined.

Lemma match_false_registers_nothing_witness :
  exists h' tr,
    @match_ good_platform handler0 (system []) = Some (false, h', tr)
    /\ PipelineHandlerXISP.cameras_ h' = PipelineHandlerXISP.cameras_ handler0.
Proof.
  eexists _, _. split; [vm_compute; reflexivity|].
  apply (proj1 (@match_false_registers_nothing good_platform handler0
                  (system []) false _ _ ltac:(vm_compute; reflexivity))).
  reflexivity.
Defined.

Lemma match_opens_in_order_witness :
  exists tr tr1,
    @match_ good_platform (PipelineHandlerXISP.make 0) (system [pipeline0])
    = Some (true, handler0, tr)
    /\ tr = acquisitions 1 ++ tr1
    /\ map Event.call tr1
       `prefix_of`
       [ Open "80050000.mipi_csi2_rx_subsystem";
         Open "a0010000.ISPPipeline_accel"; Open "a0040000.v_proc_ss";
         ConnectBufferReady "vcap_mipi_0_v_proc output 0";
         Open "vcap_mipi_0_v_proc output 0" ].
Proof.
  destruct handler0_discovered as [tr Hm].
  destruct (@match_opens_in_order good_platform (PipelineHandlerXISP.make 0)
              (system [pipeline0]) (Some pipeline0) (acquisitions 1) true
              handler0 tr ltac:(vm_compute; reflexivity) Hm)
    as (tr1 & Htr & Hpre & _).
  exists tr, tr1. split; [exact Hm|]. split; [exact Htr|]. exact Hpre.
Defined.

Lemma match_without_sensor_witness :
  @match_ good_platform (PipelineHandlerXISP.make 0)
    (system [pipeline0_no_sensor]) = None.
Proof.
  apply (@match_without_sensor_undefined good_platform
           (PipelineHandlerXISP.make 0) (system [pipeline0_no_sensor])
           pipeline0_no_sensor (acquisitions 1)
           "80050000.mipi_csi2_rx_subsystem" "a0010000.ISPPipeline_accel"
           "a0040000.v_proc_ss" "vcap_mipi_0_v_proc output 0");
    try (vm_compute; reflexivity).
  repeat constructor.
Defined.

Lemma match_late_failure_witness :
  exists h',
    @match_ good_platform (PipelineHandlerXISP.make 0)
      (system [pipeline0_odd_sensor])
    = Some (false, h',
            acquisitions 1
            ++ open_sequence "80050000.mipi_csi2_rx_subsystem"
                 "a0010000.ISPPipeline_accel" "a0040000.v_proc_ss"
                 "vcap_mipi_0_v_proc output 0")
    /\ PipelineHandlerXISP.pipes_ h' = [pipe0]
    /\ PipelineHandlerXISP.cameras_ h' = [].
Proof.
  apply (@match_late_failure_keeps_pipe good_platform
           (PipelineHandlerXISP.make 0) (system [pipeline0_odd_sensor])
           pipeline0_odd_sensor (acquisitions 1)
           "80050000.mipi_csi2_rx_subsystem" "a0010000.ISPPipeline_accel"
           "a0040000.v_proc_ss" "vcap_mipi_0_v_proc output 0"
           (MediaEntity.mk "imx219 1-0010" MEDIA_ENT_F_VID_IF_BRIDGE));
    try (vm_compute; reflexivity).
  left. discriminate.
Defined.

Lemma match_records_profiles_witness :
  recorded_profile handler0 = (Size.mk 1920 1080, MEDIA_BUS_FMT_SRGGB10_1X10).
Proof.
  destruct handler0_discovered as [tr Hm].
  rewrite (proj1 (@match_records_profiles good_platform
                    (PipelineHandlerXISP.make 0) (system [pipeline0])
                    pipeline0 (acquisitions 1) true handler0 tr
                    ltac:(vm_compute; reflexivity) Hm)).
  vm_compute. reflexivity.
Defined.

Lemma configure_enabled_streams_witness :
  exists data' tr,
    @configure good_platform handler0 data0 validated2
    = Some ((0%Z, data'), tr)
    /\ XISPCameraData.enabledStreams_ data' = [Some 4096%Z].
Proof.
  eexists _, _. split; [vm_compute; reflexivity|].
  destruct (@configure_enabled_streams good_platform handler0 data0
              validated2 0 _ _ ltac:(vm_compute; reflexivity))
    as (_ & _ & _ & Hen & _).
  exact (Hen eq_refl).
Defined.

Lemma pipeIndex_round_trip_witness :
  @pipeIndex good_platform data0 (4096 + 3 * 64) = 3%N.
Proof.
  apply (proj1 (@pipeIndex_round_trip good_platform handler0 data0 3
                  ltac:(reflexivity) ltac:(reflexivity))).
Defined.

Lemma start_witness :
  exists ret tr,
    @start good_platform handler0 data0_configured = Some (ret, tr)
    /\ @stops_at_first_failure good_platform
         (start_calls "vcap_mipi_0_v_proc output 0" 0 1) ret tr.
Proof.
  destruct (@start_stops_at_first_failure good_platform handler0
              data0_configured pipe0 [] Stream.fresh [] eq_refl)
    as (ret & tr & Hrun & Hstops & _).
  - vm_compute. reflexivity.
  - repeat constructor.
  - exists ret, tr. split; [exact Hrun|exact Hstops].
Defined.

Lemma stopDevice_witness :
  exists tr,
    @stopDevice good_platform handler0 data0_configured = Some (tt, tr)
    /\ length tr = 2%nat.
Proof.
  destruct (@stopDevice_ignores_failures good_platform handler0
              data0_configured pipe0 [] eq_refl)
    as (tr & Hrun & _ & _ & Hlen).
  - repeat constructor.
  - exists tr. split; [exact Hrun|exact Hlen].
Defined.

Lemma queueRequestDevice_witness :
  exists ret tr,
    @queueRequestDevice queue_fails_platform handler_two_pipes
      data_two_streams [(4096%Z, 1%N); (4160%Z, 2%N)]
    = Some (ret, tr)
    /\ @stops_at_first_failure queue_fails_platform
         [QueueBuffer "vcap_mipi_0_v_proc output 0" 1;
          QueueBuffer "vcap_mipi_1_v_proc output 0" 2] ret tr
    /\ ret = (- EIO)%Z
    /\ tr = [Event.mk (QueueBuffer "vcap_mipi_0_v_proc output 0" 1)
               (- EIO)%Z].
Proof.
  destruct (@queueRequestDevice_stops_at_first_failure queue_fails_platform
              handler_two_pipes data_two_streams
              [(4096%Z, 1%N); (4160%Z, 2%N)] [pipe0; pipe1]
              ltac:(reflexivity))
    as (ret & tr & Hrun & Hstops & _).
  - constructor; [exists 0%nat; repeat split|].
    constructor; [exists 1%nat; repeat split|constructor].
  - exists ret, tr. split; [exact Hrun|]. split; [exact Hstops|].
    revert Hrun. vm_compute. intros Hrun. inversion Hrun. split; reflexivity.
Defined.

Lemma configure_then_start_witness :
  exists data' tr ret tr',
    @configure good_platform handler0 data0 validated2
    = Some ((0%Z, data'), tr)
    /\ XISPCameraData.enabledStreams_ data' = [Some 4096%Z]
    /\ @start good_platform handler0 data' = Some (ret, tr').
Proof.
  assert (Hc : @configure good_platform handler0 data0 validated2
               = Some ((0%Z, data0_configured),
                       snd (default ((0%Z, data0), [])
                              (@configure good_platform handler0 data0
                                 validated2))))
    by (vm_compute; reflexivity).
  destruct (@configure_then_start good_platform handler0 data0 proposal2
              Adjusted validated2 data0_configured _ pipe0 [] Stream.fresh []
              ltac:(reflexivity) eq_refl eq_refl validated2_computed
              ltac:(discriminate) Hc)
    as (Hen & (ret & tr' & Hrun & _) & _).
  eexists _, _, ret, tr'. split; [exact Hc|]. split; [exact Hen|exact Hrun].
Defined.

Lemma bufferReady_never_early_witness :
  Request.completions
    (@handle_reports good_platform (Request.queued [1; 2]%N)
       [FrameBuffer.mk 1 100; FrameBuffer.mk 1 150]) = 0%nat.
Proof.
  apply (@bufferReady_never_completes_early good_platform
           [FrameBuffer.mk 1 100; FrameBuffer.mk 1 150]
           (Request.queued [1; 2]%N)).
  intros He.
  assert (Hin : (2%N ∈ (∅ : gset N))).
  { rewrite <- He. apply (bool_decide_unpack _). vm_compute. reflexivity. }
  revert Hin. apply not_elem_of_empty.
Defined.

Lemma sensor_profile_lookup_witness :
  let st := Scan.mk (PipelineHandlerXISP.make 0) None None None in
  let profile name :=
    recorded_profile
      (Scan.handler
         (scan_entity st (MediaEntity.mk name MEDIA_ENT_F_CAM_SENSOR))) in
  profile "imx219 1-0010" = (Size.mk 1920 1080, MEDIA_BUS_FMT_SRGGB10_1X10)
  /\ profile "imx708" = (Size.mk 1536 864, MEDIA_BUS_FMT_SRGGB10_1X10)
  /\ profile "imx477 4-001a" = (Size.mk 1332 990, MEDIA_BUS_FMT_SRGGB10_1X10)
  /\ profile "imx500 3-001a" = (Size.mk 2028 1520, MEDIA_BUS_FMT_SRGGB10_1X10)
  /\ profile "dw9807 2-000c" = (Size.zero, 0%N).
Proof.
  intros st profile. subst profile. cbv beta.
  split; [|split; [|split; [|split]]].
  - apply (proj1 (proj2 (proj2 (proj2
             (sensor_profile_lookup st
                (MediaEntity.mk "imx219 1-0010" MEDIA_ENT_F_CAM_SENSOR))))));
      reflexivity.
  - apply (proj1 (proj2 (proj2
             (sensor_profile_lookup st
                (MediaEntity.mk "imx708" MEDIA_ENT_F_CAM_SENSOR)))));
      reflexivity.
  - apply (proj1 (proj2
             (sensor_profile_lookup st
                (MediaEntity.mk "imx477 4-001a" MEDIA_ENT_F_CAM_SENSOR))));
      reflexivity.
  - apply (proj1
             (sensor_profile_lookup st
                (MediaEntity.mk "imx500 3-001a" MEDIA_ENT_F_CAM_SENSOR)));
      reflexivity.
  - apply (proj2 (proj2 (proj2 (proj2
             (sensor_profile_lookup st
                (MediaEntity.mk "dw9807 2-000c" MEDIA_ENT_F_CAM_SENSOR))))));
      reflexivity.
Defined.
